(** * The manifest.json parser of addons-linter

    A shallow embedding of [src/parsers/manifestjson.js] (class
    [ManifestJSONParser]) and the properties of its validation rules.

    Conventions of the embedding:
    - a JavaScript value is a [value]; an object is the list of its own
      enumerable properties in [Object.keys] order;
    - [this.collector.addError/addWarning/addNotice] calls are recorded, in
      call order, in a log of [Diagnostic]s;
    - an expression that can raise a [TypeError] evaluates to [Throw], and
      a method that raises ends in [Raised], with the parser and the
      collector as they are then;
    - what the file imports from modules that are not part of it (the
      messages, the constants, the helpers of [utils], the npm packages) is
      a field of the classes [Messages], [Imports] and [ThemeImports]. *)

From Stdlib Require Import ZArith String Ascii List Bool Lia.
From stdpp Require Import base option list strings gmap pretty.

Open Scope string_scope.
Open Scope list_scope.
Set Warnings "-register-all".

(** ** JavaScript values *)

Module JS.

Inductive value : Type :=
| VUndefined
| VNull
| VBool (b : bool)
| VNum (n : Z)
| VStr (s : string)
| VArr (elems : list value)
| VObj (props : list (string * value)).

(** Outcome of a statement that may raise. *)
Inductive Res (A : Type) : Type :=
| Ok (a : A)
| Throw.
Arguments Ok {A} a.
Arguments Throw {A}.

Definition bind {A B} (r : Res A) (k : A -> Res B) : Res B :=
  match r with
  | Ok a => k a
  | Throw => Throw
  end.

(** ToBoolean. *)
Definition truthy (v : value) : bool :=
  match v with
  | VUndefined | VNull => false
  | VBool b => b
  | VNum n => negb (Z.eqb n 0)
  | VStr s => negb (String.eqb s "")
  | VArr _ | VObj _ => true
  end.

(** First binding of [k] in a property list. *)
Fixpoint assoc {A} (k : string) (l : list (string * A)) : option A :=
  match l with
  | [] => None
  | (k', v) :: l' => if String.eqb k k' then Some v else assoc k l'
  end.

(** [Object.prototype.hasOwnProperty.call(o, k)] for a plain object. *)
Definition hasOwn {A} (k : string) (l : list (string * A)) : bool :=
  match assoc k l with
  | Some _ => true
  | None => false
  end.

(** Strings.  A string is the sequence of its characters; letters are
    folded by case on the ASCII range. *)

Definition lower_ascii (c : ascii) : ascii :=
  let n := nat_of_ascii c in
  if (65 <=? n)%nat && (n <=? 90)%nat then ascii_of_nat (n + 32) else c.

Definition upper_ascii (c : ascii) : ascii :=
  let n := nat_of_ascii c in
  if (97 <=? n)%nat && (n <=? 122)%nat then ascii_of_nat (n - 32) else c.

Fixpoint map_string (f : ascii -> ascii) (s : string) : string :=
  match s with
  | EmptyString => EmptyString
  | String c s' => String (f c) (map_string f s')
  end.

Definition toLowerCase (s : string) : string := map_string lower_ascii s.
Definition toUpperCase (s : string) : string := map_string upper_ascii s.

Definition startsWith (s p : string) : bool := String.prefix p s.

Definition endsWith (s p : string) : bool :=
  let n := String.length s in
  let k := String.length p in
  (k <=? n)%nat && String.eqb (String.substring (n - k) k s) p.

(** [s.includes(sub)] on strings. *)
Fixpoint includes_str (s sub : string) : bool :=
  String.prefix sub s ||
  match s with
  | EmptyString => false
  | String _ s' => includes_str s' sub
  end.

(** [xs.includes(x)] on an array of strings. *)
Definition includes (xs : list string) (x : string) : bool :=
  existsb (String.eqb x) xs.

Fixpoint join (sep : string) (xs : list string) : string :=
  match xs with
  | [] => ""
  | [x] => x
  | x :: xs' => x +:+ sep +:+ join sep xs'
  end.

Definition dquote : string := String (ascii_of_nat 34) EmptyString.
Definition newline : string := String (ascii_of_nat 10) EmptyString.

(** [String(v)], also the conversion of a template literal.  Numbers are
    integers in the model and print in decimal. *)
Fixpoint js_String (v : value) : string :=
  match v with
  | VUndefined => "undefined"
  | VNull => "null"
  | VBool true => "true"
  | VBool false => "false"
  | VNum n => pretty n
  | VStr s => s
  | VArr l =>
      join ","
        (map (fun e =>
                match e with
                | VUndefined | VNull => ""
                | _ => js_String e
                end) l)
  | VObj _ => "[object Object]"
  end.

(** Own properties.  An array has its indices, a string its characters. *)

Definition indexKeys (n : nat) : list string :=
  map (fun i => pretty (Z.of_nat i)) (seq 0 n).

Fixpoint chars (s : string) : list value :=
  match s with
  | EmptyString => []
  | String c s' => VStr (String c EmptyString) :: chars s'
  end.

Definition indexed (l : list value) : list (string * value) :=
  combine (indexKeys (length l)) l.

(** The own enumerable properties of a value that is not [undefined] or
    [null], in [Object.keys] order. *)
Definition ownProps (v : value) : list (string * value) :=
  match v with
  | VObj props => props
  | VArr l => indexed l
  | VStr s => indexed (chars s)
  | _ => []
  end.

(** [Object.keys(v)]. *)
Definition keys (v : value) : Res (list string) :=
  match v with
  | VUndefined | VNull => Throw
  | _ => Ok (map fst (ownProps v))
  end.

(** The [length] of an array or of a string. *)
Definition lengthOf (v : value) : value :=
  match v with
  | VArr l => VNum (Z.of_nat (length l))
  | VStr s => VNum (Z.of_nat (String.length s))
  | _ => VUndefined
  end.

(** [v[k]] and [v.k] for a data property [k]; reading a property of
    [undefined] or [null] raises. *)
Definition get (v : value) (k : string) : Res value :=
  match v with
  | VUndefined | VNull => Throw
  | _ =>
      match assoc k (ownProps v) with
      | Some x => Ok x
      | None =>
          if String.eqb k "length" then Ok (lengthOf v) else Ok VUndefined
      end
  end.

(** [Object.prototype.hasOwnProperty.call(v, k)]. *)
Definition hasOwnProperty (v : value) (k : string) : Res bool :=
  match v with
  | VUndefined | VNull => Throw
  | VArr _ | VStr _ => Ok (hasOwn k (ownProps v) || String.eqb k "length")
  | _ => Ok (hasOwn k (ownProps v))
  end.

(** [k in o] for a key that no prototype has; a primitive has no [in]. *)
Definition hasProperty (v : value) (k : string) : Res bool :=
  match v with
  | VObj props => Ok (hasOwn k props)
  | VArr _ => Ok (hasOwn k (ownProps v) || String.eqb k "length")
  | _ => Throw
  end.

(** [a && b] on values: the first falsy operand, else the last. *)
Definition js_and (a : value) (b : Res value) : Res value :=
  if truthy a then b else Ok a.

(** [o.k = v] on an object: the property keeps its place when it exists
    and is added last when it does not. *)
Fixpoint setProp (k : string) (v : value) (props : list (string * value))
    : list (string * value) :=
  match props with
  | [] => [(k, v)]
  | (k', v') :: rest =>
      if String.eqb k k' then (k', v) :: rest
      else (k', v') :: setProp k v rest
  end.

End JS.

Import JS.

(** ** Diagnostics *)

(** [undefined], [null] or a value. *)
Inductive Maybe (A : Type) : Type :=
| MUndefined
| MNull
| MVal (a : A).
Arguments MUndefined {A}.
Arguments MNull {A}.
Arguments MVal {A} a.

(** A message object of the [messages] module, or the object
    [{ ...baseObject, ...overrides }] built from one.  [code] is [None]
    when the object has no [code]. *)
Record Message : Type := mkMessage {
  code : option string;
  message : string;
  description : Maybe string;
  instancePath : option string
}.

Inductive Severity : Type := SevError | SevWarning | SevNotice.

(** One call of the collector: [addError], [addWarning] or [addNotice]. *)
Definition Diagnostic : Type := (Severity * Message)%type.

Definition addError (m : Message) : Diagnostic := (SevError, m).
Definition addWarning (m : Message) : Diagnostic := (SevWarning, m).
Definition addNotice (m : Message) : Diagnostic := (SevNotice, m).

(** ** What the file imports *)

(** An error object of the schema validator (ajv): [instancePath],
    [keyword], [message] ([None] when undefined), [data] and
    [params.privilegedPermissions] ([None] when undefined). *)
Record SchemaError : Type := mkSchemaError {
  err_instancePath : string;
  err_keyword : string;
  err_message : option string;
  err_data : value;
  err_privilegedPermissions : option (list value)
}.

(** The exports of [messages] that the parser uses.  A constant is a
    [Message]; a message function takes what the parser passes to it; the
    four codes that the parser compares with [code]s are strings. *)
Class Messages : Type := {
  JSON_INVALID : Message;
  MANIFEST_FIELD_REQUIRED : Message;
  MANIFEST_FIELD_DEPRECATED : Maybe Message;
  MANIFEST_FIELD_INVALID : Message;
  APPLICATIONS_INVALID : Message;
  MANIFEST_BAD_PERMISSION : Message;
  MANIFEST_BAD_OPTIONAL_PERMISSION : Message;
  MANIFEST_BAD_HOST_PERMISSION : Message;
  MANIFEST_PERMISSIONS : Message;
  MANIFEST_OPTIONAL_PERMISSIONS : Message;
  MANIFEST_HOST_PERMISSIONS : Message;
  MANIFEST_PERMISSION_UNSUPPORTED : string;
  MANIFEST_FIELD_UNSUPPORTED : string;
  MANIFEST_PERMISSIONS_PRIVILEGED : string;
  MANIFEST_FIELD_PRIVILEGED : string;
  (** [messages[name]] *)
  messages_lookup : string -> Maybe Message;
  manifestPermissionUnsupported : value -> SchemaError -> Message;
  manifestFieldUnsupported : string -> option SchemaError -> Message;
  mozillaAddonsPermissionRequired : SchemaError -> Message;
  privilegedFeaturesRequired : SchemaError -> Message;
  manifestPermissionsPrivileged : SchemaError -> Message;
  manifestFieldPrivileged : SchemaError -> Message;
  manifestFieldPrivilegedOnly : string -> Message;
  IGNORED_APPLICATIONS_PROPERTY : Message;
  APPLICATIONS_DEPRECATED : Message;
  MANIFEST_UNUSED_UPDATE : Message;
  MANIFEST_DICT_MISSING_ID : Message;
  MANIFEST_EMPTY_DICTS : Message;
  MANIFEST_MULTIPLE_DICTS : Message;
  MANIFEST_UPDATE_URL : Message;
  STRICT_MAX_VERSION : Message;
  NO_MESSAGES_FILE : Message;
  NO_DEFAULT_LOCALE : Message;
  VERSION_FORMAT_DEPRECATED : Message;
  VERSION_FORMAT_INVALID : Message;
  HIDDEN_NO_ACTION : Message;
  EXTENSION_ID_REQUIRED : Message;
  WRONG_ICON_EXTENSION : Message;
  MANIFEST_INVALID_CONTENT : Message;
  RESTRICTED_HOMEPAGE_URL : Message;
  (** [(key, strict_min_version, versionAdded)] *)
  keyFirefoxUnsupportedByMinVersion : string -> value -> value -> Message;
  permissionFirefoxUnsupportedByMinVersion :
    string -> value -> value -> Message;
  keyFirefoxAndroidUnsupportedByMinVersion :
    string -> value -> value -> Message;
  permissionFirefoxAndroidUnsupportedByMinVersion :
    string -> value -> value -> Message;
  (** [(path, type)] *)
  manifestBackgroundMissing : string -> string -> Message;
  manifestContentScriptFileMissing : string -> string -> Message;
  manifestDictionaryFileMissing : string -> string -> Message;
  noMessagesFileInLocales : string -> Message;
  (** [(permission, permMinVersion)] *)
  makeRestrictedPermission : string -> string -> Message;
  iconIsNotSquare : string -> Message;
  (** [{ path, expected, actual }]; [None] is [NaN] *)
  iconSizeInvalid : string -> option Z -> option Z -> Message;
  corruptIconFile : string -> Message;
  manifestIconMissing : string -> Message;
  manifestCspUnsafeEval : string -> Message;
  manifestCsp : string -> Message
}.

(** The keywords of [SCHEMA_KEYWORDS] ([const]). *)
Record SchemaKeywords : Type := mkSchemaKeywords {
  REQUIRED : string;
  DEPRECATED : string;
  MIN_MANIFEST_VERSION : string;
  MAX_MANIFEST_VERSION : string;
  VALIDATE_PRIVILEGED_PERMISSIONS : string;
  TYPE : string;
  PRIVILEGED : string
}.

(** What [getImageSize] (package [image-size]) returns. *)
Record ImageSize : Type := mkImageSize {
  size_width : Z;
  size_height : Z;
  size_type : string
}.

(** What [getImageMetadata] returns. *)
Record ImageInfo : Type := mkImageInfo {
  width : Z;
  height : Z;
  mime : Maybe string
}.

(** The [schemaValidatorOptions] of the constructor. *)
Record SchemaValidatorOptions : Type := mkSchemaValidatorOptions {
  privileged : bool;
  enableBackgroundServiceWorker : bool
}.

(** The validators of [schema/validator]. *)
Inductive Validator : Type :=
| validateAddon
| validateDictionary
| validateLangPack
| validateSitePermission
| validateStaticTheme.

(** The tree of [@mdn/browser-compat-data]: an object whose key
    [__compat] holds a compatibility statement and whose other keys hold
    sub-trees. *)
Inductive CompatInfo : Type :=
| CompatTree (entries : list CompatEntry)
with CompatEntry : Type :=
| Statement (__compat : value)
| Subkey (subkey : string) (subkeyInfo : CompatInfo).

(** The constants of [const], the helpers of [utils] and the packages.  A
    regular expression is the function that gives the two groups of a
    match. *)
Class Imports : Type := {
  CSP_KEYWORD_RE : string -> bool;
  DEPRECATED_MANIFEST_PROPERTIES : list (string * string);
  FILE_EXTENSIONS_TO_MIME : list (string * string);
  IMAGE_FILE_EXTENSIONS : list string;
  PERMS_DATAPATH_REGEX : string -> option (string * string);
  INSTALL_ORIGINS_DATAPATH_REGEX : string -> option (string * string);
  PACKAGE_EXTENSION : value;
  RESTRICTED_HOMEPAGE_URLS : list string;
  SCHEMA_KEYWORDS : SchemaKeywords;
  BLOCKED_CONTENT_SCRIPT_HOSTS : string;
  (** [JSONParser.parse] ([parsers/json]) on the JSON string: what it
      leaves in [parsedJSON] and [isValid], and what it reports *)
  parse : string -> value * option bool * list Diagnostic;
  (** [Number(s)] on a string; [None] is [NaN] *)
  stringToNumber : string -> option Z;
  (** [oneLine] of [common-tags] *)
  oneLine : string -> string;
  (** [path.join(a, b)] and [path.extname] *)
  path_join : string -> string -> string;
  path_join3 : string -> string -> string -> string;
  path_extname : string -> string;
  upath_toUnix : string -> string;
  (** [mozCompare] of [addons-moz-compare]: -1, 0 or 1 *)
  mozCompare : string -> string -> Z;
  (** [utils] *)
  parseCspPolicy : value -> Res (gmap string (list string));
  normalizePath : value -> Res string;
  isValidVersionString : value -> bool;
  isToolkitVersionString : value -> bool;
  firefoxStrictMinVersion : value -> Res value;
  basicCompatVersionComparison : value -> value -> bool;
  firstStableVersion : value -> Res value;
  (** [bcd.webextensions.manifest] *)
  bcd_manifest : list (string * CompatInfo);
  (** [validate(parsedJSON, options)] and the [validate.errors] it leaves *)
  runValidator :
    Validator -> value -> option SchemaValidatorOptions ->
    bool * list SchemaError;
  (** [getImageSize] on the bytes read so far *)
  getImageSize : list (list Byte.byte) -> Res ImageSize
}.

(** ** The parser object *)

(** The [io] object: its [files] and, for [getFileAsStream(path,
    { encoding })], the chunks of the stream. *)
Record IO : Type := mkIO {
  files : value;
  getFileAsStream : string -> option string -> Res (list (list Byte.byte))
}.

(** The fields of [this].  [isValid] is [None] while it is [null]; a flag
    that the constructor has not set is [false]. *)
Record Parser : Type := mkParser {
  parsedJSON : value;
  isValid : option bool;
  log : list Diagnostic;
  selfHosted : bool;
  schemaValidatorOptions : option SchemaValidatorOptions;
  isStaticTheme : bool;
  isLanguagePack : bool;
  isDictionary : bool;
  isSitePermission : bool;
  io : option IO;
  isAlreadySigned : bool;
  isPrivilegedAddon : bool;
  restrictedPermissions : list (string * string)
}.

Definition set_parsedJSON (v : value) (p : Parser) : Parser :=
  mkParser v (isValid p) (log p) (selfHosted p) (schemaValidatorOptions p)
    (isStaticTheme p) (isLanguagePack p) (isDictionary p)
    (isSitePermission p) (io p) (isAlreadySigned p) (isPrivilegedAddon p)
    (restrictedPermissions p).

Definition set_isValid (b : option bool) (p : Parser) : Parser :=
  mkParser (parsedJSON p) b (log p) (selfHosted p) (schemaValidatorOptions p)
    (isStaticTheme p) (isLanguagePack p) (isDictionary p)
    (isSitePermission p) (io p) (isAlreadySigned p) (isPrivilegedAddon p)
    (restrictedPermissions p).

Definition set_log (l : list Diagnostic) (p : Parser) : Parser :=
  mkParser (parsedJSON p) (isValid p) l (selfHosted p)
    (schemaValidatorOptions p) (isStaticTheme p) (isLanguagePack p)
    (isDictionary p) (isSitePermission p) (io p) (isAlreadySigned p)
    (isPrivilegedAddon p) (restrictedPermissions p).

(** How a method ends: it returns [a], or it raises; in both cases
    [this] and the collector are left as [p]. *)
Inductive Outcome (A : Type) : Type :=
| Done (a : A) (p : Parser)
| Raised (p : Parser).
Arguments Done {A} a p.
Arguments Raised {A} p.

(** A method: it reads and updates [this] and may raise. *)
Definition M (A : Type) : Type := Parser -> Outcome A.

#[export] Instance M_ret : MRet M := fun A a p => Done a p.

#[export] Instance M_bind : MBind M := fun A B k m p =>
  match m p with
  | Done a p' => k a p'
  | Raised p' => Raised p'
  end.

Definition lift {A} (r : Res A) : M A :=
  fun p =>
    match r with
    | Ok a => Done a p
    | Throw => Raised p
    end.

Definition this : M Parser := fun p => Done p p.

(** [this.parsedJSON.k] *)
Definition manifest (k : string) : M value :=
  fun p => lift (get (parsedJSON p) k) p.

(** [this.collector.addError(m)] and the like. *)
Definition collect (d : Diagnostic) : M unit :=
  fun p => Done tt (set_log (log p ++ [d]) p).

(** [this.isValid = false] *)
Definition invalidate : M unit :=
  fun p => Done tt (set_isValid (Some false) p).

Definition when (b : bool) (m : M unit) : M unit :=
  if b then m else mret tt.

(** [xs.forEach(f)] and [for (const x of xs)]. *)
Fixpoint forEach {A} (xs : list A) (f : A -> M unit) : M unit :=
  match xs with
  | [] => mret tt
  | x :: xs' => f x;; forEach xs' f
  end.

(** The parser after a method, whether it returned or raised. *)
Definition final {A} (o : Outcome A) : Parser :=
  match o with
  | Done _ p => p
  | Raised p => p
  end.

(** ** Metadata: [getAddonId], [getExperimentApiPaths], [getMetadata] *)

(** [try { const { id } = this.parsedJSON.applications.gecko; ... }
    catch (e) { return null; }] *)
Definition getAddonId (p : Parser) : value :=
  match
    bind (get (parsedJSON p) "applications") (fun applications =>
    bind (get applications "gecko") (fun gecko =>
    get gecko "id"))
  with
  | Ok VUndefined => VNull
  | Ok id => id
  | Throw => VNull
  end.

(** [o?.paths ?? []] *)
Definition pathsOf (o : value) : value :=
  match o with
  | VUndefined | VNull => VArr []
  | _ =>
      match get o "paths" with
      | Ok VUndefined | Ok VNull | Throw => VArr []
      | Ok v => v
      end
  end.

(** [...v] in an array literal: an array or a string can be spread. *)
Definition spread (v : value) : Res (list value) :=
  match v with
  | VArr l => Ok l
  | VStr s => Ok (chars s)
  | _ => Throw
  end.

(** [Array.isArray(p) && p.length] as a condition. *)
Definition isNonEmptyArray (v : value) : bool :=
  match v with
  | VArr (_ :: _) => true
  | _ => false
  end.

(** [p.join('.')] on an array. *)
Definition joinDot (v : value) : string :=
  match v with
  | VArr l =>
      join "."
        (map (fun e =>
                match e with
                | VUndefined | VNull => ""
                | _ => js_String e
                end) l)
  | _ => ""
  end.

(** [apiPaths.add(s)]: a [Set] keeps its elements in insertion order. *)
Definition setAdd (s : string) (set : list string) : list string :=
  if includes set s then set else set ++ [s].

(** One turn of [for (const key of Object.keys(experiment_apis))]. *)
Definition addApiPaths (experiment_apis : value) (apiPaths : list string)
    (key : string) : Res (list string) :=
  bind (get experiment_apis key) (fun api =>
  bind (get api "child") (fun child =>
  bind (get api "parent") (fun parent =>
  bind (spread (pathsOf parent)) (fun parentPaths =>
  bind (spread (pathsOf child)) (fun childPaths =>
  Ok (fold_left (fun set p => setAdd (joinDot p) set)
        (List.filter isNonEmptyArray (parentPaths ++ childPaths))
        apiPaths)))))).

Fixpoint foldRes {A B} (f : B -> A -> Res B) (xs : list A) (b : B) : Res B :=
  match xs with
  | [] => Ok b
  | x :: xs' => bind (f b x) (foldRes f xs')
  end.

Definition getExperimentApiPaths (p : Parser) : Res (list string) :=
  bind (get (parsedJSON p) "experiment_apis") (fun experiment_apis =>
  if truthy experiment_apis then
    bind (keys experiment_apis) (fun ks =>
    foldRes (addApiPaths experiment_apis) ks [])
  else Ok []).

Record Metadata : Type := mkMetadata {
  id : value;
  manifestVersion : value;
  name : value;
  type : value;
  version : value;
  firefoxMinVersion : value;
  experimentApiPaths : list string
}.

(** [applications && applications.gecko && applications.gecko.k] *)
Definition geckoProperty (parsedJSON : value) (k : string) : Res value :=
  bind (get parsedJSON "applications") (fun applications =>
  js_and applications
    (bind (get applications "gecko") (fun gecko =>
     js_and gecko (get gecko k)))).

Definition getMetadata `{Imports} (p : Parser) : Res Metadata :=
  let id := getAddonId p in
  bind (get (parsedJSON p) "manifest_version") (fun manifestVersion =>
  bind (get (parsedJSON p) "name") (fun name =>
  bind (get (parsedJSON p) "version") (fun version =>
  bind (geckoProperty (parsedJSON p) "strict_min_version")
    (fun firefoxMinVersion =>
  bind (getExperimentApiPaths p) (fun experimentApiPaths =>
  Ok (mkMetadata id manifestVersion name PACKAGE_EXTENSION version
        firefoxMinVersion experimentApiPaths)))))).

(** ** [validateFileExistsInPackage] *)

(** [this.io.files] *)
Definition ioFiles : M value :=
  fun p =>
    match io p with
    | Some i => Done (files i) p
    | None => Raised p
    end.

Definition validateFileExistsInPackage (filePath : value) (type : string)
    (messageFunc : string -> string -> Message) `{Imports} : M bool :=
  _path ← lift (normalizePath filePath);
  fs ← ioFiles;
  exists_ ← lift (hasOwnProperty fs _path);
  if negb exists_ then
    collect (addError (messageFunc _path type));;
    invalidate;;
    mret false
  else mret true.

(** ** The rules of [_validate] on dictionaries, versions and locales *)

(** [filepath.replace(/\.dic$/, '.aff')]; only a string has [replace]. *)
Definition replaceDicByAff (filepath : value) : Res value :=
  match filepath with
  | VStr s =>
      if endsWith s ".dic"
      then Ok (VStr (String.substring 0 (String.length s - 4) s +:+ ".aff"))
      else Ok (VStr s)
  | _ => Throw
  end.

(** Body of [Object.keys(this.parsedJSON.dictionaries).forEach((locale)
    => { ... })]. *)
Definition validateDictionaryFiles `{Messages} `{Imports} (locale : string)
    : M unit :=
  dictionaries ← manifest "dictionaries";
  filepath ← lift (get dictionaries locale);
  validateFileExistsInPackage filepath "binary"
    manifestDictionaryFileMissing;;
  (* A corresponding .aff file should exist for every .dic. *)
  aff ← lift (replaceDicByAff filepath);
  validateFileExistsInPackage aff "binary" manifestDictionaryFileMissing;;
  mret tt.

(** [if (this.parsedJSON.dictionaries) { ... }] *)
Definition validateDictionaries `{Messages} `{Imports} : M unit :=
  dictionaries ← manifest "dictionaries";
  when (truthy dictionaries) (
    p ← this;
    when (negb (truthy (getAddonId p))) (
      collect (addError MANIFEST_DICT_MISSING_ID);;
      invalidate);;
    dictionaries ← manifest "dictionaries";
    ks ← lift (keys dictionaries);
    let numberOfDictionaries := length ks in
    (if (numberOfDictionaries <? 1)%nat then
       collect (addError MANIFEST_EMPTY_DICTS);;
       invalidate
     else if (1 <? numberOfDictionaries)%nat then
       collect (addError MANIFEST_MULTIPLE_DICTS);;
       invalidate
     else mret tt);;
    dictionaries ← manifest "dictionaries";
    ks ← lift (keys dictionaries);
    forEach ks validateDictionaryFiles).

(** [if (!this.isLanguagePack && this.parsedJSON.applications && ...
    .gecko.strict_max_version) { ... }] *)
Definition validateStrictMaxVersion `{Messages} : M unit :=
  p ← this;
  declared ←
    (if negb (isLanguagePack p)
     then lift (geckoProperty (parsedJSON p) "strict_max_version")
     else mret (VBool false));
  when (truthy declared) (
    if isDictionary p then
      invalidate;;
      collect (addError STRICT_MAX_VERSION)
    else
      collect (addNotice STRICT_MAX_VERSION)).

(** Modelled from the spec: the constants [LOCALES_DIRECTORY] and
    [MESSAGES_JSON] of [const], which is not in the sources; the spec's
    locale paths are [_locales/fr/messages.json] and [_locales/de/]. *)
Definition LOCALES_DIRECTORY : string := "_locales".
Definition MESSAGES_JSON : string := "messages.json".

(** A [.] of a regular expression matches any character but a line
    terminator. *)
Definition isLineTerminator (c : ascii) : bool :=
  Ascii.eqb c (ascii_of_nat 10) || Ascii.eqb c (ascii_of_nat 13).

Fixpoint noLineTerminator (s : string) : bool :=
  match s with
  | EmptyString => true
  | String c s' => negb (isLineTerminator c) && noLineTerminator s'
  end.

(** [s] without its prefix [p]. *)
Definition dropPrefix (p s : string) : option string :=
  if String.prefix p s
  then Some (String.substring (String.length p)
               (String.length s - String.length p) s)
  else None.

(** [(.*?)/] at the start of [s]: the text before the first [/]. *)
Fixpoint lazyUntilSlash (s : string) : option string :=
  match s with
  | EmptyString => None
  | String c s' =>
      if Ascii.eqb c "/"%char then Some EmptyString
      else if isLineTerminator c then None
      else option_map (String c) (lazyUntilSlash s')
  end.

(** [fileList[i].match(localeDirRe)] with [localeDirRe] the expression
    [^_locales/(.*?)/]: group 1 of the match. *)
Definition localeDirRe (file : string) : option string :=
  match dropPrefix (LOCALES_DIRECTORY +:+ "/") file with
  | Some rest => lazyUntilSlash rest
  | None => None
  end.

(** [fileList[i].match(localeFileRe)] with [localeFileRe] the expression
    [^_locales/.*?/messages.json$]; the [.] of [messages.json] is the
    wildcard. *)
Definition localeFileRe (file : string) : bool :=
  match dropPrefix (LOCALES_DIRECTORY +:+ "/") file with
  | Some rest =>
      let n := String.length rest in
      let k := String.length MESSAGES_JSON + 1 in
      (k <=? n)%nat
      && noLineTerminator (String.substring 0 (n - k) rest)
      && String.eqb (String.substring (n - k) 9 rest) "/messages"
      && noLineTerminator (String.substring (n - k + 9) 1 rest)
      && String.eqb (String.substring (n - k + 10) 4 rest) "json"
  | None => false
  end.

(** First loop: the locales and the locales with a messages file. *)
Definition collectLocale (acc : list string * list string) (file : string)
    : list string * list string :=
  let '(locales, localesWithMessagesJson) := acc in
  let matches := localeDirRe file in
  let locales' :=
    match matches with
    | Some l => if negb (includes locales l) then locales ++ [l] else locales
    | None => locales
    end in
  let localesWithMessagesJson' :=
    match matches with
    | Some l =>
        if localeFileRe file then localesWithMessagesJson ++ [l]
        else localesWithMessagesJson
    | None => localesWithMessagesJson
    end in
  (locales', localesWithMessagesJson').

Definition collectLocales (fileList : list string)
    : list string * list string :=
  fold_left collectLocale fileList ([], []).

(** Second loop: an error for each locale without a messages file. *)
Definition localeErrors `{Messages} `{Imports}
    (locales localesWithMessagesJson : list string) : list Message :=
  map (fun l => noMessagesFileInLocales (path_join LOCALES_DIRECTORY l))
    (List.filter (fun l => negb (includes localesWithMessagesJson l))
       locales).

(** [this?.io?.files] *)
Definition ioFilesOpt (p : Parser) : value :=
  match io p with
  | Some i => files i
  | None => VUndefined
  end.

(** [if (this?.io?.files) { ... }] *)
Definition validateLocales `{Messages} `{Imports} : M unit :=
  p ← this;
  when (truthy (ioFilesOpt p)) (
    fs ← ioFiles;
    fileList ← lift (keys fs);
    let '(locales, localesWithMessagesJson) := collectLocales fileList in
    let errors := localeErrors locales localesWithMessagesJson in
    default_locale ← manifest "default_locale";
    if negb (truthy default_locale) then
      when (negb (length localesWithMessagesJson =? 0)%nat) (
        collect (addError NO_DEFAULT_LOCALE);;
        invalidate)
    else
      when (0 <? length errors)%nat (
        forEach errors (fun error => collect (addError error));;
        invalidate)).

(** ** Content security policy: [validateCspPolicyString] *)

Definition candidates : list string :=
  ["default-src"; "script-src"; "script-src-elem"; "script-src-attr";
   "worker-src"].

Definition isSecureCspValue `{Imports} (v : string) : bool :=
  CSP_KEYWORD_RE v.

(** [insecureSrcDirective], [warnInsecureCsp] and [warnInsecureEval]. *)
Record CspFlags : Type := mkCspFlags {
  insecureSrcDirective : bool;
  warnInsecureCsp : bool;
  warnInsecureEval : bool
}.

(** Body of [for (const value of values)]. *)
Definition scanValue `{Imports} (candidate : string) (st : CspFlags)
    (v : string) : CspFlags :=
  if String.eqb v "'unsafe-eval'" then
    mkCspFlags (insecureSrcDirective st) (warnInsecureCsp st) true
  else if negb (isSecureCspValue v) then
    mkCspFlags
      (if String.eqb candidate "default-src" then true
       else insecureSrcDirective st)
      true (warnInsecureEval st)
  else st.

(** Body of [for (let i = 0; i < candidates.length; i++)]. *)
Definition checkCandidate `{Imports} (directives : gmap string (list string))
    (st : CspFlags) (candidate : string) : CspFlags :=
  match directives !! candidate with
  | Some values =>
      if insecureSrcDirective st && String.eqb candidate "script-src"
         && forallb isSecureCspValue values
      then mkCspFlags false false (warnInsecureEval st)
      else fold_left (scanValue candidate) values st
  | None => st
  end.

(** [!directives['default-src']] for both flags, and no eval seen. *)
Definition initialCspFlags (directives : gmap string (list string))
    : CspFlags :=
  let insecure :=
    match directives !! "default-src" with
    | Some _ => false
    | None => true
    end in
  mkCspFlags insecure insecure false.

Definition cspFlags `{Imports} (directives : gmap string (list string))
    : CspFlags :=
  fold_left (checkCandidate directives) candidates
    (initialCspFlags directives).

Definition validateCspPolicyString `{Messages} `{Imports} (policy : value)
    (manifestPropName : string) : M unit :=
  directives ← lift (parseCspPolicy policy);
  let st := cspFlags directives in
  when (warnInsecureEval st)
    (collect (addWarning (manifestCspUnsafeEval manifestPropName)));;
  when (warnInsecureCsp st)
    (collect (addWarning (manifestCsp manifestPropName))).

Definition validateCspPolicy `{Messages} `{Imports} (policy : value)
    : M unit :=
  match policy with
  | VStr _ => validateCspPolicyString policy "content_security_policy"
  | VUndefined | VNull => mret tt
  | _ =>
      ks ← lift (keys policy);
      forEach ks (fun key =>
        v ← lift (get policy key);
        validateCspPolicyString v ("content_security_policy." +:+ key))
  end.

(** ** Schema errors: [errorLookup] and the first rule of [_validate] *)

(** The [overrides] object; [o_description] is [None] until the property
    is set. *)
Record Overrides : Type := mkOverrides {
  o_message : string;
  o_instancePath : string;
  o_description : option (Maybe string)
}.

(** An undefined value in a template literal. *)
Definition show (s : option string) : string :=
  match s with
  | Some s => s
  | None => "undefined"
  end.

Definition toMaybe (s : option string) : Maybe string :=
  match s with
  | Some s => MVal s
  | None => MUndefined
  end.

(** The message of the validator, tidied up. *)
Definition tidyMessage (error : SchemaError) : SchemaError :=
  match err_message error with
  | Some m =>
      if negb (String.eqb m "")
         && String.eqb (toLowerCase m) "must match a schema in anyof"
      then mkSchemaError (err_instancePath error) (err_keyword error)
             (Some "is not a valid key or has invalid extra properties")
             (err_data error) (err_privilegedPermissions error)
      else error
  | None => error
  end.

Definition withBase (base : Message) (o : Overrides) : Overrides :=
  mkOverrides (message base) (o_instancePath o) (Some (description base)).

Definition withMessage (m : string) (o : Overrides) : Overrides :=
  mkOverrides m (o_instancePath o) (o_description o).

(** [typeof error.data !== 'undefined' && typeof error.data !== 'string'] *)
Definition presentNotString (v : value) : bool :=
  match v with
  | VUndefined | VStr _ => false
  | _ => true
  end.

(** The chain of [if]s of [errorLookup]: [baseObject] and [overrides]
    before the array elements are looked at. *)
Definition classify `{Messages} `{Imports} (isPrivilegedAddon : bool)
    (error : SchemaError) : Res (Message * Overrides) :=
  let path := err_instancePath error in
  let overrides :=
    mkOverrides
      (dquote +:+ (if String.eqb path "" then "/" else path) +:+ dquote
       +:+ " " +:+ show (err_message error))
      path None in
  let keyword := err_keyword error in
  if String.eqb keyword (REQUIRED SCHEMA_KEYWORDS) then
    Ok (MANIFEST_FIELD_REQUIRED, overrides)
  else if String.eqb keyword (DEPRECATED SCHEMA_KEYWORDS) then
    match assoc path DEPRECATED_MANIFEST_PROPERTIES with
    | Some name =>
        let baseObject :=
          match messages_lookup name with
          | MNull => MANIFEST_FIELD_DEPRECATED
          | b => b
          end in
        match baseObject with
        | MVal base =>
            let errorDescription :=
              match description base with
              | MNull => toMaybe (err_message error)
              | d => d
              end in
            Ok (base,
                mkOverrides (message base) path (Some errorDescription))
        | _ => Throw
        end
    | None => Ok (JSON_INVALID, overrides)
    end
  else if String.eqb keyword (MIN_MANIFEST_VERSION SCHEMA_KEYWORDS)
          || String.eqb keyword (MAX_MANIFEST_VERSION SCHEMA_KEYWORDS) then
    let baseObject :=
      if bool_decide (is_Some (PERMS_DATAPATH_REGEX path)) then
        manifestPermissionUnsupported (err_data error) error
      else if String.eqb path "/applications" then APPLICATIONS_INVALID
      else manifestFieldUnsupported path (Some error) in
    Ok (baseObject, withBase baseObject overrides)
  else if startsWith path "/permissions"
          && String.eqb keyword
               (VALIDATE_PRIVILEGED_PERMISSIONS SCHEMA_KEYWORDS)
          && bool_decide (is_Some (err_privilegedPermissions error)) then
    let baseObject :=
      if isPrivilegedAddon then
        match err_privilegedPermissions error with
        | Some (_ :: _) => mozillaAddonsPermissionRequired error
        | _ => privilegedFeaturesRequired error
        end
      else manifestPermissionsPrivileged error in
    Ok (baseObject, withBase baseObject overrides)
  else if startsWith path "/permissions"
          && presentNotString (err_data error) then
    Ok (MANIFEST_BAD_PERMISSION,
        withMessage ("Permissions " +:+ show (err_message error) +:+ ".")
          overrides)
  else if startsWith path "/optional_permissions"
          && presentNotString (err_data error) then
    Ok (MANIFEST_BAD_OPTIONAL_PERMISSION,
        withMessage ("Permissions " +:+ show (err_message error) +:+ ".")
          overrides)
  else if startsWith path "/host_permissions"
          && presentNotString (err_data error) then
    Ok (MANIFEST_BAD_HOST_PERMISSION,
        withMessage ("Permissions " +:+ show (err_message error) +:+ ".")
          overrides)
  else if String.eqb keyword (TYPE SCHEMA_KEYWORDS) then
    Ok (MANIFEST_FIELD_INVALID, overrides)
  else if String.eqb keyword (PRIVILEGED SCHEMA_KEYWORDS) then
    let baseObject :=
      if isPrivilegedAddon then mozillaAddonsPermissionRequired error
      else manifestFieldPrivileged error in
    Ok (baseObject, withBase baseObject overrides)
  else Ok (JSON_INVALID, overrides).

(** [instancePath.match(PERMS_DATAPATH_REGEX) ||
    instancePath.match(INSTALL_ORIGINS_DATAPATH_REGEX)] *)
Definition arrayElementMatch `{Imports} (path : string)
    : option (string * string) :=
  match PERMS_DATAPATH_REGEX path with
  | Some m => Some m
  | None => INSTALL_ORIGINS_DATAPATH_REGEX path
  end.

(** [a !== b] on codes. *)
Definition codeNe (a b : option string) : bool :=
  negb (bool_decide (a = b)).

(** The message of an element of a permissions or install origins array,
    unless [baseObject] is one of the four kept codes. *)
Definition refine `{Messages} `{Imports} (error : SchemaError)
    (c : Message * Overrides) : Maybe Message * Overrides :=
  let '(baseObject, overrides) := c in
  match arrayElementMatch (err_instancePath error) with
  | Some (g1, g2) =>
      if codeNe (code baseObject) (code MANIFEST_BAD_PERMISSION)
         && codeNe (code baseObject) (code MANIFEST_BAD_OPTIONAL_PERMISSION)
         && codeNe (code baseObject) (code MANIFEST_BAD_HOST_PERMISSION)
         && codeNe (code baseObject) (Some MANIFEST_PERMISSION_UNSUPPORTED)
      then
        (messages_lookup ("MANIFEST_" +:+ toUpperCase g1),
         withMessage
           (oneLine
              ("/" +:+ g1 +:+ ": Invalid " +:+ g1 +:+ newline
               +:+ "          " +:+ dquote +:+ js_String (err_data error)
               +:+ dquote +:+ " at " +:+ g2 +:+ "."))
           overrides)
      else (MVal baseObject, overrides)
  | None => (MVal baseObject, overrides)
  end.

(** [{ ...baseObject, ...overrides }] *)
Definition merge (baseObject : Maybe Message) (o : Overrides) : Message :=
  match baseObject with
  | MVal base =>
      mkMessage (code base) (o_message o)
        (match o_description o with
         | Some d => d
         | None => description base
         end)
        (Some (o_instancePath o))
  | _ =>
      mkMessage None (o_message o)
        (match o_description o with
         | Some d => d
         | None => MUndefined
         end)
        (Some (o_instancePath o))
  end.

(** The codes that are never reported on manifest version 2. *)
Definition ignoredOnMV2 `{Messages} : list (option string) :=
  [code MANIFEST_HOST_PERMISSIONS; code MANIFEST_BAD_HOST_PERMISSION].

(** [v === 2] *)
Definition isTwo (v : value) : bool :=
  match v with
  | VNum n => Z.eqb n 2
  | _ => false
  end.

(** [baseObject] and [overrides] when the filter on manifest version 2 is
    reached. *)
Definition classified `{Messages} `{Imports} (p : Parser)
    (error : SchemaError) : Res (Maybe Message * Overrides) :=
  let error := tidyMessage error in
  bind (classify (isPrivilegedAddon p) error) (fun c =>
  Ok (refine error c)).

(** [errorLookup(error)]; [None] is [null]. *)
Definition errorLookup `{Messages} `{Imports} (p : Parser)
    (error : SchemaError) : Res (option Message) :=
  bind (classified p error) (fun '(baseObject, overrides) =>
  bind (get (parsedJSON p) "manifest_version") (fun manifest_version =>
  if isTwo manifest_version then
    match baseObject with
    | MVal base =>
        if bool_decide (code base ∈ ignoredOnMV2) then Ok None
        else Ok (Some (merge baseObject overrides))
    | _ => Throw
    end
  else Ok (Some (merge baseObject overrides)))).

(** The codes that [_validate] reports as warnings. *)
Definition warnings `{Messages} (p : Parser) : list (option string) :=
  [code MANIFEST_PERMISSIONS;
   code MANIFEST_OPTIONAL_PERMISSIONS;
   code MANIFEST_HOST_PERMISSIONS;
   Some MANIFEST_PERMISSION_UNSUPPORTED;
   Some MANIFEST_FIELD_UNSUPPORTED]
  ++ (if isAlreadySigned p
      then [Some MANIFEST_PERMISSIONS_PRIVILEGED;
            Some MANIFEST_FIELD_PRIVILEGED]
      else []).

Definition selectValidator (p : Parser) : Validator :=
  if isStaticTheme p then validateStaticTheme
  else if isLanguagePack p then validateLangPack
  else if isDictionary p then validateDictionary
  else if isSitePermission p then validateSitePermission
  else validateAddon.

(** Body of [validate.errors.forEach((error) => { ... })]. *)
Definition reportSchemaError `{Messages} `{Imports} (error : SchemaError)
    : M unit :=
  p ← this;
  looked ← lift (errorLookup p error);
  match looked with
  | None => mret tt
  | Some m =>
      (if bool_decide (code m ∈ warnings p)
       then collect (addWarning m)
       else collect (addError m));;
      when (bool_decide (code m = code MANIFEST_BAD_PERMISSION)) invalidate
  end.

(** [this.isValid = validate(...); if (!this.isValid) { ... }] *)
Definition validateSchema `{Messages} `{Imports} : M unit :=
  p ← this;
  let '(valid, errors) :=
    runValidator (selectValidator p) (parsedJSON p)
      (schemaValidatorOptions p) in
  (fun p => Done tt (set_isValid (Some valid) p));;
  when (negb valid) (forEach errors reportSchemaError).

(** ** [validateRestrictedPermissions] *)

(** [permissions.map((permission) => String(permission).toLowerCase())]
    on [this.parsedJSON.permissions] when it is an array, on [[]] when it
    is not. *)
Definition permissionsInManifest (permissions : value) : list string :=
  match permissions with
  | VArr l => map (fun permission => toLowerCase (js_String permission)) l
  | _ => []
  end.

(** [!minVersionSetInManifest ||
    mozCompare(minVersionSetInManifest, permMinVersion) === -1] *)
Definition belowMinVersion `{Imports} (minVersionSetInManifest : string)
    (permMinVersion : string) : bool :=
  String.eqb minVersionSetInManifest ""
  || Z.eqb (mozCompare minVersionSetInManifest permMinVersion) (-1).

(** [this.restrictedPermissions] is a [Map]; the loop visits its entries
    in insertion order. *)
Definition validateRestrictedPermissions `{Messages} `{Imports} : M unit :=
  permissions ← manifest "permissions";
  let inManifest := permissionsInManifest permissions in
  if (length inManifest =? 0)%nat then mret tt
  else
    p ← this;
    metadata ← lift (getMetadata p);
    let minVersionSetInManifest := js_String (firefoxMinVersion metadata) in
    forEach (restrictedPermissions p) (fun '(permission, permMinVersion) =>
      when (includes inManifest permission) (
        when (belowMinVersion minVersionSetInManifest permMinVersion) (
          collect
            (addError (makeRestrictedPermission permission permMinVersion));;
          invalidate))).

(** ** Icons: [getImageMetadata], [validateIcon], [validateIcons] *)

(** A stream is read as the list of its chunks. *)
Definition Stream : Type := list (list Byte.byte).

(** [getStreamImageSize]: the size as soon as the bytes read so far give
    one, else the outcome on all the bytes. *)
Fixpoint readImageSize `{Imports} (read : list (list Byte.byte))
    (stream : Stream) : Res ImageSize :=
  match stream with
  | [] => getImageSize read
  | chunk :: rest =>
      match getImageSize (read ++ [chunk]) with
      | Ok size => Ok size
      | Throw => readImageSize (read ++ [chunk]) rest
      end
  end.

Definition getStreamImageSize `{Imports} (stream : Stream) : Res ImageSize :=
  readImageSize [] stream.

Definition getImageMetadata `{Imports} (io : option IO) (iconPath : string)
    : Res ImageInfo :=
  let encoding := if endsWith iconPath ".svg" then Some "utf-8" else None in
  match io with
  | Some i =>
      bind (getFileAsStream i iconPath encoding) (fun fileStream =>
      bind (getStreamImageSize fileStream) (fun data =>
      Ok (mkImageInfo (size_width data) (size_height data)
            (match assoc (size_type data) FILE_EXTENSIONS_TO_MIME with
             | Some m => MVal m
             | None => MUndefined
             end))))
  | None => Throw
  end.

(** [parseInt(s, 10)]; [None] is [NaN]. *)

Definition isWhiteSpace (c : ascii) : bool :=
  let n := nat_of_ascii c in
  ((9 <=? n)%nat && (n <=? 13)%nat) || (n =? 32)%nat.

Fixpoint skipWhiteSpace (s : string) : string :=
  match s with
  | String c s' => if isWhiteSpace c then skipWhiteSpace s' else s
  | EmptyString => s
  end.

Definition digitOf (c : ascii) : option Z :=
  let n := nat_of_ascii c in
  if (48 <=? n)%nat && (n <=? 57)%nat then Some (Z.of_nat (n - 48))
  else None.

(** The number written by the leading digits of [s], after [acc]. *)
Fixpoint readDigits (acc : option Z) (s : string) : option Z :=
  match s with
  | String c s' =>
      match digitOf c with
      | Some d =>
          readDigits
            (Some (10 * match acc with Some a => a | None => 0 end + d)%Z) s'
      | None => acc
      end
  | EmptyString => acc
  end.

Definition parseIntString (s : string) : option Z :=
  match skipWhiteSpace s with
  | String "-" s' => option_map Z.opp (readDigits None s')
  | String "+" s' => readDigits None s'
  | s' => readDigits None s'
  end.

Definition parseInt (v : value) : option Z := parseIntString (js_String v).

(** [a !== b] on numbers: [NaN] differs from every number and itself. *)
Definition numberNe (a b : option Z) : bool :=
  match a, b with
  | Some x, Some y => negb (Z.eqb x y)
  | _, _ => true
  end.

(** [mime !== 'image/svg+xml'] *)
Definition notSvg (mime : Maybe string) : bool :=
  match mime with
  | MVal m => negb (String.eqb m "image/svg+xml")
  | _ => true
  end.

(** [expectedSize !== null] *)
Definition notNull (v : value) : bool :=
  match v with
  | VNull => false
  | _ => true
  end.

(** [validateIcon(iconPath, expectedSize)], run to its end; what
    [getImageMetadata] raises is caught.  [info.width] is a number, which
    [parseInt] gives back. *)
Definition validateIcon `{Messages} `{Imports} (iconPath : string)
    (expectedSize : value) : M unit :=
  p ← this;
  match getImageMetadata (io p) iconPath with
  | Ok info =>
      if negb (Z.eqb (width info) (height info)) then
        if notSvg (mime info) then
          collect (addError (iconIsNotSquare iconPath));;
          invalidate
        else collect (addWarning (iconIsNotSquare iconPath))
      else if notNull expectedSize && notSvg (mime info)
              && numberNe (Some (width info)) (parseInt expectedSize) then
        collect
          (addWarning
             (iconSizeInvalid iconPath (parseInt expectedSize)
                (Some (width info))))
      else mret tt
  | Throw => collect (addWarning (corruptIconFile iconPath))
  end.

(** [getNormalizedExtension(_path)] *)
Definition getNormalizedExtension `{Imports} (_path : string) : string :=
  let ext := path_extname _path in
  toLowerCase (String.substring 1 (String.length ext - 1) ext).

Fixpoint concatRes {A B} (f : A -> Res (list B)) (xs : list A)
    : Res (list B) :=
  match xs with
  | [] => Ok []
  | x :: xs' =>
      bind (f x) (fun ys =>
      bind (concatRes f xs') (fun rest =>
      Ok (ys ++ rest)))
  end.

(** [Object.keys(o).forEach((size) => icons.push([size, o[size]]))] *)
Definition sizedIcons (o : value) : Res (list (value * value)) :=
  bind (keys o) (fun ks =>
  concatRes (fun size => bind (get o size) (fun icon =>
             Ok [(VStr size, icon)])) ks).

(** The icons of one of the action properties. *)
Definition actionIcons (parsedJSON : value) (key : string)
    : Res (list (value * value)) :=
  bind (get parsedJSON key) (fun action =>
  bind (js_and action (get action "default_icon")) (fun default_icon =>
  if truthy default_icon then
    match default_icon with
    | VStr _ => Ok [(VNull, default_icon)]
    | _ => sizedIcons default_icon
    end
  else Ok [])).

(** The icons of one element of [theme_icons]. *)
Definition themeIcons (icon : value) : Res (list (value * value)) :=
  bind (get icon "dark") (fun dark =>
  bind (get icon "light") (fun light =>
  bind (get icon "size") (fun size =>
  Ok ((if truthy dark then [(size, dark)] else [])
      ++ (if truthy light then [(size, light)] else []))))).

(** The [icons] array of [validateIcons]: the pairs [[size, iconPath]]. *)
Definition collectIcons (parsedJSON : value) : Res (list (value * value)) :=
  bind (get parsedJSON "icons") (fun icons =>
  bind (if truthy icons then sizedIcons icons else Ok []) (fun top =>
  bind (concatRes (actionIcons parsedJSON)
          ["browser_action"; "page_action"; "sidebar_action"])
    (fun actions =>
  bind (get parsedJSON "browser_action") (fun browser_action =>
  bind (js_and browser_action (get browser_action "theme_icons"))
    (fun theme_icons =>
  bind (if truthy theme_icons then
          match theme_icons with
          | VArr l => concatRes themeIcons l
          | _ => Throw
          end
        else Ok []) (fun themes =>
  Ok (top ++ actions ++ themes))))))).

(** Body of [icons.forEach(([size, iconPath]) => { ... })]: it reports
    what it can tell at once and returns the call of [validateIcon] that
    it pushes on [promises], with the paths of [errorIcons]. *)
Definition checkIcon `{Messages} `{Imports}
    (acc : list (string * value) * list string) (icon : value * value)
    : M (list (string * value) * list string) :=
  let '(promises, errorIcons) := acc in
  let '(size, iconPath) := icon in
  _path ← lift (normalizePath iconPath);
  fs ← ioFiles;
  exists_ ← lift (hasOwnProperty fs _path);
  if negb exists_ then
    if negb (includes errorIcons _path) then
      collect (addError (manifestIconMissing _path));;
      invalidate;;
      mret (promises, errorIcons ++ [_path])
    else mret (promises, errorIcons)
  else if negb (includes IMAGE_FILE_EXTENSIONS (getNormalizedExtension _path))
  then
    when (negb (includes errorIcons _path))
      (collect (addWarning WRONG_ICON_EXTENSION));;
    mret (promises, errorIcons)
  else mret (promises ++ [(_path, size)], errorIcons).

Fixpoint foldM {A B} (f : B -> A -> M B) (xs : list A) (b : B) : M B :=
  match xs with
  | [] => mret b
  | x :: xs' => b' ← f b x; foldM f xs' b'
  end.

(** [validateIcons()] with its promises settled.  The calls of
    [validateIcon] go on when the loop is over; they run here in the
    order of [promises]. *)
Definition validateIcons `{Messages} `{Imports} : M unit :=
  p ← this;
  icons ← lift (collectIcons (parsedJSON p));
  '(promises, _) ← foldM checkIcon icons ([], []);
  forEach promises (fun '(_path, size) => validateIcon _path size).

(** ** The other rules of [_validate] *)

(** [ToNumber]; a string goes to the runtime. *)
Definition toNumber `{Imports} (v : value) : option Z :=
  match v with
  | VUndefined => None
  | VNull => Some 0%Z
  | VBool b => Some (if b then 1 else 0)%Z
  | VNum n => Some n
  | VStr s => stringToNumber s
  | VArr _ | VObj _ => stringToNumber (js_String v)
  end.

(** [v < 3] and [v >= 3] *)
Definition lessThan3 `{Imports} (v : value) : bool :=
  match toNumber v with
  | Some n => (n <? 3)%Z
  | None => false
  end.

Definition atLeast3 `{Imports} (v : value) : bool :=
  match toNumber v with
  | Some n => (3 <=? n)%Z
  | None => false
  end.

(** [this.parsedJSON.k = v].  The rules assign after they have read a
    truthy property of [this.parsedJSON] by name, which only an object
    has. *)
Definition assign (k : string) (v : value) : M unit :=
  fun p =>
    match parsedJSON p with
    | VObj props => Done tt (set_parsedJSON (VObj (setProp k v props)) p)
    | _ => Raised p
    end.

(** [if (this.parsedJSON.manifest_version < 3) { ... }] *)
Definition validateApplications `{Messages} `{Imports} : M unit :=
  manifest_version ← manifest "manifest_version";
  when (lessThan3 manifest_version) (
    browser_specific_settings ← manifest "browser_specific_settings";
    applications ← manifest "applications";
    if truthy browser_specific_settings && truthy applications then
      collect (addWarning IGNORED_APPLICATIONS_PROPERTY)
    else
      when (truthy applications) (
        collect (addWarning APPLICATIONS_DEPRECATED))).

Definition mergeBrowserSpecificSettings : M unit :=
  browser_specific_settings ← manifest "browser_specific_settings";
  gecko ← lift (js_and browser_specific_settings
                  (get browser_specific_settings "gecko"));
  when (truthy gecko) (assign "applications" browser_specific_settings).

Definition validateContentSecurityPolicy `{Messages} `{Imports} : M unit :=
  content_security_policy ← manifest "content_security_policy";
  match content_security_policy with
  | VUndefined | VNull => mret tt
  | _ => validateCspPolicy content_security_policy
  end.

Definition validateUpdateUrlKey `{Messages} : M unit :=
  update_url ← manifest "update_url";
  when (truthy update_url) (collect (addNotice MANIFEST_UNUSED_UPDATE)).

Definition validateGrantedHostPermissions `{Messages} : M unit :=
  granted_host_permissions ← manifest "granted_host_permissions";
  when (truthy granted_host_permissions) (
    collect
      (addWarning (manifestFieldPrivilegedOnly "granted_host_permissions"))).

(** [!this.schemaValidatorOptions?.enableBackgroundServiceWorker] *)
Definition serviceWorkerDisabled (p : Parser) : bool :=
  match schemaValidatorOptions p with
  | Some o => negb (enableBackgroundServiceWorker o)
  | None => true
  end.

(** [if (this.parsedJSON.background) { ... }] *)
Definition validateBackground `{Messages} `{Imports} : M unit :=
  background ← manifest "background";
  when (truthy background) (
    scripts ← lift (get background "scripts");
    match scripts with
    | VArr l =>
        forEach l (fun script =>
          validateFileExistsInPackage script "script"
            manifestBackgroundMissing;;
          mret tt)
    | _ => mret tt
    end;;
    page ← lift (get background "page");
    when (truthy page) (
      validateFileExistsInPackage page "page" manifestBackgroundMissing;;
      mret tt);;
    service_worker ← lift (get background "service_worker");
    when (truthy service_worker) (
      p ← this;
      if serviceWorkerDisabled p then
        collect (addError (manifestFieldUnsupported "/background" None));;
        invalidate
      else
        manifest_version ← manifest "manifest_version";
        when (atLeast3 manifest_version) (
          validateFileExistsInPackage service_worker "script"
            manifestBackgroundMissing;;
          mret tt))).

(** [s.split('\n')] *)
Fixpoint splitLines (s : string) : list string :=
  match s with
  | EmptyString => [EmptyString]
  | String c s' =>
      if Ascii.eqb c (ascii_of_nat 10) then EmptyString :: splitLines s'
      else
        match splitLines s' with
        | l :: ls => String c l :: ls
        | [] => [String c EmptyString]
        end
  end.

Fixpoint trimEnd (s : string) : string :=
  match s with
  | EmptyString => EmptyString
  | String c s' =>
      let t := trimEnd s' in
      if isWhiteSpace c && String.eqb t "" then EmptyString else String c t
  end.

Definition trim (s : string) : string := trimEnd (skipWhiteSpace s).

(** [v.includes(s)]: a string has the substring, an array the element. *)
Definition includesValue (v : value) (s : string) : Res bool :=
  match v with
  | VStr t => Ok (includes_str t s)
  | VArr l =>
      Ok (existsb (fun e => match e with
                            | VStr t => String.eqb t s
                            | _ => false
                            end) l)
  | _ => Throw
  end.

Definition validateContentScriptMatchPattern `{Messages} `{Imports}
    (matchPattern : value) : M unit :=
  forEach (splitLines BLOCKED_CONTENT_SCRIPT_HOSTS) (fun value =>
    when (negb (String.eqb value "")
          && negb (String.eqb (String.substring 0 1 value) "#")) (
      blocked ← lift (includesValue matchPattern (trim value));
      when blocked (
        collect (addError MANIFEST_INVALID_CONTENT);;
        invalidate))).

(** [xs.forEach(f)] on a value: only an array has [forEach]. *)
Definition forEachValue (xs : value) (f : value -> M unit) : M unit :=
  match xs with
  | VArr l => forEach l f
  | _ => lift Throw
  end.

(** [xs && xs.length] as a condition. *)
Definition hasLength (xs : value) : Res bool :=
  bind (js_and xs (get xs "length")) (fun n => Ok (truthy n)).

(** [if (this.parsedJSON.content_scripts &&
    this.parsedJSON.content_scripts.length) { ... }] *)
Definition validateContentScripts `{Messages} `{Imports} : M unit :=
  content_scripts ← manifest "content_scripts";
  some ← lift (hasLength content_scripts);
  when some (
    forEachValue content_scripts (fun scriptRule =>
      matches ← lift (get scriptRule "matches");
      someMatches ← lift (hasLength matches);
      when someMatches (
        forEachValue matches validateContentScriptMatchPattern);;
      js ← lift (get scriptRule "js");
      someJs ← lift (hasLength js);
      when someJs (
        forEachValue js (fun script =>
          validateFileExistsInPackage script "script"
            manifestContentScriptFileMissing;;
          mret tt));;
      css ← lift (get scriptRule "css");
      someCss ← lift (hasLength css);
      when someCss (
        forEachValue css (fun style =>
          validateFileExistsInPackage style "css"
            manifestContentScriptFileMissing;;
          mret tt)))).

(** [if (!this.selfHosted && ... .gecko.update_url) { ... }] *)
Definition validateUpdateUrl `{Messages} : M unit :=
  p ← this;
  update_url ←
    (if negb (selfHosted p)
     then lift (geckoProperty (parsedJSON p) "update_url")
     else mret (VBool false));
  when (truthy update_url) (
    if isPrivilegedAddon p then
      collect (addWarning MANIFEST_UPDATE_URL)
    else
      collect (addError MANIFEST_UPDATE_URL);;
      invalidate).

(** [this.parsedJSON.applications.gecko.strict_min_version] *)
Definition strictMinVersion : M value :=
  applications ← manifest "applications";
  gecko ← lift (get applications "gecko");
  lift (get gecko "strict_min_version").

Definition checkKeySupport `{Messages} `{Imports} (support minVersion : value)
    (key : string) (isPermission : bool) : M unit :=
  firefox ← lift (get support "firefox");
  when (truthy firefox) (
    versionAdded ← lift (get firefox "version_added");
    when (basicCompatVersionComparison versionAdded minVersion) (
      strict_min_version ← strictMinVersion;
      if negb isPermission then
        collect
          (addWarning
             (keyFirefoxUnsupportedByMinVersion key strict_min_version
                versionAdded))
      else
        collect
          (addNotice
             (permissionFirefoxUnsupportedByMinVersion key strict_min_version
                versionAdded))));;
  firefox_android ← lift (get support "firefox_android");
  when (truthy firefox_android) (
    versionAddedAndroid ← lift (firstStableVersion firefox_android);
    when (basicCompatVersionComparison versionAddedAndroid minVersion) (
      strict_min_version ← strictMinVersion;
      if negb isPermission then
        collect
          (addWarning
             (keyFirefoxAndroidUnsupportedByMinVersion key strict_min_version
                versionAddedAndroid))
      else
        collect
          (addNotice
             (permissionFirefoxAndroidUnsupportedByMinVersion key
                strict_min_version versionAddedAndroid)))).

(** [typeof v === 'object'] *)
Definition typeofObject (v : value) : bool :=
  match v with
  | VNull | VArr _ | VObj _ => true
  | _ => false
  end.

(** [subkeyInfo.__compat]: the first statement of the entries. *)
Fixpoint statementOf (entries : list CompatEntry) : value :=
  match entries with
  | [] => VUndefined
  | Statement c :: _ => c
  | Subkey _ _ :: rest => statementOf rest
  end.

Fixpoint checkCompatInfo `{Messages} `{Imports} (compatInfo : CompatInfo)
    (minVersion : value) (key : string) (manifestKeyValue : value)
    {struct compatInfo} : M unit :=
  match compatInfo with
  | CompatTree entries =>
      (fix loop (entries : list CompatEntry) : M unit :=
         match entries with
         | [] => mret tt
         | Statement c :: rest =>
             support ← lift (get c "support");
             checkKeySupport support minVersion key false;;
             loop rest
         | Subkey subkey (CompatTree sub as subkeyInfo) :: rest =>
             own ← (if typeofObject manifestKeyValue
                    then lift (hasOwnProperty manifestKeyValue subkey)
                    else mret false);
             (if (own : bool) then
                v ← lift (get manifestKeyValue subkey);
                checkCompatInfo subkeyInfo minVersion (key +:+ "." +:+ subkey)
                  v
              else if String.eqb key "permissions"
                      || String.eqb key "optional_permissions" then
                listed ← lift (includesValue manifestKeyValue subkey);
                when listed (
                  support ← lift (get (statementOf sub) "support");
                  checkKeySupport support minVersion
                    (key +:+ ":" +:+ subkey) true)
              else mret tt);;
             loop rest
         end) entries
  end.

(** The compatibility rule of [_validate]. *)
Definition validateCompat `{Messages} `{Imports} : M unit :=
  p ← this;
  minVersion ← lift (firefoxStrictMinVersion (parsedJSON p));
  when (negb (isLanguagePack p) && negb (isDictionary p)
        && truthy minVersion) (
    forEach bcd_manifest (fun '(key, compatInfo) =>
      own ← lift (hasOwnProperty (parsedJSON p) key);
      when own (
        v ← manifest key;
        checkCompatInfo compatInfo minVersion key v))).

Definition validateVersionString `{Messages} `{Imports} : M unit :=
  version ← manifest "version";
  if isValidVersionString version then mret tt
  else
    manifest_version ← manifest "manifest_version";
    if lessThan3 manifest_version && isToolkitVersionString version then
      collect (addWarning VERSION_FORMAT_DEPRECATED)
    else
      collect (addError VERSION_FORMAT_INVALID);;
      invalidate.

(** [if (this.parsedJSON.default_locale) { ... }]; [path.join] raises on
    what is not a string. *)
Definition validateDefaultLocale `{Messages} `{Imports} : M unit :=
  default_locale ← manifest "default_locale";
  when (truthy default_locale) (
    match default_locale with
    | VStr s =>
        let msg := path_join3 LOCALES_DIRECTORY s "messages.json" in
        fs ← ioFiles;
        file ← lift (get fs (upath_toUnix msg));
        when (negb (truthy file)) (
          collect (addError NO_MESSAGES_FILE);;
          invalidate)
    | _ => lift Throw
    end).

(** [if (this.parsedJSON.developer) { ... }] *)
Definition promoteDeveloper : M unit :=
  developer ← manifest "developer";
  when (truthy developer) (
    name ← lift (get developer "name");
    url ← lift (get developer "url");
    when (truthy name) (assign "author" name);;
    when (truthy url) (assign "homepage_url" url)).

(** The loop of [validateHomePageURL]; it returns at the first match. *)
Fixpoint checkRestrictedUrls `{Messages} (url : value)
    (restricted : list string) : M unit :=
  match restricted with
  | [] => mret tt
  | restrictedUrl :: rest =>
      found ← lift (includesValue url restrictedUrl);
      if (found : bool) then
        collect (addError RESTRICTED_HOMEPAGE_URL);;
        invalidate
      else checkRestrictedUrls url rest
  end.

Definition validateHomePageURL `{Messages} `{Imports} (url : value) : M unit :=
  checkRestrictedUrls url RESTRICTED_HOMEPAGE_URLS.

Definition validateHomePage `{Messages} `{Imports} : M unit :=
  homepage_url ← manifest "homepage_url";
  when (truthy homepage_url) (validateHomePageURL homepage_url).

(** [o?.k] *)
Definition getOpt (o : value) (k : string) : value :=
  match get o k with
  | Ok v => v
  | Throw => VUndefined
  end.

Definition validateExtensionID `{Messages} `{Imports} : M unit :=
  manifest_version ← manifest "manifest_version";
  if lessThan3 manifest_version then mret tt
  else
    applications ← manifest "applications";
    when (negb (truthy (getOpt (getOpt applications "gecko") "id"))) (
      collect (addError EXTENSION_ID_REQUIRED);;
      invalidate).

Definition validateHiddenAddon `{Messages} : M unit :=
  p ← this;
  if negb (isPrivilegedAddon p) then mret tt
  else
    hidden ← manifest "hidden";
    when (truthy hidden) (
      action ← lift (hasProperty (parsedJSON p) "action");
      browser_action ← lift (hasProperty (parsedJSON p) "browser_action");
      page_action ← lift (hasProperty (parsedJSON p) "page_action");
      when (action || browser_action || page_action) (
        collect (addError HIDDEN_NO_ACTION);;
        invalidate)).

(** ** [_validate] and the constructor *)

Definition _validate `{Messages} `{Imports} : M unit :=
  validateSchema;;
  validateApplications;;
  mergeBrowserSpecificSettings;;
  validateContentSecurityPolicy;;
  validateUpdateUrlKey;;
  validateGrantedHostPermissions;;
  validateBackground;;
  validateContentScripts;;
  validateDictionaries;;
  validateUpdateUrl;;
  validateStrictMaxVersion;;
  validateCompat;;
  validateVersionString;;
  validateDefaultLocale;;
  validateLocales;;
  promoteDeveloper;;
  validateHomePage;;
  validateRestrictedPermissions;;
  validateExtensionID;;
  validateHiddenAddon.

(** The options of the constructor, with their defaults applied. *)
Record Options : Type := mkOptions {
  opt_selfHosted : bool;
  opt_schemaValidatorOptions : option SchemaValidatorOptions;
  opt_io : option IO;
  opt_isAlreadySigned : bool;
  opt_restrictedPermissions : list (string * string)
}.

(** The defaults in case parsing fails. *)
Definition defaultManifest `{Imports} : value :=
  VObj [("manifest_version", VNull);
        ("name", VNull);
        ("type", PACKAGE_EXTENSION);
        ("version", VNull)].

(** [typeof this.parsedJSON === 'undefined' || this.isValid === false] *)
Definition parsingFailed (parsedJSON : value) (isValid : option bool)
    : bool :=
  match parsedJSON, isValid with
  | VUndefined, _ => true
  | _, Some false => true
  | _, _ => false
  end.

(** The four flags of the addon type, in the order [isStaticTheme],
    [isLanguagePack], [isDictionary], [isSitePermission]. *)
Definition detectType (parsedJSON : value)
    : Res (bool * bool * bool * bool) :=
  bind (hasOwnProperty parsedJSON "theme") (fun theme =>
  if theme then Ok (true, false, false, false)
  else
    bind (hasOwnProperty parsedJSON "langpack_id") (fun langpack_id =>
    if langpack_id then Ok (false, true, false, false)
    else
      bind (hasOwnProperty parsedJSON "dictionaries") (fun dictionaries =>
      if dictionaries then Ok (false, false, true, false)
      else
        bind (hasOwnProperty parsedJSON "site_permissions")
          (fun site_permissions =>
        if site_permissions then Ok (false, false, false, true)
        else Ok (false, false, false, false))))).

(** [this] when [parse] is over: the fields that the constructor sets are
    not set yet. *)
Definition parsed (parsedJSON : value) (isValid : option bool)
    (reported : list Diagnostic) : Parser :=
  mkParser parsedJSON isValid reported false None false false false false
    None false false [].

(** [new ManifestJSONParser(jsonString, collector, options)]: the parser
    that it builds, or the parser and the collector as it leaves them when
    it raises. *)
Definition constructor `{Messages} `{Imports} (jsonString : string)
    (options : Options) : Outcome unit :=
  let '(parsedJSON, isValid, reported) := parse jsonString in
  if parsingFailed parsedJSON isValid then
    Done tt (parsed defaultManifest isValid reported)
  else
    match detectType parsedJSON with
    | Ok (isStaticTheme, isLanguagePack, isDictionary, isSitePermission) =>
        _validate
          (mkParser parsedJSON isValid reported (opt_selfHosted options)
             (opt_schemaValidatorOptions options) isStaticTheme
             isLanguagePack isDictionary isSitePermission (opt_io options)
             (opt_isAlreadySigned options)
             (match opt_schemaValidatorOptions options with
              | Some o => privileged o
              | None => false
              end)
             (opt_restrictedPermissions options))
    | Throw => Raised (parsed parsedJSON isValid reported)
    end.

(** ** Theme images: [validateThemeImage], [validateStaticThemeImages] *)

(** What these two methods import besides: [STATIC_THEME_IMAGE_MIMES] of
    [const] and five message functions of [messages]. *)
Class ThemeImports : Type := {
  STATIC_THEME_IMAGE_MIMES : list string;
  (** [(path, type)] *)
  manifestThemeImageMissing : string -> string -> Message;
  (** [{ path }] *)
  manifestThemeImageWrongExtension : string -> Message;
  (** [{ path, mime }] *)
  manifestThemeImageWrongMime : string -> Maybe string -> Message;
  manifestThemeImageMimeMismatch : string -> Maybe string -> Message;
  manifestThemeImageCorrupted : string -> Message
}.

(** [getNormalizedExtension(imagePath)] on a value: [path.extname] raises
    on what is not a string. *)
Definition extensionOf `{Imports} (imagePath : value) : Res string :=
  match imagePath with
  | VStr s => Ok (getNormalizedExtension s)
  | _ => Throw
  end.

(** [STATIC_THEME_IMAGE_MIMES.includes(info.mime)] *)
Definition includesMime (mimes : list string) (mime : Maybe string) : bool :=
  match mime with
  | MVal m => includes mimes m
  | _ => false
  end.

(** [info.mime === 'image/webp'] *)
Definition isWebp (mime : Maybe string) : bool :=
  match mime with
  | MVal m => String.eqb m "image/webp"
  | _ => false
  end.

(** [FILE_EXTENSIONS_TO_MIME[ext] !== info.mime] *)
Definition mimeNe (expected : option string) (mime : Maybe string) : bool :=
  match expected, mime with
  | Some e, MVal m => negb (String.eqb e m)
  | None, MUndefined => false
  | _, _ => true
  end.

(** [validateThemeImage] up to its [await]: the file and its extension.
    It gives the path and the extension of the image to read, or nothing
    when the method has returned. *)
Definition checkThemeImage `{Messages} `{Imports} `{ThemeImports}
    (imagePath : value) (manifestPropName : string)
    : M (option (string * string)) :=
  _path ← lift (normalizePath imagePath);
  ext ← lift (extensionOf imagePath);
  fileExists ←
    validateFileExistsInPackage (VStr _path)
      ("theme.images." +:+ manifestPropName) manifestThemeImageMissing;
  (* No need to validate the image format if the file doesn't exist
     on disk. *)
  if negb fileExists then mret None
  else if negb (includes IMAGE_FILE_EXTENSIONS ext) || String.eqb ext "webp"
  then
    collect (addError (manifestThemeImageWrongExtension _path));;
    invalidate;;
    mret None
  else mret (Some (_path, ext)).

(** [validateThemeImage] from its [await] on: the [try] block, with what
    [getImageMetadata] raises caught. *)
Definition checkThemeImageMime `{Messages} `{Imports} `{ThemeImports}
    (_path ext : string) : M unit :=
  p ← this;
  match getImageMetadata (io p) _path with
  | Ok info =>
      if negb (includesMime STATIC_THEME_IMAGE_MIMES (mime info))
         || isWebp (mime info)
      then
        collect (addError (manifestThemeImageWrongMime _path (mime info)));;
        invalidate
      else if mimeNe (assoc ext FILE_EXTENSIONS_TO_MIME) (mime info) then
        collect
          (addWarning (manifestThemeImageMimeMismatch _path (mime info)))
      else mret tt
  | Throw =>
      collect (addError (manifestThemeImageCorrupted _path));;
      invalidate
  end.

(** [validateThemeImage(imagePath, manifestPropName)], run to its end. *)
Definition validateThemeImage `{Messages} `{Imports} `{ThemeImports}
    (imagePath : value) (manifestPropName : string) : M unit :=
  pending ← checkThemeImage imagePath manifestPropName;
  match pending with
  | Some (_path, ext) => checkThemeImageMime _path ext
  | None => mret tt
  end.

(** The calls [validateThemeImage(imagePath, prop)] of
    [validateStaticThemeImages], in order: one for each element when the
    property holds an array, one for the property when it does not. *)
Definition themeImageCalls (themeImages : value)
    : Res (list (value * string)) :=
  bind (keys themeImages) (fun ks =>
  concatRes (fun prop =>
    bind (get themeImages prop) (fun image =>
    match image with
    | VArr l => Ok (map (fun imagePath => (imagePath, prop)) l)
    | _ => Ok [(image, prop)]
    end)) ks).

(** One call in the loop: the method runs up to its [await].  When it
    raises there, its promise is rejected and the loop goes on. *)
Definition startThemeImage `{Messages} `{Imports} `{ThemeImports}
    (acc : list (string * string) * bool) (call : value * string)
    : M (list (string * string) * bool) :=
  fun p =>
    let '(pending, rejected) := acc in
    match checkThemeImage (fst call) (snd call) p with
    | Done (Some image) p' => Done (pending ++ [image], rejected) p'
    | Done None p' => Done (pending, rejected) p'
    | Raised p' => Done (pending, true) p'
    end.

(** [validateStaticThemeImages()] with its promises settled: the images
    are read when the loop is over, here in the order of the calls, and
    the promise that is returned is rejected when one of the calls is. *)
Definition validateStaticThemeImages `{Messages} `{Imports} `{ThemeImports}
    : M unit :=
  theme ← manifest "theme";
  themeImages ← lift (js_and theme (get theme "images"));
  (* The theme.images manifest property is mandatory on Firefox < 60, but
     optional on Firefox >= 60. *)
  if truthy themeImages then
    calls ← lift (themeImageCalls themeImages);
    '(pending, rejected) ← foldM startThemeImage calls ([], false);
    forEach pending (fun '(_path, ext) => checkThemeImageMime _path ext);;
    if (rejected : bool) then lift Throw else mret tt
  else mret tt.

(** ** A concrete environment

    The imports are not in the sources.  The instances below give them
    plain values, so that the rules can be run on examples. *)

Module Sample.

Definition plain (c : string) : Message := mkMessage (Some c) c MNull None.

Definition about (c : string) (what : string) : Message :=
  mkMessage (Some c) (c +:+ ": " +:+ what) MNull None.

Definition showNumber (n : option Z) : string :=
  match n with
  | Some z => pretty z
  | None => "NaN"
  end.

Definition lookup (name : string) : Maybe Message :=
  if includes
       ["MANIFEST_PERMISSIONS"; "MANIFEST_OPTIONAL_PERMISSIONS";
        "MANIFEST_HOST_PERMISSIONS"; "MANIFEST_INSTALL_ORIGINS"] name
  then MVal (plain name)
  else MUndefined.

Definition messages : Messages := {|
  JSON_INVALID := plain "JSON_INVALID";
  MANIFEST_FIELD_REQUIRED := plain "MANIFEST_FIELD_REQUIRED";
  MANIFEST_FIELD_DEPRECATED := MVal (plain "MANIFEST_FIELD_DEPRECATED");
  MANIFEST_FIELD_INVALID := plain "MANIFEST_FIELD_INVALID";
  APPLICATIONS_INVALID := plain "APPLICATIONS_INVALID";
  MANIFEST_BAD_PERMISSION := plain "MANIFEST_BAD_PERMISSION";
  MANIFEST_BAD_OPTIONAL_PERMISSION := plain "MANIFEST_BAD_OPTIONAL_PERMISSION";
  MANIFEST_BAD_HOST_PERMISSION := plain "MANIFEST_BAD_HOST_PERMISSION";
  MANIFEST_PERMISSIONS := plain "MANIFEST_PERMISSIONS";
  MANIFEST_OPTIONAL_PERMISSIONS := plain "MANIFEST_OPTIONAL_PERMISSIONS";
  MANIFEST_HOST_PERMISSIONS := plain "MANIFEST_HOST_PERMISSIONS";
  MANIFEST_PERMISSION_UNSUPPORTED := "MANIFEST_PERMISSION_UNSUPPORTED";
  MANIFEST_FIELD_UNSUPPORTED := "MANIFEST_FIELD_UNSUPPORTED";
  MANIFEST_PERMISSIONS_PRIVILEGED := "MANIFEST_PERMISSIONS_PRIVILEGED";
  MANIFEST_FIELD_PRIVILEGED := "MANIFEST_FIELD_PRIVILEGED";
  messages_lookup := lookup;
  manifestPermissionUnsupported := fun data _ =>
    about "MANIFEST_PERMISSION_UNSUPPORTED" (js_String data);
  manifestFieldUnsupported := fun path _ =>
    about "MANIFEST_FIELD_UNSUPPORTED" path;
  mozillaAddonsPermissionRequired := fun error =>
    about "MOZILLA_ADDONS_PERMISSION_REQUIRED" (err_instancePath error);
  privilegedFeaturesRequired := fun error =>
    about "PRIVILEGED_FEATURES_REQUIRED" (err_instancePath error);
  manifestPermissionsPrivileged := fun error =>
    about "MANIFEST_PERMISSIONS_PRIVILEGED" (err_instancePath error);
  manifestFieldPrivileged := fun error =>
    about "MANIFEST_FIELD_PRIVILEGED" (err_instancePath error);
  manifestFieldPrivilegedOnly := about "MANIFEST_FIELD_PRIVILEGEDONLY";
  IGNORED_APPLICATIONS_PROPERTY := plain "IGNORED_APPLICATIONS_PROPERTY";
  APPLICATIONS_DEPRECATED := plain "APPLICATIONS_DEPRECATED";
  MANIFEST_UNUSED_UPDATE := plain "MANIFEST_UNUSED_UPDATE";
  MANIFEST_DICT_MISSING_ID := plain "MANIFEST_DICT_MISSING_ID";
  MANIFEST_EMPTY_DICTS := plain "MANIFEST_EMPTY_DICTS";
  MANIFEST_MULTIPLE_DICTS := plain "MANIFEST_MULTIPLE_DICTS";
  MANIFEST_UPDATE_URL := plain "MANIFEST_UPDATE_URL";
  STRICT_MAX_VERSION := plain "STRICT_MAX_VERSION";
  NO_MESSAGES_FILE := plain "NO_MESSAGES_FILE";
  NO_DEFAULT_LOCALE := plain "NO_DEFAULT_LOCALE";
  VERSION_FORMAT_DEPRECATED := plain "VERSION_FORMAT_DEPRECATED";
  VERSION_FORMAT_INVALID := plain "VERSION_FORMAT_INVALID";
  HIDDEN_NO_ACTION := plain "HIDDEN_NO_ACTION";
  EXTENSION_ID_REQUIRED := plain "EXTENSION_ID_REQUIRED";
  WRONG_ICON_EXTENSION := plain "WRONG_ICON_EXTENSION";
  MANIFEST_INVALID_CONTENT := plain "MANIFEST_INVALID_CONTENT";
  RESTRICTED_HOMEPAGE_URL := plain "RESTRICTED_HOMEPAGE_URL";
  keyFirefoxUnsupportedByMinVersion := fun key _ _ =>
    about "KEY_FIREFOX_UNSUPPORTED_BY_MIN_VERSION" key;
  permissionFirefoxUnsupportedByMinVersion := fun key _ _ =>
    about "PERMISSION_FIREFOX_UNSUPPORTED_BY_MIN_VERSION" key;
  keyFirefoxAndroidUnsupportedByMinVersion := fun key _ _ =>
    about "KEY_FIREFOX_ANDROID_UNSUPPORTED_BY_MIN_VERSION" key;
  permissionFirefoxAndroidUnsupportedByMinVersion := fun key _ _ =>
    about "PERMISSION_FIREFOX_ANDROID_UNSUPPORTED_BY_MIN_VERSION" key;
  manifestBackgroundMissing := fun path type =>
    about "MANIFEST_BACKGROUND_FILE_NOT_FOUND" (type +:+ " " +:+ path);
  manifestContentScriptFileMissing := fun path type =>
    about "MANIFEST_CONTENT_SCRIPT_FILE_NOT_FOUND" (type +:+ " " +:+ path);
  manifestDictionaryFileMissing := fun path _ =>
    about "MANIFEST_DICT_NOT_FOUND" path;
  noMessagesFileInLocales := about "NO_MESSAGES_FILE_IN_LOCALES";
  makeRestrictedPermission := fun permission permMinVersion =>
    about ("RESTRICTED_PERMISSION_" +:+ toUpperCase permission)
      permMinVersion;
  iconIsNotSquare := about "ICON_NOT_SQUARE";
  iconSizeInvalid := fun path expected actual =>
    about "ICON_SIZE_INVALID"
      (path +:+ " " +:+ showNumber expected +:+ " " +:+ showNumber actual);
  corruptIconFile := about "CORRUPT_ICON_FILE";
  manifestIconMissing := about "MANIFEST_ICON_NOT_FOUND";
  manifestCspUnsafeEval := about "MANIFEST_CSP_UNSAFE_EVAL";
  manifestCsp := about "MANIFEST_CSP"
|}.


(** Modelled from the spec: [CSP_KEYWORD_RE] of [const], which is not in
    the sources.  A recognized safe keyword has one of the forms self,
    none, nonce-, hash- or strict-dynamic. *)
Definition CSP_KEYWORD_RE_model (v : string) : bool :=
  includes ["'self'"; "'none'"; "'strict-dynamic'"] v
  || String.prefix "'nonce-" v
  || String.prefix "'sha256-" v
  || String.prefix "'sha384-" v
  || String.prefix "'sha512-" v.

(** The pieces of [s] between the separators. *)
Fixpoint splitBy (isSep : ascii -> bool) (s : string) : list string :=
  match s with
  | EmptyString => [EmptyString]
  | String c s' =>
      if isSep c then EmptyString :: splitBy isSep s'
      else
        match splitBy isSep s' with
        | l :: ls => String c l :: ls
        | [] => [String c EmptyString]
        end
  end.

Definition tokens (s : string) : list string :=
  List.filter (fun t => negb (String.eqb t "")) (splitBy isWhiteSpace s).

(** Modelled from the spec: [parseCspPolicy] of [utils], which is not in
    the sources.  It parses one policy string into a map from directive
    name to tokens, with case-insensitive names and whitespace-delimited
    tokens; the directives are separated by [;] and the first of two
    directives of one name is kept. *)
Definition parseCspPolicy_model (policy : value)
    : Res (gmap string (list string)) :=
  match policy with
  | VStr s =>
      Ok (fold_left
            (fun (directives : gmap string (list string)) part =>
               match tokens part with
               | name :: values =>
                   match directives !! toLowerCase name with
                   | Some _ => directives
                   | None => <[toLowerCase name := values]> directives
                   end
               | [] => directives
               end)
            (splitBy (fun c => Ascii.eqb c ";"%char) s) ∅)
  | _ => Ok ∅
  end.

(** An element of one of the arrays [names]: [/name/i...]. *)
Definition elementOf (names : list string) (path : string)
    : option (string * string) :=
  match splitBy (fun c => Ascii.eqb c "/"%char) path with
  | "" :: name :: index :: _ =>
      if includes names name
         && match index with
            | String c _ => bool_decide (is_Some (digitOf c))
            | EmptyString => false
            end
      then Some (name, String.substring 0 1 index)
      else None
  | _ => None
  end.

(** The text from the last [.] of a path. *)
Fixpoint extname (s : string) : string :=
  match s with
  | EmptyString => EmptyString
  | String c s' =>
      let rest := extname s' in
      if negb (String.eqb rest "") then rest
      else if Ascii.eqb c "."%char then s
      else EmptyString
  end.

(** The numbers of a dotted version. *)
Definition versionParts (v : string) : list Z :=
  map (fun part => match parseIntString part with
                   | Some n => n
                   | None => 0%Z
                   end)
    (splitBy (fun c => Ascii.eqb c "."%char) v).

(** A missing number counts as zero. *)
Fixpoint compareZeros (b : list Z) : Z :=
  match b with
  | [] => 0
  | y :: b' =>
      if (0 <? y)%Z then (-1) else if (y <? 0)%Z then 1
      else compareZeros b'
  end.

Fixpoint compareParts (a b : list Z) {struct a} : Z :=
  match a, b with
  | [], _ => compareZeros b
  | x :: a', [] =>
      if (x <? 0)%Z then (-1) else if (0 <? x)%Z then 1
      else compareParts a' []
  | x :: a', y :: b' =>
      if (x <? y)%Z then (-1) else if (y <? x)%Z then 1
      else compareParts a' b'
  end.

(** An image of the examples: its width, its height, and [0] for a
    [png], [1] for an [svg]. *)
Definition decode (bytes : list (list Byte.byte)) : Res ImageSize :=
  match concat bytes with
  | w :: h :: t :: _ =>
      Ok (mkImageSize (Z.of_N (Byte.to_N w)) (Z.of_N (Byte.to_N h))
            (if N.eqb (Byte.to_N t) 1 then "svg" else "png"))
  | _ => Throw
  end.

Definition imports : Imports := {|
  CSP_KEYWORD_RE := CSP_KEYWORD_RE_model;
  DEPRECATED_MANIFEST_PROPERTIES := [];
  FILE_EXTENSIONS_TO_MIME :=
    [("png", "image/png"); ("svg", "image/svg+xml")];
  IMAGE_FILE_EXTENSIONS := ["png"; "svg"];
  PERMS_DATAPATH_REGEX :=
    elementOf ["permissions"; "optional_permissions"; "host_permissions"];
  INSTALL_ORIGINS_DATAPATH_REGEX := elementOf ["install_origins"];
  PACKAGE_EXTENSION := VNum 1;
  RESTRICTED_HOMEPAGE_URLS := [];
  SCHEMA_KEYWORDS :=
    mkSchemaKeywords "required" "deprecated" "min_manifest_version"
      "max_manifest_version" "validatePrivilegedPermissions" "type"
      "privileged";
  BLOCKED_CONTENT_SCRIPT_HOSTS := "";
  parse := fun s =>
    if String.eqb s "{}" then (VObj [], Some true, [])
    else (VUndefined, Some false, [addError (plain "JSON_INVALID")]);
  stringToNumber := parseIntString;
  oneLine := fun s => s;
  path_join := fun a b => a +:+ "/" +:+ b;
  path_join3 := fun a b c => a +:+ "/" +:+ b +:+ "/" +:+ c;
  path_extname := extname;
  upath_toUnix := fun s => s;
  mozCompare := fun a b => compareParts (versionParts a) (versionParts b);
  parseCspPolicy := parseCspPolicy_model;
  normalizePath := fun v =>
    match v with
    | VStr s => Ok s
    | _ => Throw
    end;
  isValidVersionString := fun _ => true;
  isToolkitVersionString := fun _ => false;
  firefoxStrictMinVersion := fun _ => Ok VNull;
  basicCompatVersionComparison := fun _ _ => false;
  firstStableVersion := fun v => Ok v;
  bcd_manifest := [];
  runValidator := fun _ _ _ => (true, []);
  getImageSize := decode
|}.

End Sample.

(** ** Vocabulary of the statements *)

(** The method [m], run on the parser [p], returns, and the collector
    receives exactly the diagnostics [ds], in this order; [p'] is the
    parser afterwards. *)
Definition reports {A} (m : M A) (p : Parser) (ds : list Diagnostic)
    (p' : Parser) : Prop :=
  exists a, m p = Done a p' /\ log p' = log p ++ ds.

(** The parser [p] once the diagnostics [ds] are reported and, when
    [invalid] is set, [isValid] is [false]. *)
Definition after (p : Parser) (ds : list Diagnostic) (invalid : bool)
    : Parser :=
  set_isValid (if invalid then Some false else isValid p)
    (set_log (log p ++ ds) p).

Definition nonEmpty {A} (l : list A) : bool :=
  match l with
  | [] => false
  | _ :: _ => true
  end.

(** The error of a dictionary file that is not in the package. *)
Definition missingDictionaryFile `{Messages} (present : bool)
    (_path : string) : list Diagnostic :=
  if present then []
  else [addError (manifestDictionaryFileMissing _path "binary")].



(** The value of the property [k] of an object, [undefined] without it. *)
Definition property (k : string) (props : list (string * value)) : value :=
  match assoc k props with
  | Some v => v
  | None => VUndefined
  end.





(** A token that the scan of a directive lets pass: a safe keyword or
    ['unsafe-eval']. *)
Definition passes `{Imports} (v : string) : bool :=
  String.eqb v "'unsafe-eval'" || isSecureCspValue v.

(** A parser to run the examples on: the manifest [parsedJSON] in a
    package with the files [fs]. *)
Definition exampleParser (parsedJSON fs : value) : Parser :=
  mkParser parsedJSON (Some true) [] false None false false false false
    (Some (mkIO fs (fun _ _ => Throw))) false false [].

(** A package whose files decode as written: one byte for the width, one
    for the height, one for the format. *)
Definition iconPackage (images : list (string * list Byte.byte)) : IO :=
  mkIO (VObj (map (fun '(path, _) => (path, VObj [])) images))
    (fun path _ =>
       match assoc path images with
       | Some bytes => Ok [bytes]
       | None => Throw
       end).

Definition iconParser (parsedJSON : value)
    (images : list (string * list Byte.byte)) : Parser :=
  mkParser parsedJSON (Some true) [] false None false false false false
    (Some (iconPackage images)) false false [].

(** ** What a rule may do *)

(** The fields of [this] that only the constructor assigns. *)
Definition settings (p : Parser) :=
  (selfHosted p, schemaValidatorOptions p, isStaticTheme p, isLanguagePack p,
   isDictionary p, isSitePermission p, io p, isAlreadySigned p,
   isPrivilegedAddon p, restrictedPermissions p).

(** From [p] to [p'] the collector has only received diagnostics, all of
    a severity of [sev]; [isValid] is as it was or, when [inv] is set, is
    [false]; the manifest reads as it was at every key that is not one of
    [keys], and is as it was when [keys] is empty; and the settings are as
    they were. *)
Definition within (sev : Severity -> bool) (inv : bool) (keys : list string)
    (p p' : Parser) : Prop :=
  (exists ds,
     log p' = log p ++ ds /\ forallb (fun d => sev (fst d)) ds = true)
  /\ (isValid p' = isValid p \/ (inv = true /\ isValid p' = Some false))
  /\ ((keys = [] -> parsedJSON p' = parsedJSON p)
      /\ (forall k, ~ In k keys ->
            get (parsedJSON p') k = get (parsedJSON p) k))
  /\ settings p' = settings p.

(** The method [m] stays within these bounds, whether it returns or
    raises. *)
Definition bounded {A} (sev : Severity -> bool) (inv : bool)
    (keys : list string) (m : M A) : Prop :=
  forall p, within sev inv keys p (final (m p)).

(** The keys that [_validate] assigns. *)
Definition assignedKeys : list string :=
  ["applications"; "author"; "homepage_url"].

Definition anySeverity (s : Severity) : bool := true.

Definition onlyWarnings (s : Severity) : bool :=
  match s with
  | SevWarning => true
  | _ => false
  end.

Definition noErrors (s : Severity) : bool :=
  match s with
  | SevError => false
  | _ => true
  end.

(** ** Other environments for the examples *)

Module Custom.

(** The environment [Sample.imports] with another JSON parser, schema
    validator, list of blocked hosts, list of restricted URLs and
    compatibility data. *)
Definition imports
    (parse' : string -> value * option bool * list Diagnostic)
    (runValidator' :
       Validator -> value -> option SchemaValidatorOptions ->
       bool * list SchemaError)
    (hosts : string) (urls : list string)
    (bcd : list (string * CompatInfo))
    (minVersion : value -> Res value)
    (unsupported : value -> value -> bool) : Imports := {|
  CSP_KEYWORD_RE := Sample.CSP_KEYWORD_RE_model;
  DEPRECATED_MANIFEST_PROPERTIES := [];
  FILE_EXTENSIONS_TO_MIME :=
    [("png", "image/png"); ("svg", "image/svg+xml")];
  IMAGE_FILE_EXTENSIONS := ["png"; "svg"];
  PERMS_DATAPATH_REGEX :=
    Sample.elementOf
      ["permissions"; "optional_permissions"; "host_permissions"];
  INSTALL_ORIGINS_DATAPATH_REGEX := Sample.elementOf ["install_origins"];
  PACKAGE_EXTENSION := VNum 1;
  RESTRICTED_HOMEPAGE_URLS := urls;
  SCHEMA_KEYWORDS :=
    mkSchemaKeywords "required" "deprecated" "min_manifest_version"
      "max_manifest_version" "validatePrivilegedPermissions" "type"
      "privileged";
  BLOCKED_CONTENT_SCRIPT_HOSTS := hosts;
  parse := parse';
  stringToNumber := parseIntString;
  oneLine := fun s => s;
  path_join := fun a b => a +:+ "/" +:+ b;
  path_join3 := fun a b c => a +:+ "/" +:+ b +:+ "/" +:+ c;
  path_extname := Sample.extname;
  upath_toUnix := fun s => s;
  mozCompare := fun a b =>
    Sample.compareParts (Sample.versionParts a) (Sample.versionParts b);
  parseCspPolicy := Sample.parseCspPolicy_model;
  normalizePath := fun v =>
    match v with
    | VStr s => Ok s
    | _ => Throw
    end;
  isValidVersionString := fun _ => true;
  isToolkitVersionString := fun _ => false;
  firefoxStrictMinVersion := minVersion;
  basicCompatVersionComparison := unsupported;
  firstStableVersion := fun v => Ok v;
  bcd_manifest := bcd;
  runValidator := runValidator';
  getImageSize := Sample.decode
|}.

(** The imports of the rules on theme images. *)
Definition theme : ThemeImports := {|
  STATIC_THEME_IMAGE_MIMES := ["image/png"; "image/svg+xml"; "image/webp"];
  manifestThemeImageMissing := fun path type =>
    Sample.about "MANIFEST_THEME_IMAGE_NOT_FOUND" (type +:+ " " +:+ path);
  manifestThemeImageWrongExtension :=
    Sample.about "MANIFEST_THEME_IMAGE_WRONG_EXT";
  manifestThemeImageWrongMime := fun path _ =>
    Sample.about "MANIFEST_THEME_IMAGE_WRONG_MIME" path;
  manifestThemeImageMimeMismatch := fun path _ =>
    Sample.about "MANIFEST_THEME_IMAGE_MIME_MISMATCH" path;
  manifestThemeImageCorrupted :=
    Sample.about "MANIFEST_THEME_IMAGE_CORRUPTED"
|}.

End Custom.

(** ** Vocabulary of the other properties *)

(** The warnings of [validateCspPolicyString] on a policy with the
    directives [d]: the one on ['unsafe-eval'], then the one on an
    insecure policy. *)
Definition cspWarnings `{Messages} `{Imports} (manifestPropName : string)
    (d : gmap string (list string)) : list Diagnostic :=
  (if warnInsecureEval (cspFlags d)
   then [addWarning (manifestCspUnsafeEval manifestPropName)] else [])
  ++ (if warnInsecureCsp (cspFlags d)
      then [addWarning (manifestCsp manifestPropName)] else []).

Definition policyWarnings `{Messages} `{Imports} (manifestPropName : string)
    (policy : value) : list Diagnostic :=
  match parseCspPolicy policy with
  | Ok d => cspWarnings manifestPropName d
  | Throw => []
  end.

(** The hosts that [validateContentScriptMatchPattern] looks for: the
    lines of the list of blocked hosts that are not empty and do not start
    with [#], trimmed. *)
Definition blockedHosts `{Imports} : list string :=
  map trim
    (List.filter
       (fun value =>
          negb (String.eqb value "")
          && negb (String.eqb (String.substring 0 1 value) "#"))
       (splitLines BLOCKED_CONTENT_SCRIPT_HOSTS)).







(** The error of [validateFileExistsInPackage] for the normalized path
    [_path], in a package with the files [fs]. *)
Definition missingFile (fs : list (string * value))
    (messageFunc : string -> string -> Message) (type _path : string)
    : list Diagnostic :=
  if hasOwn _path fs then [] else [addError (messageFunc _path type)].

(** The keys of the manifest that the rules of [_validate] look for,
    besides [manifest_version] and [version]. *)
Definition ruleKeys : list string :=
  ["browser_specific_settings"; "applications"; "content_security_policy";
   "update_url"; "granted_host_permissions"; "background";
   "content_scripts"; "dictionaries"; "default_locale"; "developer";
   "homepage_url"; "permissions"; "hidden"].

(** A name without [/] and without line terminator. *)
Fixpoint plainName (s : string) : bool :=
  match s with
  | EmptyString => true
  | String c s' =>
      negb (Ascii.eqb c "/"%char) && negb (isLineTerminator c)
      && plainName s'
  end.

(** The messages file of the locale [locale]. *)
Definition messagesFile (locale : string) : string :=
  LOCALES_DIRECTORY +:+ "/" +:+ locale +:+ "/" +:+ MESSAGES_JSON.

(** What the loop of [_validate] over [validate.errors] reports for the
    error [error]: nothing when [errorLookup] gives no message; else the
    message, as a warning when its code is one of [warnings] and as an
    error when it is not. *)
Definition schemaDiagnostics `{Messages} `{Imports} (p : Parser)
    (error : SchemaError) : list Diagnostic :=
  match errorLookup p error with
  | Ok (Some m) =>
      [if bool_decide (code m ∈ warnings p) then addWarning m
       else addError m]
  | _ => []
  end.


(** * Properties *)

(** ** Helpers *)

#[local] Arguments String.eqb : simpl never.
#[local] Arguments String.prefix : simpl never.

Lemma includes_In xs x : includes xs x = true <-> In x xs.
Proof.
  unfold includes. rewrite existsb_exists. split.
  - intros [y [Hy He]]. apply String.eqb_eq in He. now subst.
  - intros Hin. exists x. split; [assumption | apply String.eqb_refl].
Qed.

Lemma includes_notIn xs x : includes xs x = false <-> ~ In x xs.
Proof.
  rewrite <- includes_In. destruct (includes xs x); split; intros; congruence.
Qed.

Ltac run :=
  unfold mbind, mret, M_bind, M_ret, lift, collect, invalidate, this,
    manifest, when, ioFiles in *; simpl in *.

Ltac step :=
  repeat progress
    (unfold mbind, M_bind, mret, M_ret, manifest, this, when, collect,
       invalidate, lift; cbv beta iota).

Lemma after_nil p : after p [] false = p.
Proof. destruct p. unfold after, set_isValid, set_log. simpl.
  now rewrite app_nil_r. Qed.

Ltac quiet :=
  exists []; simpl; rewrite ?after_nil; split; [reflexivity | constructor].

Lemma after_after p ds b ds' b' :
  after (after p ds b) ds' b' = after p (ds ++ ds') (b || b').
Proof.
  destruct p. unfold after, set_isValid, set_log. simpl.
  rewrite app_assoc. now destruct b, b'.
Qed.

Lemma invalid_after p ds :
  set_isValid (Some false) (set_log (log p ++ ds) p) = after p ds true.
Proof. reflexivity. Qed.

Lemma reports_after {A} (m : M A) p a ds b :
  m p = Done a (after p ds b) -> reports m p ds (after p ds b).
Proof. intros Hm. exists a. split; [exact Hm | reflexivity]. Qed.

Lemma length_append (s1 s2 : string) :
  String.length (s1 +:+ s2) = String.length s1 + String.length s2.
Proof. induction s1 as [|c s1 IH]; simpl; [reflexivity | now rewrite IH]. Qed.

Lemma substring_append_l (s1 s2 : string) :
  String.substring 0 (String.length s1) (s1 +:+ s2) = s1.
Proof. induction s1 as [|c s1 IH]; simpl; [now destruct s2 | now rewrite IH].
Qed.

Lemma substring_append_r (s1 s2 : string) (m : nat) :
  String.substring (String.length s1) m (s1 +:+ s2) = String.substring 0 m s2.
Proof. induction s1 as [|c s1 IH]; simpl; [reflexivity | exact IH]. Qed.

(** The sibling of a [.dic] path. *)
Lemma replaceDicByAff_dic (stem : string) :
  replaceDicByAff (VStr (stem +:+ ".dic")) = Ok (VStr (stem +:+ ".aff")).
Proof.
  unfold replaceDicByAff, endsWith. rewrite length_append.
  change (String.length ".dic") with 4.
  replace (String.length stem + 4 - 4) with (String.length stem) by lia.
  rewrite substring_append_r, substring_append_l.
  replace (4 <=? String.length stem + 4)%nat with true
    by (symmetry; apply Nat.leb_le; lia).
  reflexivity.
Qed.

Lemma assoc_In {A} (k : string) (v : A) (l : list (string * A)) :
  List.NoDup (map fst l) -> In (k, v) l -> assoc k l = Some v.
Proof.
  induction l as [|[k' v'] l IH]; simpl; [tauto|].
  intros Hnd [Heq|Hin].
  - injection Heq as -> ->. now rewrite String.eqb_refl.
  - apply NoDup_cons_iff in Hnd as [Hnotin Hnd].
    destruct (String.eqb_spec k k') as [->|Hne]; [|now apply IH].
    exfalso. apply Hnotin, in_map_iff. now exists (k', v).
Qed.


Lemma NoDup_snoc {A} (l : list A) (x : A) :
  List.NoDup l -> ~ In x l -> List.NoDup (l ++ [x]).
Proof.
  induction l as [|y l IH]; simpl; intros Hnd Hx.
  - constructor; [tauto | constructor].
  - apply NoDup_cons_iff in Hnd as [Hy Hnd]. constructor.
    + rewrite in_app_iff. simpl. intros [Hin|[->|[]]]; tauto.
    + apply IH; tauto.
Qed.

(** ** Content security policy *)

Section CspProperties.

Context `{Messages} `{Imports}.

(** A token that marks the policy insecure. *)
Let bad (v : string) : bool := negb (passes v).

Lemma scanValue_flags candidate st v :
  scanValue candidate st v =
  mkCspFlags
    (insecureSrcDirective st
     || (String.eqb candidate "default-src" && bad v))
    (warnInsecureCsp st || bad v)
    (warnInsecureEval st || String.eqb v "'unsafe-eval'").
Proof.
  unfold scanValue, bad, passes.
  destruct st as [i w e]; simpl.
  destruct (String.eqb v "'unsafe-eval'"); simpl.
  - now rewrite !andb_false_r, !orb_false_r, orb_true_r.
  - destruct (isSecureCspValue v); simpl.
    + now rewrite !andb_false_r, !orb_false_r.
    + rewrite !orb_true_r, !orb_false_r, andb_true_r.
      now destruct (String.eqb candidate "default-src"), i.
Qed.

Lemma scan_flags candidate vs st :
  fold_left (scanValue candidate) vs st =
  mkCspFlags
    (insecureSrcDirective st
     || (String.eqb candidate "default-src" && existsb bad vs))
    (warnInsecureCsp st || existsb bad vs)
    (warnInsecureEval st || existsb (String.eqb "'unsafe-eval'") vs).
Proof.
  revert st. induction vs as [|v vs IH]; intros st; simpl.
  - destruct st. simpl. now rewrite !andb_false_r, !orb_false_r.
  - rewrite IH, scanValue_flags. simpl.
    rewrite (String.eqb_sym "'unsafe-eval'" v).
    f_equal; rewrite <- ?orb_assoc; try reflexivity.
    f_equal. now destruct (String.eqb candidate "default-src").
Qed.

Lemma existsb_bad_false vs :
  forallb passes vs = true -> existsb bad vs = false.
Proof.
  induction vs as [|v vs IH]; simpl; [reflexivity|].
  intros Hall. apply andb_true_iff in Hall as [Hv Hvs].
  unfold bad at 1. rewrite Hv. simpl. auto.
Qed.

Lemma existsb_bad_true vs v :
  In v vs -> passes v = false -> existsb bad vs = true.
Proof.
  intros Hin Hv. apply existsb_exists. exists v. split; [assumption|].
  unfold bad. now rewrite Hv.
Qed.

Lemma existsb_eval vs :
  In "'unsafe-eval'" vs -> existsb (String.eqb "'unsafe-eval'") vs = true.
Proof.
  intros Hin. apply existsb_exists. exists "'unsafe-eval'".
  split; [assumption | apply String.eqb_refl].
Qed.

(** Once raised, the eval flag stays. *)
Lemma checkCandidate_eval_keeps d st c :
  warnInsecureEval st = true ->
  warnInsecureEval (checkCandidate d st c) = true.
Proof.
  intros He. unfold checkCandidate.
  destruct (d !! c) as [vs|]; [|assumption].
  destruct (_ && _); simpl; [assumption|].
  rewrite scan_flags. simpl. now rewrite He.
Qed.

(** A checked directive with ['unsafe-eval'] raises the eval flag, when
    ['unsafe-eval'] is not a safe keyword. *)
Lemma checkCandidate_eval_raises d st c vs :
  isSecureCspValue "'unsafe-eval'" = false ->
  d !! c = Some vs -> In "'unsafe-eval'" vs ->
  warnInsecureEval (checkCandidate d st c) = true.
Proof.
  intros Hue Hd Hin. unfold checkCandidate. rewrite Hd.
  assert (Hall : forallb isSecureCspValue vs = false).
  { apply not_true_is_false. intros Hall.
    rewrite forallb_forall in Hall. specialize (Hall _ Hin). congruence. }
  rewrite Hall, andb_false_r. rewrite scan_flags. simpl.
  rewrite existsb_eval by assumption. apply orb_true_r.
Qed.

(** What the method reports, from the flags. *)
Lemma validateCspPolicyString_reports policy name d p :
  parseCspPolicy policy = Ok d ->
  exists p',
    reports (validateCspPolicyString policy name) p
      ((if warnInsecureEval (cspFlags d)
        then [addWarning (manifestCspUnsafeEval name)] else [])
       ++ (if warnInsecureCsp (cspFlags d)
           then [addWarning (manifestCsp name)] else []))
      p'.
Proof.
  intros Hd. unfold reports, validateCspPolicyString. run. rewrite Hd.
  destruct (warnInsecureEval (cspFlags d)), (warnInsecureCsp (cspFlags d));
    simpl; eexists; eexists; (split; [reflexivity|]); simpl;
    rewrite <- ?app_assoc, ?app_nil_r; reflexivity.
Qed.

(** No flag is raised by a directive whose tokens all pass, once the
    source flag is down. *)
Lemma checkCandidate_quiet d st c :
  insecureSrcDirective st = false -> warnInsecureCsp st = false ->
  (forall vs, d !! c = Some vs -> forallb passes vs = true) ->
  insecureSrcDirective (checkCandidate d st c) = false
  /\ warnInsecureCsp (checkCandidate d st c) = false.
Proof.
  intros Hi Hw Hall. unfold checkCandidate.
  destruct (d !! c) as [vs|]; [|now split].
  rewrite Hi. simpl. rewrite scan_flags. simpl.
  rewrite Hi, Hw, (existsb_bad_false vs) by now apply Hall.
  now rewrite andb_false_r.
Qed.

(** The insecure flag stays up through a directive that is not an
    overriding [script-src]. *)
Lemma checkCandidate_insecure_keeps d st c :
  warnInsecureCsp st = true ->
  (String.eqb c "script-src" = true ->
   forall vs, d !! c = Some vs -> forallb isSecureCspValue vs = false) ->
  warnInsecureCsp (checkCandidate d st c) = true.
Proof.
  intros Hw Hc. unfold checkCandidate.
  destruct (d !! c) as [vs|] eqn:Hd; [|assumption].
  destruct (String.eqb c "script-src") eqn:Hs.
  - rewrite (Hc eq_refl vs eq_refl), andb_false_r.
    rewrite scan_flags. simpl. now rewrite Hw.
  - rewrite andb_false_r. simpl. rewrite scan_flags. simpl. now rewrite Hw.
Qed.

Lemma cspFlags_unfold d :
  cspFlags d =
  checkCandidate d
    (checkCandidate d
       (checkCandidate d
          (checkCandidate d
             (checkCandidate d (initialCspFlags d) "default-src")
             "script-src")
          "script-src-elem")
       "script-src-attr")
    "worker-src".
Proof. reflexivity. Qed.

(** C1 (as amended).  For a policy that [parseCspPolicy] turns into the
    directives [d], [validateCspPolicyString] reports at most the eval
    warning and the insecure-CSP warning, and:
    - without [default-src], with a [script-src] made of safe keywords
      only, and with [script-src-elem], [script-src-attr] and [worker-src]
      made of safe keywords and ['unsafe-eval'] only, there is no
      insecure-CSP warning;
    - with a [default-src] that has a token other than a safe keyword and
      ['unsafe-eval'], and without a [script-src] made of safe keywords
      only, there is an insecure-CSP warning;
    - with ['unsafe-eval'] in a checked directive there is the eval
      warning, whatever the other tokens, when ['unsafe-eval'] is not
      itself a safe keyword;
    - with [default-src] present and all checked directives made of safe
      keywords and ['unsafe-eval'] only, there is no insecure-CSP
      warning: ['unsafe-eval'] alone does not mark the policy insecure. *)
Theorem validateCspPolicyString_posture policy name d p :
  parseCspPolicy policy = Ok d ->
  manifestCspUnsafeEval name <> manifestCsp name ->
  exists ds p',
    reports (validateCspPolicyString policy name) p ds p'
    /\ (d !! "default-src" = None ->
        (exists vs, d !! "script-src" = Some vs
                    /\ forallb isSecureCspValue vs = true) ->
        (forall c vs,
           In c ["script-src-elem"; "script-src-attr"; "worker-src"] ->
           d !! c = Some vs -> forallb passes vs = true) ->
        ~ In (addWarning (manifestCsp name)) ds)
    /\ (forall vs v,
          d !! "default-src" = Some vs -> In v vs -> passes v = false ->
          (forall vs', d !! "script-src" = Some vs' ->
                       forallb isSecureCspValue vs' = false) ->
          In (addWarning (manifestCsp name)) ds)
    /\ (forall c vs,
          isSecureCspValue "'unsafe-eval'" = false ->
          In c candidates -> d !! c = Some vs -> In "'unsafe-eval'" vs ->
          In (addWarning (manifestCspUnsafeEval name)) ds)
    /\ (is_Some (d !! "default-src") ->
        (forall c vs, In c candidates -> d !! c = Some vs ->
                      forallb passes vs = true) ->
        ~ In (addWarning (manifestCsp name)) ds).
Proof.
  intros Hd Hne.
  destruct (validateCspPolicyString_reports policy name d p Hd)
    as [p' Hrep].
  eexists; exists p'. split; [exact Hrep|].
  assert (Hno : warnInsecureCsp (cspFlags d) = false ->
                ~ In (addWarning (manifestCsp name))
                    ((if warnInsecureEval (cspFlags d)
                      then [addWarning (manifestCspUnsafeEval name)]
                      else [])
                     ++ (if warnInsecureCsp (cspFlags d)
                         then [addWarning (manifestCsp name)] else []))).
  { intros Hw. rewrite Hw, app_nil_r.
    destruct (warnInsecureEval (cspFlags d)); simpl; [|tauto].
    intros [Heq|[]]. apply Hne. unfold addWarning in Heq. congruence. }
  repeat split.
  - (* no default-src, script-src of safe keywords *)
    intros Hdef [vs [Hs Hsafe]] Hrest. apply Hno.
    rewrite cspFlags_unfold.
    set (s1 := checkCandidate d (initialCspFlags d) "default-src").
    set (s2 := checkCandidate d s1 "script-src").
    assert (H2 : insecureSrcDirective s2 = false
                 /\ warnInsecureCsp s2 = false).
    { subst s2 s1. unfold checkCandidate, initialCspFlags.
      rewrite Hs, !Hdef. simpl.
      rewrite ?String.eqb_refl, Hsafe. simpl. now split. }
    destruct H2 as [Hi2 Hw2].
    destruct (checkCandidate_quiet d s2 "script-src-elem" Hi2 Hw2)
      as [Hi3 Hw3].
    { intros vs'. apply Hrest. simpl. tauto. }
    destruct (checkCandidate_quiet d _ "script-src-attr" Hi3 Hw3)
      as [Hi4 Hw4].
    { intros vs'. apply Hrest. simpl. tauto. }
    destruct (checkCandidate_quiet d _ "worker-src" Hi4 Hw4) as [_ Hw5].
    { intros vs'. apply Hrest. simpl. tauto. }
    exact Hw5.
  - (* default-src with a token that does not pass *)
    intros vs v Hdef Hin Hv Hscript.
    apply in_or_app. right.
    assert (Hw : warnInsecureCsp (cspFlags d) = true).
    { rewrite cspFlags_unfold.
      set (s1 := checkCandidate d (initialCspFlags d) "default-src").
      assert (H1 : warnInsecureCsp s1 = true).
      { subst s1. unfold checkCandidate, initialCspFlags. rewrite Hdef.
        simpl. rewrite scan_flags. simpl.
        now rewrite (existsb_bad_true vs v Hin Hv). }
      do 3 (apply checkCandidate_insecure_keeps;
            [| intros Hc; vm_compute in Hc; discriminate]).
      apply checkCandidate_insecure_keeps;
        [exact H1 | intros _; exact Hscript]. }
    rewrite Hw. simpl. now left.
  - (* 'unsafe-eval' in a checked directive *)
    intros c vs Hue Hc Hdc Hin.
    apply in_or_app. left.
    assert (He : warnInsecureEval (cspFlags d) = true).
    { rewrite cspFlags_unfold. simpl in Hc.
      destruct Hc as [<-|[<-|[<-|[<-|[<-|[]]]]]];
        repeat first
          [ now apply (checkCandidate_eval_raises d _ _ vs Hue Hdc Hin)
          | apply checkCandidate_eval_keeps ]. }
    rewrite He. simpl. now left.
  - (* default-src present, every token passes *)
    intros [vs0 Hdef] Hall. apply Hno.
    rewrite cspFlags_unfold.
    assert (H0' : insecureSrcDirective (initialCspFlags d) = false
                  /\ warnInsecureCsp (initialCspFlags d) = false).
    { unfold initialCspFlags. rewrite Hdef. now split. }
    destruct H0' as [Hi0 Hw0].
    destruct (checkCandidate_quiet d _ "default-src" Hi0 Hw0) as [Hi1 Hw1].
    { intros vs'. apply Hall. simpl. tauto. }
    destruct (checkCandidate_quiet d _ "script-src" Hi1 Hw1) as [Hi2 Hw2].
    { intros vs'. apply Hall. simpl. tauto. }
    destruct (checkCandidate_quiet d _ "script-src-elem" Hi2 Hw2)
      as [Hi3 Hw3].
    { intros vs'. apply Hall. simpl. tauto. }
    destruct (checkCandidate_quiet d _ "script-src-attr" Hi3 Hw3)
      as [Hi4 Hw4].
    { intros vs'. apply Hall. simpl. tauto. }
    destruct (checkCandidate_quiet d _ "worker-src" Hi4 Hw4) as [_ Hw5].
    { intros vs'. apply Hall. simpl. tauto. }
    exact Hw5.
Qed.

End CspProperties.

Section CspExamples.

#[local] Existing Instance Sample.messages.
#[local] Existing Instance Sample.imports.

(** C1 as stated fails twice.  The policy [script-src 'self'; worker-src *]
    has no [default-src] and a [script-src] of safe keywords, and gets the
    insecure-CSP warning from its [worker-src].  The policy
    [default-src *; script-src 'self'] has the token [*] in [default-src]
    and gets no warning: its [script-src] overrides. *)
Lemma validateCspPolicyString_counterexample :
  (exists d vs p',
     parseCspPolicy (VStr "script-src 'self'; worker-src *") = Ok d
     /\ d !! "default-src" = None
     /\ d !! "script-src" = Some vs
     /\ forallb isSecureCspValue vs = true
     /\ reports
          (validateCspPolicyString (VStr "script-src 'self'; worker-src *")
             "content_security_policy")
          (exampleParser (VObj []) (VObj []))
          [addWarning (manifestCsp "content_security_policy")] p')
  /\ (exists d vs p',
        parseCspPolicy (VStr "default-src *; script-src 'self'") = Ok d
        /\ d !! "default-src" = Some vs
        /\ In "*" vs
        /\ isSecureCspValue "*" = false
        /\ reports
             (validateCspPolicyString
                (VStr "default-src *; script-src 'self'")
                "content_security_policy")
             (exampleParser (VObj []) (VObj [])) [] p').
Proof.
  split.
  - exists (<["script-src" := ["'self'"]]> (<["worker-src" := ["*"]]> ∅)),
      ["'self'"],
      (after (exampleParser (VObj []) (VObj []))
         [addWarning (manifestCsp "content_security_policy")] false).
    repeat split; try (vm_compute; reflexivity).
    exists tt. split; vm_compute; reflexivity.
  - exists (<["default-src" := ["*"]]> (<["script-src" := ["'self'"]]> ∅)),
      ["*"], (exampleParser (VObj []) (VObj [])).
    repeat split; try (vm_compute; reflexivity).
    + simpl. now left.
    + exists tt. split; vm_compute; reflexivity.
Qed.

(** The policy [default-src 'self' 'unsafe-eval'] gets the eval warning
    and no insecure-CSP warning. *)
Lemma validateCspPolicyString_posture_witness :
  exists ds p',
    reports
      (validateCspPolicyString (VStr "default-src 'self' 'unsafe-eval'")
         "content_security_policy")
      (exampleParser (VObj []) (VObj [])) ds p'
    /\ In (addWarning (manifestCspUnsafeEval "content_security_policy")) ds
    /\ ~ In (addWarning (manifestCsp "content_security_policy")) ds.
Proof.
  set (d := <["default-src" := ["'self'"; "'unsafe-eval'"]]>
              (∅ : gmap string (list string))).
  destruct
    (validateCspPolicyString_posture
       (VStr "default-src 'self' 'unsafe-eval'") "content_security_policy"
       d (exampleParser (VObj []) (VObj [])))
    as (ds & p' & Hr & _ & _ & Heval & Hquiet).
  - vm_compute. reflexivity.
  - vm_compute. discriminate.
  - exists ds, p'. split; [exact Hr|]. split.
    + apply (Heval "default-src" ["'self'"; "'unsafe-eval'"]).
      * vm_compute. reflexivity.
      * simpl. now left.
      * vm_compute. reflexivity.
      * simpl. tauto.
    + apply Hquiet.
      * exists ["'self'"; "'unsafe-eval'"]. vm_compute. reflexivity.
      * intros c vs Hc Hd. simpl in Hc.
        destruct Hc as [<-|[<-|[<-|[<-|[<-|[]]]]]];
          vm_compute in Hd; try discriminate.
        injection Hd as <-. vm_compute. reflexivity.
Defined.

End CspExamples.

(** ** Dictionaries *)

Section DictionaryProperties.

Context `{Messages} `{Imports}.

(** What [validateFileExistsInPackage] does when the path is normalized
    and looked up. *)
Lemma validateFileExistsInPackage_run filePath type f p _path i b :
  normalizePath filePath = Ok _path ->
  io p = Some i ->
  hasOwnProperty (files i) _path = Ok b ->
  validateFileExistsInPackage filePath type f p =
  if b then Done true p
  else Done false (after p [addError (f _path type)] true).
Proof.
  intros Hn Hio Hown. unfold validateFileExistsInPackage. run.
  rewrite Hn, Hio, Hown. now destruct b.
Qed.

(** It reports at most the error of the missing file, and raises without
    a report. *)
Lemma validateFileExistsInPackage_cases filePath type f p :
  validateFileExistsInPackage filePath type f p = Raised p
  \/ validateFileExistsInPackage filePath type f p = Done true p
  \/ exists _path,
       validateFileExistsInPackage filePath type f p =
       Done false (after p [addError (f _path type)] true).
Proof.
  unfold validateFileExistsInPackage. run.
  destruct (normalizePath filePath) as [_path|]; [|now left].
  destruct (io p) as [i|]; [|now left].
  destruct (hasOwnProperty (files i) _path) as [[|]|]; simpl; eauto.
Qed.

(** An error of a missing dictionary file. *)
Let fileMissing (d : Diagnostic) : Prop :=
  exists _path, d = addError (manifestDictionaryFileMissing _path "binary").

(** One turn of the loop reports missing files only, and marks the
    manifest invalid when it reports. *)
Lemma validateDictionaryFiles_final dicts locale p :
  get (parsedJSON p) "dictionaries" = Ok (VObj dicts) ->
  exists fds,
    final (validateDictionaryFiles locale p) = after p fds (nonEmpty fds)
    /\ Forall fileMissing fds.
Proof.
  intros Hget. unfold validateDictionaryFiles. step. rewrite Hget.
  cbv beta iota.
  destruct (get (VObj dicts) locale) as [filepath|] eqn:Hf;
    [|quiet].
  destruct (validateFileExistsInPackage_cases filepath "binary"
              manifestDictionaryFileMissing p) as [E|[E|[x E]]];
    rewrite E; clear E.
  - quiet.
  - destruct (replaceDicByAff filepath) as [aff|];
      [|quiet].
    destruct (validateFileExistsInPackage_cases aff "binary"
                manifestDictionaryFileMissing p) as [E|[E|[y E]]];
      rewrite E; clear E.
    + quiet.
    + quiet.
    + eexists [_]. simpl. split; [reflexivity|].
      repeat constructor. now exists y.
  - destruct (replaceDicByAff filepath) as [aff|].
    2:{ eexists [_]. simpl. split; [reflexivity|].
        repeat constructor. now exists x. }
    destruct (validateFileExistsInPackage_cases aff "binary"
                manifestDictionaryFileMissing
                (after p
                   [addError (manifestDictionaryFileMissing x "binary")]
                   true)) as [E|[E|[y E]]]; rewrite E; clear E.
    + eexists [_]. simpl. split; [reflexivity|].
      repeat constructor. now exists x.
    + eexists [_]. simpl. split; [reflexivity|].
      repeat constructor. now exists x.
    + eexists [_; _]. simpl. rewrite after_after. split; [reflexivity|].
      repeat constructor; [now exists x | now exists y].
Qed.

Lemma final_forEach_cons {A} (f : A -> M unit) x xs p :
  final (forEach (x :: xs) f p) =
  match f x p with
  | Done _ p' => final (forEach xs f p')
  | Raised p' => p'
  end.
Proof. simpl. step. now destruct (f x p). Qed.

Lemma nonEmpty_app {A} (l l' : list A) :
  nonEmpty (l ++ l') = nonEmpty l || nonEmpty l'.
Proof. now destruct l, l'. Qed.

(** The whole loop reports missing files only. *)
Lemma forEach_validateDictionaryFiles_final dicts ks p :
  get (parsedJSON p) "dictionaries" = Ok (VObj dicts) ->
  exists fds,
    final (forEach ks validateDictionaryFiles p) = after p fds (nonEmpty fds)
    /\ Forall fileMissing fds.
Proof.
  revert p. induction ks as [|k ks IH]; intros p Hget.
  - quiet.
  - rewrite final_forEach_cons.
    destruct (validateDictionaryFiles_final dicts k p Hget)
      as (fds & Hfin & Hall).
    destruct (validateDictionaryFiles k p) as [[] p1|p1]; simpl in Hfin;
      subst p1; [|now exists fds].
    destruct (IH (after p fds (nonEmpty fds)) Hget) as (fds' & Hfin' & Hall').
    exists (fds ++ fds'). rewrite Hfin', after_after, nonEmpty_app.
    split; [reflexivity | now apply Forall_app].
Qed.

(** The errors of the identifier and of the number of entries. *)
Let structural (p : Parser) (dicts : list (string * value))
    : list Diagnostic :=
  (if truthy (getAddonId p) then []
   else [addError MANIFEST_DICT_MISSING_ID])
  ++ match dicts with
     | [] => [addError MANIFEST_EMPTY_DICTS]
     | [_] => []
     | _ :: _ :: _ => [addError MANIFEST_MULTIPLE_DICTS]
     end.

(** The rule is these errors and then the loop. *)
Lemma validateDictionaries_unfold p dicts :
  get (parsedJSON p) "dictionaries" = Ok (VObj dicts) ->
  validateDictionaries p =
  forEach (map fst dicts) validateDictionaryFiles
    (after p (structural p dicts) (nonEmpty (structural p dicts))).
Proof.
  intros Hget. unfold validateDictionaries, structural. step.
  rewrite Hget. cbv beta iota. cbn [truthy].
  destruct (truthy (getAddonId p)); cbn [negb app]; step;
    cbn [parsedJSON set_isValid set_log]; rewrite Hget; cbv beta iota;
    cbn [keys ownProps]; rewrite length_map;
    destruct dicts as [|e1 [|e2 rest]]; cbn [length Nat.ltb Nat.leb];
    step; cbn [parsedJSON set_isValid set_log]; rewrite Hget; cbv beta iota;
    cbn [keys ownProps nonEmpty app];
    rewrite ?invalid_after, ?after_after, ?after_nil; reflexivity.
Qed.

(** One turn of the loop on an entry that is a path. *)
Lemma validateDictionaryFiles_run dicts locale path _path aff _aff i entries
    p :
  get (parsedJSON p) "dictionaries" = Ok (VObj dicts) ->
  assoc locale dicts = Some (VStr path) ->
  normalizePath (VStr path) = Ok _path ->
  replaceDicByAff (VStr path) = Ok aff ->
  normalizePath aff = Ok _aff ->
  io p = Some i -> files i = VObj entries ->
  let fds :=
    missingDictionaryFile (hasOwn _path entries) _path
    ++ missingDictionaryFile (hasOwn _aff entries) _aff in
  validateDictionaryFiles locale p = Done tt (after p fds (nonEmpty fds)).
Proof.
  intros Hget Hassoc Hn Haff Hn' Hio Hfiles fds.
  unfold validateDictionaryFiles. step. rewrite Hget. cbv beta iota.
  cbn [get ownProps]. rewrite Hassoc. cbv beta iota.
  rewrite (validateFileExistsInPackage_run _ _ _ p _path i
             (hasOwn _path entries) Hn Hio)
    by (rewrite Hfiles; reflexivity).
  subst fds. unfold missingDictionaryFile.
  destruct (hasOwn _path entries); rewrite Haff; cbv beta iota.
  - rewrite (validateFileExistsInPackage_run _ _ _ p _aff i
               (hasOwn _aff entries) Hn' Hio)
      by (rewrite Hfiles; reflexivity).
    destruct (hasOwn _aff entries); cbn [app nonEmpty];
      now rewrite ?after_nil.
  - rewrite (validateFileExistsInPackage_run _ _ _ (after p _ true) _aff i
               (hasOwn _aff entries) Hn' Hio)
      by (rewrite Hfiles; reflexivity).
    destruct (hasOwn _aff entries); cbn [app nonEmpty];
      now rewrite ?after_after.
Qed.

(** The loop on entries that are paths: it returns, and it reports
    every file that is not in the package. *)
Lemma forEach_validateDictionaryFiles_run dicts i entries ks p :
  get (parsedJSON p) "dictionaries" = Ok (VObj dicts) ->
  io p = Some i -> files i = VObj entries ->
  (forall locale, In locale ks ->
     exists path,
       assoc locale dicts = Some (VStr path)
       /\ normalizePath (VStr path) <> Throw
       /\ forall aff, replaceDicByAff (VStr path) = Ok aff ->
                      normalizePath aff <> Throw) ->
  exists fds,
    forEach ks validateDictionaryFiles p = Done tt (after p fds (nonEmpty fds))
    /\ forall locale path filePath _path,
         In locale ks -> assoc locale dicts = Some (VStr path) ->
         filePath = VStr path \/ replaceDicByAff (VStr path) = Ok filePath ->
         normalizePath filePath = Ok _path ->
         hasOwn _path entries = false ->
         In (addError (manifestDictionaryFileMissing _path "binary")) fds.
Proof.
  revert p. induction ks as [|k ks IH]; intros p Hget Hio Hfiles Htotal.
  - exists []. simpl. rewrite after_nil. split; [reflexivity|].
    intros ? ? ? ? [].
  - destruct (Htotal k (or_introl eq_refl)) as (path & Hassoc & Hn & Haff).
    destruct (normalizePath (VStr path)) as [_path|] eqn:Hn1; [|congruence].
    destruct (replaceDicByAff (VStr path)) as [aff|] eqn:Hr;
      [|unfold replaceDicByAff in Hr;
        destruct (endsWith path ".dic"); discriminate Hr].
    specialize (Haff aff eq_refl).
    destruct (normalizePath aff) as [_aff|] eqn:Hn2; [|congruence].
    pose proof (validateDictionaryFiles_run dicts k path _path aff _aff i
                  entries p Hget Hassoc Hn1 Hr Hn2 Hio Hfiles) as Hrun.
    cbv zeta in Hrun.
    set (fds := missingDictionaryFile (hasOwn _path entries) _path
                ++ missingDictionaryFile (hasOwn _aff entries) _aff) in *.
    destruct (IH (after p fds (nonEmpty fds)) Hget Hio Hfiles)
      as (fds' & Hloop & Hin').
    { intros locale Hin. apply Htotal. now right. }
    exists (fds ++ fds'). split.
    + cbn [forEach]. step. rewrite Hrun. cbv beta iota. rewrite Hloop.
      now rewrite after_after, nonEmpty_app.
    + intros locale path' filePath _path' [<-|Hin] Hassoc' Hfile Hnorm Hown;
        apply in_or_app.
      * left. rewrite Hassoc in Hassoc'. injection Hassoc' as <-.
        subst fds. apply in_or_app. unfold missingDictionaryFile.
        destruct Hfile as [->|Hfile].
        -- left. rewrite Hn1 in Hnorm. injection Hnorm as <-.
           rewrite Hown. now left.
        -- right. rewrite Hr in Hfile. injection Hfile as <-.
           rewrite Hn2 in Hnorm. injection Hnorm as <-.
           rewrite Hown. now left.
      * right. eapply Hin'; eassumption.
Qed.

(** C3.  Let the manifest declare the map [dicts] as [dictionaries].  The
    rule of [_validate] reports errors only, and [isValid] is [false]
    afterwards when it reports any.
    - When [getAddonId] gives no identifier, it reports
      [MANIFEST_DICT_MISSING_ID].
    - When the map has no entry, it reports [MANIFEST_EMPTY_DICTS].
    - When the map has more than one entry, it reports
      [MANIFEST_MULTIPLE_DICTS] exactly once.
    - When every entry is a path, it returns, and for a declared path
      [stem.dic] it reports a missing dictionary file for [stem.dic] and
      for [stem.aff], each when its normalized path is not among the
      files of the package. *)
Theorem dictionaries_rules p dicts :
  get (parsedJSON p) "dictionaries" = Ok (VObj dicts) ->
  exists ds,
    final (validateDictionaries p) = after p ds (nonEmpty ds)
    /\ (Forall (fun d => fst d = SevError) ds)
    /\ (truthy (getAddonId p) = false ->
        In (addError MANIFEST_DICT_MISSING_ID) ds
        /\ isValid (final (validateDictionaries p)) = Some false)
    /\ (length dicts = 0 ->
        In (addError MANIFEST_EMPTY_DICTS) ds
        /\ isValid (final (validateDictionaries p)) = Some false)
    /\ (1 < length dicts ->
        isValid (final (validateDictionaries p)) = Some false
        /\ (MANIFEST_DICT_MISSING_ID <> MANIFEST_MULTIPLE_DICTS ->
            (forall _path,
               manifestDictionaryFileMissing _path "binary"
               <> MANIFEST_MULTIPLE_DICTS) ->
            exists before rest,
              ds = before ++ addError MANIFEST_MULTIPLE_DICTS :: rest
              /\ ~ In (addError MANIFEST_MULTIPLE_DICTS) before
              /\ ~ In (addError MANIFEST_MULTIPLE_DICTS) rest))
    /\ (forall i entries,
          io p = Some i -> files i = VObj entries ->
          List.NoDup (map fst dicts) ->
          (forall locale v, In (locale, v) dicts ->
             exists path,
               v = VStr path
               /\ normalizePath (VStr path) <> Throw
               /\ forall aff, replaceDicByAff (VStr path) = Ok aff ->
                              normalizePath aff <> Throw) ->
          validateDictionaries p = Done tt (after p ds (nonEmpty ds))
          /\ forall locale stem filePath _path,
               In (locale, VStr (stem +:+ ".dic")) dicts ->
               filePath = stem +:+ ".dic" \/ filePath = stem +:+ ".aff" ->
               normalizePath (VStr filePath) = Ok _path ->
               hasOwn _path entries = false ->
               In (addError (manifestDictionaryFileMissing _path "binary"))
                 ds).
Proof.
  intros Hget.
  pose proof (validateDictionaries_unfold p dicts Hget) as Hunfold.
  set (sds := structural p dicts) in *.
  destruct (forEach_validateDictionaryFiles_final dicts (map fst dicts)
              (after p sds (nonEmpty sds)) Hget) as (fds & Hfin & Hmissing).
  rewrite <- Hunfold, after_after, <- nonEmpty_app in Hfin.
  exists (sds ++ fds).
  assert (Hinvalid : forall d, In d (sds ++ fds) ->
            isValid (final (validateDictionaries p)) = Some false).
  { intros d Hd. rewrite Hfin. destruct (sds ++ fds); [destruct Hd|].
    reflexivity. }
  split; [exact Hfin|]. split; [|split; [|split; [|split]]].
  - apply Forall_app. split.
    + subst sds. unfold structural.
      destruct (truthy (getAddonId p)), dicts as [|? [|? ?]];
        repeat constructor.
    + apply List.Forall_forall. intros d Hd.
      rewrite List.Forall_forall in Hmissing.
      destruct (Hmissing d Hd) as [x ->]. reflexivity.
  - intros Hid.
    assert (Hin : In (addError MANIFEST_DICT_MISSING_ID) (sds ++ fds)).
    { apply in_or_app. left. subst sds. unfold structural. rewrite Hid.
      simpl. now left. }
    split; [exact Hin | exact (Hinvalid _ Hin)].
  - intros Hlen. destruct dicts; [|discriminate].
    assert (Hin : In (addError MANIFEST_EMPTY_DICTS) (sds ++ fds)).
    { apply in_or_app. left. subst sds. unfold structural.
      apply in_or_app. right. now left. }
    split; [exact Hin | exact (Hinvalid _ Hin)].
  - intros Hlen. destruct dicts as [|e1 [|e2 rest]]; simpl in Hlen; try lia.
    split.
    + apply (Hinvalid (addError MANIFEST_MULTIPLE_DICTS)).
      apply in_or_app. left. subst sds. unfold structural.
      apply in_or_app. right. now left.
    + intros Hne Hfile.
      exists (if truthy (getAddonId p) then []
              else [addError MANIFEST_DICT_MISSING_ID]), fds.
      split; [|split].
      * subst sds. unfold structural. now rewrite <- app_assoc.
      * destruct (truthy (getAddonId p)); simpl; [tauto|].
        intros [Heq|[]]. apply Hne. unfold addError in Heq. congruence.
      * intros Hin. rewrite List.Forall_forall in Hmissing.
        destruct (Hmissing _ Hin) as [x Hx]. apply (Hfile x).
        unfold addError in Hx. congruence.
  - intros i entries Hio Hfiles Hnodup Hpaths.
    destruct (forEach_validateDictionaryFiles_run dicts i entries
                (map fst dicts) (after p sds (nonEmpty sds)) Hget Hio Hfiles)
      as (fds' & Hrun & Hin).
    { intros locale Hl. apply in_map_iff in Hl as [[l v] [<- Hlv]].
      destruct (Hpaths l v Hlv) as (path & -> & Hrest).
      exists path. split; [now apply assoc_In | exact Hrest]. }
    rewrite <- Hunfold, after_after, <- nonEmpty_app in Hrun.
    assert (fds' = fds) as ->.
    { rewrite Hrun in Hfin. simpl in Hfin.
      apply (f_equal log) in Hfin. simpl in Hfin.
      now apply app_inv_head, app_inv_head in Hfin. }
    split; [exact Hrun|].
    intros locale stem filePath _path Hentry Hfile Hnorm Hown.
    apply in_or_app. right.
    apply (Hin locale (stem +:+ ".dic") (VStr filePath) _path).
    + apply in_map_iff. now exists (locale, VStr (stem +:+ ".dic")).
    + now apply assoc_In.
    + destruct Hfile as [->| ->]; [now left | right].
      apply replaceDicByAff_dic.
    + exact Hnorm.
    + exact Hown.
Qed.

End DictionaryProperties.

Section DictionaryExamples.

#[local] Existing Instance Sample.messages.
#[local] Existing Instance Sample.imports.

(** A manifest without identifier that declares two dictionaries, in a
    package that has [en.dic] only. *)
Lemma dictionaries_rules_witness :
  let p :=
    exampleParser
      (VObj [("dictionaries",
              VObj [("en", VStr "en.dic"); ("fr", VStr "fr.dic")])])
      (VObj [("en.dic", VObj [])]) in
  exists ds,
    validateDictionaries p = Done tt (after p ds (nonEmpty ds))
    /\ isValid (final (validateDictionaries p)) = Some false
    /\ In (addError MANIFEST_DICT_MISSING_ID) ds
    /\ (exists before rest,
          ds = before ++ addError MANIFEST_MULTIPLE_DICTS :: rest
          /\ ~ In (addError MANIFEST_MULTIPLE_DICTS) before
          /\ ~ In (addError MANIFEST_MULTIPLE_DICTS) rest)
    /\ In (addError (manifestDictionaryFileMissing "en.aff" "binary")) ds
    /\ In (addError (manifestDictionaryFileMissing "fr.dic" "binary")) ds.
Proof.
  intros p.
  destruct (dictionaries_rules p
              [("en", VStr "en.dic"); ("fr", VStr "fr.dic")] eq_refl)
    as (ds & _ & _ & Hid & _ & Hmany & Hfiles).
  destruct (Hfiles (mkIO (VObj [("en.dic", VObj [])]) (fun _ _ => Throw))
              [("en.dic", VObj [])] eq_refl eq_refl) as [Hrun Hmissing].
  { repeat constructor; simpl; intuition discriminate. }
  { intros locale v [Heq|[Heq|[]]]; injection Heq as <- <-;
      eexists; (split; [reflexivity|]); split; try discriminate;
      intros aff Haff; vm_compute in Haff; injection Haff as <-;
      discriminate. }
  exists ds. split; [exact Hrun|].
  destruct (Hid eq_refl) as [Hin Hinvalid].
  destruct Hmany as [_ Hone]; [simpl; lia|].
  split; [exact Hinvalid|]. split; [exact Hin|].
  split; [|split].
  - apply Hone; [discriminate|]. intros _path. vm_compute. discriminate.
  - apply (Hmissing "en" "en" "en.aff"); simpl; tauto || reflexivity.
  - apply (Hmissing "fr" "fr" "fr.dic"); simpl; tauto || reflexivity.
Defined.

End DictionaryExamples.

(** ** [strict_max_version] *)

Section StrictMaxVersionProperties.

Context `{Messages} `{Imports}.

(** C7 (as amended).  Let the manifest declare
    [applications.gecko.strict_max_version].  For a dictionary the rule of
    [_validate] reports the error [STRICT_MAX_VERSION] and [isValid]
    becomes [false]; for a language pack it reports nothing; for every
    other addon it reports the notice [STRICT_MAX_VERSION] and leaves
    [isValid] as it is. *)
Theorem strict_max_version_by_type p v :
  geckoProperty (parsedJSON p) "strict_max_version" = Ok v ->
  truthy v = true ->
  (isLanguagePack p = false -> isDictionary p = true ->
   validateStrictMaxVersion p =
   Done tt (after p [addError STRICT_MAX_VERSION] true))
  /\ (isLanguagePack p = true -> validateStrictMaxVersion p = Done tt p)
  /\ (isLanguagePack p = false -> isDictionary p = false ->
      validateStrictMaxVersion p =
      Done tt (after p [addNotice STRICT_MAX_VERSION] false)).
Proof.
  intros Hv Ht. unfold validateStrictMaxVersion.
  repeat split; intros Hl; try intros Hd; step; rewrite Hl; cbn [negb];
    step; rewrite ?Hv; cbv beta iota; rewrite ?Ht; cbn [truthy];
    rewrite ?Hd; step; reflexivity.
Qed.

End StrictMaxVersionProperties.

Section StrictMaxVersionExamples.

#[local] Existing Instance Sample.messages.
#[local] Existing Instance Sample.imports.

(** C7 as stated fails on a language pack: the constructor finds its type
    from [langpack_id], and the rule then reports nothing for its
    [strict_max_version]. *)
Lemma strict_max_version_counterexample :
  let parsedJSON :=
    VObj [("langpack_id", VStr "fr");
          ("applications",
           VObj [("gecko", VObj [("strict_max_version", VStr "100.0")])])] in
  let p :=
    mkParser parsedJSON (Some true) [] false None false true false false
      None false false [] in
  detectType parsedJSON = Ok (false, true, false, false)
  /\ geckoProperty parsedJSON "strict_max_version" = Ok (VStr "100.0")
  /\ validateStrictMaxVersion p = Done tt p.
Proof. repeat split. Qed.

(** A dictionary and an extension that declare [strict_max_version]. *)
Lemma strict_max_version_by_type_witness :
  let parsedJSON :=
    VObj [("applications",
           VObj [("gecko", VObj [("strict_max_version", VStr "100.0")])])] in
  let dictionary :=
    mkParser parsedJSON (Some true) [] false None false false true false
      None false false [] in
  let extension := exampleParser parsedJSON (VObj []) in
  validateStrictMaxVersion dictionary =
  Done tt (after dictionary [addError STRICT_MAX_VERSION] true)
  /\ validateStrictMaxVersion extension =
     Done tt (after extension [addNotice STRICT_MAX_VERSION] false).
Proof.
  intros parsedJSON dictionary extension. split.
  - apply (strict_max_version_by_type dictionary (VStr "100.0"));
      reflexivity.
  - apply (strict_max_version_by_type extension (VStr "100.0"));
      reflexivity.
Defined.

End StrictMaxVersionExamples.

(** ** Locales *)

Section LocaleProperties.

Context `{Messages} `{Imports}.

(** The first loop collects each locale directory once. *)
Lemma collectLocales_locales fileList acc :
  List.NoDup (fst acc) ->
  List.NoDup (fst (fold_left collectLocale fileList acc))
  /\ forall l,
       In l (fst (fold_left collectLocale fileList acc)) <->
       In l (fst acc)
       \/ exists file, In file fileList /\ localeDirRe file = Some l.
Proof.
  revert acc. induction fileList as [|file fileList IH]; intros acc Hnd.
  - simpl. split; [assumption|]. intros l. split; [tauto|].
    intros [Hin|(file & [] & _)]. assumption.
  - cbn [fold_left].
    assert (Hstep : List.NoDup (fst (collectLocale acc file))
                    /\ forall l, In l (fst (collectLocale acc file)) <->
                                 In l (fst acc) \/ localeDirRe file = Some l).
    { destruct acc as [locales w]. unfold collectLocale. cbn [fst] in *.
      destruct (localeDirRe file) as [l0|] eqn:Hdir; cbn [fst].
      - destruct (includes locales l0) eqn:Hinc; cbn [negb].
        + split; [assumption|]. intros l. split; [tauto|].
          intros [Hin|Heq]; [assumption|]. injection Heq as <-.
          now apply includes_In.
        + split.
          * apply NoDup_snoc; [assumption|].
            now apply includes_notIn.
          * intros l. rewrite in_app_iff. simpl. split.
            -- intros [Hin|[<-|[]]]; [now left | now right].
            -- intros [Hin|Heq]; [now left|]. injection Heq as <-.
               right. now left.
      - split; [assumption|]. intros l. split; [tauto|].
        intros [Hin|Heq]; [assumption | discriminate]. }
    destruct Hstep as [Hnd' Hin'].
    destruct (IH (collectLocale acc file) Hnd') as [Hnd'' Hin''].
    split; [assumption|]. intros l. rewrite Hin'', Hin'. split.
    + intros [[Hin|Heq]|(f & Hf & Hd)].
      * now left.
      * right. exists file. split; [now left | assumption].
      * right. exists f. split; [now right | assumption].
    + intros [Hin|(f & [<-|Hf] & Hd)].
      * left. now left.
      * left. now right.
      * right. now exists f.
Qed.

(** It collects the locale of each file that is a messages file. *)
Lemma collectLocales_withMessages fileList acc l :
  In l (snd (fold_left collectLocale fileList acc)) <->
  In l (snd acc)
  \/ exists file,
       In file fileList
       /\ localeDirRe file = Some l /\ localeFileRe file = true.
Proof.
  revert acc. induction fileList as [|file fileList IH]; intros acc.
  - simpl. split; [tauto|]. intros [Hin|(file & [] & _)]. assumption.
  - cbn [fold_left]. rewrite IH.
    assert (Hstep : In l (snd (collectLocale acc file)) <->
                    In l (snd acc)
                    \/ (localeDirRe file = Some l
                        /\ localeFileRe file = true)).
    { destruct acc as [locales w]. unfold collectLocale. cbn [snd].
      destruct (localeDirRe file) as [l0|]; cbn [snd].
      - destruct (localeFileRe file).
        + rewrite in_app_iff. simpl. split.
          * intros [Hin|[<-|[]]]; [now left | now right].
          * intros [Hin|[Heq _]]; [now left|]. injection Heq as <-.
            right. now left.
        + split; [tauto|]. intros [Hin|[_ Hf]]; [assumption|discriminate].
      - split; [tauto|]. intros [Hin|[Hd _]]; [assumption|discriminate]. }
    rewrite Hstep. split.
    + intros [[Hin|Hfile]|(f & Hf & Hd)].
      * now left.
      * right. exists file. split; [now left | assumption].
      * right. exists f. split; [now right | assumption].
    + intros [Hin|(f & [<-|Hf] & Hd)].
      * left. now left.
      * left. now right.
      * right. now exists f.
Qed.

Lemma forEach_collect (errors : list Message) p :
  forEach errors (fun error => collect (addError error)) p =
  Done tt (set_log (log p ++ map addError errors) p).
Proof.
  revert p. induction errors as [|e errors IH]; intros p.
  - simpl. step. destruct p. unfold set_log. simpl. now rewrite app_nil_r.
  - cbn [forEach]. step. rewrite IH. unfold set_log. simpl.
    now rewrite <- app_assoc.
Qed.

(** The rule on locales, with the two expressions as the code writes
    them.  Let the package list the files [fileList], and let [locales] be
    the directories [l] of the paths [_locales/l/...] of the list, and
    [localesWithMessagesJson] those that have a path that [localeFileRe]
    matches.
    - When [default_locale] is declared, the rule of [_validate] reports
      one error for each locale of [locales] that is not in
      [localesWithMessagesJson], naming the locale, and [isValid] becomes
      [false] when there is such a locale.
    - When [default_locale] is not declared and one locale has a messages
      file, it reports [NO_DEFAULT_LOCALE] once and [isValid] becomes
      [false].
    - With [_locales/fr/messages.json] and [_locales/de/] in the package
      and [default_locale] set to [fr], it reports one error, which names
      [de]. *)
Theorem locale_rules p i fileList default_locale :
  io p = Some i -> truthy (files i) = true ->
  keys (files i) = Ok fileList ->
  get (parsedJSON p) "default_locale" = Ok default_locale ->
  let locales := fst (collectLocales fileList) in
  let localesWithMessagesJson := snd (collectLocales fileList) in
  let lacking :=
    List.filter (fun l => negb (includes localesWithMessagesJson l))
      locales in
  List.NoDup locales
  /\ (forall l, In l locales <->
                exists file, In file fileList /\ localeDirRe file = Some l)
  /\ (forall l, In l localesWithMessagesJson <->
                exists file, In file fileList /\ localeDirRe file = Some l
                             /\ localeFileRe file = true)
  /\ (truthy default_locale = true ->
      validateLocales p =
      Done tt
        (after p
           (map (fun l =>
                   addError
                     (noMessagesFileInLocales
                        (path_join LOCALES_DIRECTORY l)))
              lacking)
           (nonEmpty lacking)))
  /\ (truthy default_locale = false ->
      localesWithMessagesJson <> [] ->
      validateLocales p = Done tt (after p [addError NO_DEFAULT_LOCALE] true))
  /\ (fileList = ["_locales/fr/messages.json"; "_locales/de/"] ->
      default_locale = VStr "fr" ->
      validateLocales p =
      Done tt
        (after p
           [addError
              (noMessagesFileInLocales (path_join LOCALES_DIRECTORY "de"))]
           true)).
Proof.
  intros Hio Htruthy Hkeys Hdl locales w lacking.
  destruct (collectLocales_locales fileList ([], [])) as [Hnd Hin];
    [constructor|].
  assert (Hrun :
    validateLocales p =
    if negb (truthy default_locale) then
      if nonEmpty w then Done tt (after p [addError NO_DEFAULT_LOCALE] true)
      else Done tt p
    else
      Done tt
        (after p
           (map (fun l =>
                   addError
                     (noMessagesFileInLocales
                        (path_join LOCALES_DIRECTORY l)))
              lacking)
           (nonEmpty lacking))).
  { unfold validateLocales. step. unfold ioFilesOpt, ioFiles.
    rewrite Hio, Htruthy. cbv beta iota. rewrite Hio. cbv beta iota.
    rewrite Hkeys. cbv beta iota.
    subst lacking locales w.
    destruct (collectLocales fileList) as [ls ws]. cbn [fst snd].
    step. cbn [parsedJSON]. rewrite Hdl. cbv beta iota.
    destruct (truthy default_locale); cbn [negb].
    - unfold localeErrors. rewrite length_map.
      destruct (List.filter _ ls) as [|l0 rest] eqn:Hf.
      + cbn [length Nat.ltb Nat.leb map nonEmpty]. step.
        now rewrite after_nil.
      + cbn [length Nat.ltb Nat.leb nonEmpty]. step.
        rewrite forEach_collect. cbv beta iota. rewrite !map_map.
        reflexivity.
    - destruct ws; cbn [length Nat.eqb negb nonEmpty]; step; reflexivity. }
  split; [exact Hnd|]. split.
  { intros l. unfold locales, collectLocales. rewrite Hin. simpl. tauto. }
  split.
  { intros l. unfold w, collectLocales. rewrite collectLocales_withMessages.
    simpl. tauto. }
  split; [|split].
  - intros Ht. rewrite Hrun, Ht. reflexivity.
  - intros Ht Hw. rewrite Hrun, Ht. cbn [negb].
    destruct w; [congruence | reflexivity].
  - intros -> ->. rewrite Hrun. reflexivity.
Qed.

End LocaleProperties.

Section LocaleExamples.

#[local] Existing Instance Sample.messages.
#[local] Existing Instance Sample.imports.

(** A package with a messages file for [fr] and none for [de], with
    [default_locale] set to [fr] and with no [default_locale]. *)
Lemma locale_rules_witness :
  let fs :=
    VObj [("_locales/fr/messages.json", VObj []); ("_locales/de/", VObj [])]
  in
  let declared := exampleParser (VObj [("default_locale", VStr "fr")]) fs in
  let undeclared := exampleParser (VObj []) fs in
  validateLocales declared =
  Done tt
    (after declared [addError (noMessagesFileInLocales "_locales/de")] true)
  /\ validateLocales undeclared =
     Done tt (after undeclared [addError NO_DEFAULT_LOCALE] true).
Proof.
  intros fs declared undeclared. split.
  - destruct
      (locale_rules declared (mkIO fs (fun _ _ => Throw))
         ["_locales/fr/messages.json"; "_locales/de/"] (VStr "fr")
         eq_refl eq_refl eq_refl eq_refl)
      as (_ & _ & _ & Hdeclared & _ & _).
    exact (Hdeclared eq_refl).
  - destruct
      (locale_rules undeclared (mkIO fs (fun _ _ => Throw))
         ["_locales/fr/messages.json"; "_locales/de/"] VUndefined
         eq_refl eq_refl eq_refl eq_refl)
      as (_ & _ & _ & _ & Hundeclared & _).
    apply Hundeclared; [reflexivity|]. vm_compute. discriminate.
Defined.

(** C4.  The code on a locale whose directory holds no messages file
    while a path below it ends like one.  The package lists
    [_locales/fr/messages.json] and [_locales/de/sub/messages.json], and
    [default_locale] is [fr].  [localeFileRe] matches the second path, as
    its [.*?] goes over the [/] of [de/sub]; it matches
    [_locales/de/messagesXjson] too, as the [.] of [messages.json] is not
    escaped.  So [de] counts as a locale with a messages file, and the
    rule reports nothing in both packages: no error names [de]. *)
Lemma validateLocales_messages_file_below_locale :
  let manifest := VObj [("default_locale", VStr "fr")] in
  let below :=
    exampleParser manifest
      (VObj [("_locales/fr/messages.json", VObj []);
             ("_locales/de/sub/messages.json", VObj [])]) in
  let other :=
    exampleParser manifest
      (VObj [("_locales/fr/messages.json", VObj []);
             ("_locales/de/messagesXjson", VObj [])]) in
  localeDirRe "_locales/de/sub/messages.json" = Some "de"
  /\ localeFileRe "_locales/de/sub/messages.json" = true
  /\ localeFileRe "_locales/de/messagesXjson" = true
  /\ collectLocales
       ["_locales/fr/messages.json"; "_locales/de/sub/messages.json"]
     = (["fr"; "de"], ["fr"; "de"])
  /\ validateLocales below = Done tt below
  /\ validateLocales other = Done tt other.
Proof. intros manifest below other. repeat split; reflexivity. Qed.

End LocaleExamples.

(** ** Icons: the checks of [validateIcon] *)

Section IconProperties.

Context `{Messages} `{Imports}.

Lemma notSvg_true mime :
  notSvg mime = true <-> mime <> MVal "image/svg+xml".
Proof.
  destruct mime as [| |m]; simpl; try (split; [discriminate | reflexivity]).
  destruct (String.eqb_spec m "image/svg+xml") as [->|Hne]; simpl.
  - split; [discriminate | intros Hm; now elim Hm].
  - split; [intros _ Heq; injection Heq as ->; now elim Hne | reflexivity].
Qed.

Lemma notSvg_false mime :
  notSvg mime = false <-> mime = MVal "image/svg+xml".
Proof.
  destruct mime as [| |m]; simpl; try (split; discriminate).
  destruct (String.eqb_spec m "image/svg+xml") as [->|Hne]; simpl.
  - split; reflexivity.
  - split; [discriminate | intros Heq; injection Heq as ->; now elim Hne].
Qed.

(** C5.  Let the icon at [iconPath] decode to [info].
    - When its width differs from its height and its mime is not
      [image/svg+xml], [validateIcon] reports the error [iconIsNotSquare]
      and [isValid] becomes [false].
    - When its width differs from its height and its mime is
      [image/svg+xml], [validateIcon] reports the warning
      [iconIsNotSquare] only.
    - When it is square, its mime is not [image/svg+xml], a size is
      declared and the width is not the declared size, [validateIcon]
      reports the warning [iconSizeInvalid] only. *)
Theorem validateIcon_checks p iconPath expectedSize info :
  getImageMetadata (io p) iconPath = Ok info ->
  (width info <> height info -> mime info <> MVal "image/svg+xml" ->
   validateIcon iconPath expectedSize p =
   Done tt (after p [addError (iconIsNotSquare iconPath)] true))
  /\ (width info <> height info -> mime info = MVal "image/svg+xml" ->
      validateIcon iconPath expectedSize p =
      Done tt (after p [addWarning (iconIsNotSquare iconPath)] false))
  /\ (width info = height info -> mime info <> MVal "image/svg+xml" ->
      expectedSize <> VNull ->
      numberNe (Some (width info)) (parseInt expectedSize) = true ->
      validateIcon iconPath expectedSize p =
      Done tt
        (after p
           [addWarning
              (iconSizeInvalid iconPath (parseInt expectedSize)
                 (Some (width info)))]
           false)).
Proof.
  intros Hinfo. unfold validateIcon. step. rewrite Hinfo.
  split; [|split].
  - intros Hwh Hmime. apply Z.eqb_neq in Hwh. apply notSvg_true in Hmime.
    rewrite Hwh, Hmime. reflexivity.
  - intros Hwh Hmime. apply Z.eqb_neq in Hwh. apply notSvg_false in Hmime.
    rewrite Hwh, Hmime. reflexivity.
  - intros Hwh Hmime Hsize Hne. apply Z.eqb_eq in Hwh.
    apply notSvg_true in Hmime. rewrite Hwh, Hmime, Hne.
    destruct expectedSize; try reflexivity. now elim Hsize.
Qed.

End IconProperties.

Section IconExamples.

#[local] Existing Instance Sample.messages.
#[local] Existing Instance Sample.imports.

(** An icon of 32 by 16, as a [png] and as an [svg], and a [png] of 32 by
    32 declared with the size 16. *)
Lemma validateIcon_checks_witness :
  let p :=
    iconParser (VObj [])
      [("wide.png", [Byte.x20; Byte.x10; Byte.x00]);
       ("wide.svg", [Byte.x20; Byte.x10; Byte.x01]);
       ("square.png", [Byte.x20; Byte.x20; Byte.x00])] in
  validateIcon "wide.png" (VStr "32") p =
  Done tt (after p [addError (iconIsNotSquare "wide.png")] true)
  /\ validateIcon "wide.svg" (VStr "32") p =
     Done tt (after p [addWarning (iconIsNotSquare "wide.svg")] false)
  /\ validateIcon "square.png" (VStr "16") p =
     Done tt
       (after p
          [addWarning (iconSizeInvalid "square.png" (Some 16%Z) (Some 32%Z))]
          false).
Proof.
  intros p. split; [|split].
  - apply (validateIcon_checks p "wide.png" (VStr "32")
             (mkImageInfo 32 16 (MVal "image/png")));
      [reflexivity | discriminate | discriminate].
  - apply (validateIcon_checks p "wide.svg" (VStr "32")
             (mkImageInfo 32 16 (MVal "image/svg+xml")));
      [reflexivity | discriminate | reflexivity].
  - apply (validateIcon_checks p "square.png" (VStr "16")
             (mkImageInfo 32 32 (MVal "image/png")));
      [reflexivity | reflexivity | discriminate | discriminate
      | reflexivity].
Defined.

End IconExamples.

(** ** Restricted permissions *)



Section RestrictedPermissionProperties.

Context `{Messages} `{Imports}.




End RestrictedPermissionProperties.

Section RestrictedPermissionExamples.

#[local] Existing Instance Sample.messages.
#[local] Existing Instance Sample.imports.



End RestrictedPermissionExamples.

(** ** Metadata *)

Section MetadataProperties.

Context `{Messages} `{Imports}.

Lemma get_property props k :
  get (VObj props) k = Ok (property k props).
Proof.
  unfold get, property. cbn [ownProps].
  destruct (assoc k props); [reflexivity|].
  now destruct (String.eqb k "length").
Qed.





Lemma get_truthy v k :
  truthy v = true -> exists x, get v k = Ok x.
Proof.
  intros Ht. destruct v; try discriminate; unfold get;
    destruct (assoc k _); eauto; destruct (String.eqb k "length"); eauto.
Qed.




End MetadataProperties.

Section MetadataExamples.

#[local] Existing Instance Sample.messages.
#[local] Existing Instance Sample.imports.



End MetadataExamples.

(** ** Icons: the loop of [validateIcons] *)

Section IconsProperties.

Context `{Messages} `{Imports}.






End IconsProperties.

Section IconsExamples.

#[local] Existing Instance Sample.messages.
#[local] Existing Instance Sample.imports.


(** An icon that is not in the package and that [icons], the default icon
    of [browser_action] and its [theme_icons] refer to: one error. *)
Example validateIcons_missing_example :
  let p :=
    iconParser
      (VObj [("icons", VObj [("16", VStr "gone.png")]);
             ("browser_action",
              VObj [("default_icon", VStr "gone.png");
                    ("theme_icons",
                     VArr [VObj [("dark", VStr "gone.png");
                                 ("light", VStr "gone.png");
                                 ("size", VNum 16)]])])])
      [] in
  validateIcons p =
  Done tt (after p [addError (manifestIconMissing "gone.png")] true).
Proof. reflexivity. Qed.

End IconsExamples.

(** ** The constructor when parsing fails *)

Section ConstructorProperties.

Context `{Messages} `{Imports}.

Lemma parsingFailed_spec parsedJSON isValid :
  parsingFailed parsedJSON isValid = true <->
  parsedJSON = VUndefined \/ isValid = Some false.
Proof.
  unfold parsingFailed. split.
  - destruct parsedJSON, isValid as [[|]|]; intros Hf;
      try discriminate; auto.
  - intros [-> | ->]; [reflexivity|]. now destruct parsedJSON.
Qed.

(** C10.  When [parse] leaves [parsedJSON] undefined ([json]) or
    [isValid] false ([valid]), the constructor puts the default manifest
    in [parsedJSON] and does nothing else: it runs no rule of [_validate],
    and returns with the collector as [parse] left it, with
    [isValid] as [parse] left it, and without any use of its options.
    [getMetadata] then gives [null] for [id], [manifestVersion], [name]
    and [version]. *)
Theorem constructor_when_parsing_fails jsonString options json valid
    reported :
  parse jsonString = (json, valid, reported) ->
  json = VUndefined \/ valid = Some false ->
  let p := parsed defaultManifest valid reported in
  constructor jsonString options = Done tt p
  /\ parsedJSON p
     = VObj [("manifest_version", VNull); ("name", VNull);
             ("type", PACKAGE_EXTENSION); ("version", VNull)]
  /\ log p = reported
  /\ exists md,
       getMetadata p = Ok md
       /\ id md = VNull /\ manifestVersion md = VNull
       /\ name md = VNull /\ version md = VNull.
Proof.
  intros Hparse Hfailed p. apply parsingFailed_spec in Hfailed.
  split.
  - unfold constructor. rewrite Hparse, Hfailed. reflexivity.
  - split; [reflexivity|]. split; [reflexivity|].
    eexists. split; [reflexivity|]. repeat split.
Qed.

End ConstructorProperties.

Section ConstructorExamples.

#[local] Existing Instance Sample.messages.
#[local] Existing Instance Sample.imports.

(** A string that is not JSON. *)
Lemma constructor_when_parsing_fails_witness :
  let options := mkOptions false None None false [] in
  let p :=
    parsed defaultManifest (Some false)
      [addError (Sample.plain "JSON_INVALID")] in
  constructor "{" options = Done tt p
  /\ exists md,
       getMetadata p = Ok md
       /\ id md = VNull /\ manifestVersion md = VNull
       /\ name md = VNull /\ version md = VNull.
Proof.
  intros options p.
  destruct (@constructor_when_parsing_fails Sample.messages Sample.imports
              "{" options VUndefined (Some false)
              [addError (Sample.plain "JSON_INVALID")] eq_refl
              (or_introl eq_refl))
    as (Hrun & _ & _ & Hmd).
  split; [exact Hrun | exact Hmd].
Defined.

End ConstructorExamples.

(** ** What the rules may do *)

Lemma assoc_setProp k v props : assoc k (setProp k v props) = Some v.
Proof.
  induction props as [|[k' v'] props IH]; simpl.
  - now rewrite String.eqb_refl.
  - destruct (String.eqb k k') eqn:Hk; simpl; rewrite Hk; [reflexivity|].
    exact IH.
Qed.

Lemma assoc_setProp_other k k' v props :
  k' <> k -> assoc k' (setProp k v props) = assoc k' props.
Proof.
  intros Hne. induction props as [|[k0 v0] props IH]; simpl.
  - now apply String.eqb_neq in Hne as ->.
  - destruct (String.eqb_spec k k0) as [->|Hk]; simpl.
    + now apply String.eqb_neq in Hne as ->.
    + now rewrite IH.
Qed.

Lemma property_setProp k v props : property k (setProp k v props) = v.
Proof. unfold property. now rewrite assoc_setProp. Qed.

Lemma property_setProp_other k k' v props :
  k' <> k -> property k' (setProp k v props) = property k' props.
Proof. intros Hne. unfold property. now rewrite assoc_setProp_other. Qed.

Lemma get_setProp k v props : get (VObj (setProp k v props)) k = Ok v.
Proof. unfold get. cbn [ownProps]. now rewrite assoc_setProp. Qed.

Lemma get_setProp_other k k' v props :
  k' <> k -> get (VObj (setProp k v props)) k' = get (VObj props) k'.
Proof.
  intros Hne. unfold get. cbn [ownProps].
  now rewrite assoc_setProp_other.
Qed.

Lemma within_refl sev inv keys p : within sev inv keys p p.
Proof.
  repeat split; [exists []; now rewrite app_nil_r | now left].
Qed.

Lemma within_trans sev inv keys p1 p2 p3 :
  within sev inv keys p1 p2 -> within sev inv keys p2 p3 ->
  within sev inv keys p1 p3.
Proof.
  intros ([ds1 [Hl1 Hs1]] & Hv1 & [Hm1 Hk1] & Hset1)
         ([ds2 [Hl2 Hs2]] & Hv2 & [Hm2 Hk2] & Hset2).
  repeat split.
  - exists (ds1 ++ ds2). rewrite Hl2, Hl1, <- app_assoc, List.forallb_app.
    split; [reflexivity|]. apply andb_true_intro. now split.
  - destruct Hv2 as [-> | H2]; [exact Hv1 | now right].
  - intros Hnil. rewrite Hm2, Hm1; auto.
  - intros k Hk. rewrite Hk2, Hk1; auto.
  - congruence.
Qed.

Lemma within_weaken (sev sev' : Severity -> bool) (inv inv' : bool)
    (keys keys' : list string) p p' :
  (forall s, sev s = true -> sev' s = true) ->
  (inv = true -> inv' = true) -> incl keys keys' ->
  within sev inv keys p p' -> within sev' inv' keys' p p'.
Proof.
  intros Hsev Hinv Hkeys ([ds [Hl Hs]] & Hv & [Hm Hk] & Hset). repeat split.
  - exists ds. split; [exact Hl|]. rewrite forallb_forall in *. auto.
  - destruct Hv as [Hv | [Hi Hv]]; [now left | right; auto].
  - intros ->. apply Hm. destruct keys as [|k keys]; [reflexivity|].
    destruct (Hkeys k). now left.
  - intros k Hnot. apply Hk. intros Hin. apply Hnot, Hkeys, Hin.
  - exact Hset.
Qed.

Section Bounds.

Context (sev : Severity -> bool) (inv : bool) (keys : list string).

Lemma bounded_ret {A} (a : A) : bounded sev inv keys (mret a).
Proof. intros p. apply within_refl. Qed.

Lemma bounded_lift {A} (r : Res A) : bounded sev inv keys (lift r).
Proof. intros p. unfold lift. destruct r; apply within_refl. Qed.

Lemma bounded_this : bounded sev inv keys this.
Proof. intros p. apply within_refl. Qed.

Lemma bounded_manifest k : bounded sev inv keys (manifest k).
Proof. intros p. unfold manifest. apply bounded_lift. Qed.

Lemma bounded_ioFiles : bounded sev inv keys ioFiles.
Proof. intros p. unfold ioFiles. destruct (io p); apply within_refl. Qed.

Lemma bounded_collect d :
  sev (fst d) = true -> bounded sev inv keys (collect d).
Proof.
  intros Hd p. repeat split; [|now left].
  exists [d]. simpl. now rewrite Hd.
Qed.

Lemma bounded_invalidate : inv = true -> bounded sev inv keys invalidate.
Proof.
  intros Hi p. repeat split; [|now right].
  exists []. simpl. now rewrite app_nil_r.
Qed.

Lemma bounded_assign k v : In k keys -> bounded sev inv keys (assign k v).
Proof.
  intros Hin p. unfold assign.
  destruct (parsedJSON p) as [| | | | | |props] eqn:Hp;
    try apply within_refl.
  repeat split; [|now left | |].
  - exists []. simpl. now rewrite app_nil_r.
  - intros ->. destruct Hin.
  - intros k' Hk'. cbn [final parsedJSON set_parsedJSON]. rewrite Hp.
    apply get_setProp_other. intros ->. now apply Hk'.
Qed.

Lemma bounded_bind {A B} (m : M A) (k : A -> M B) :
  bounded sev inv keys m -> (forall a, bounded sev inv keys (k a)) ->
  bounded sev inv keys (mbind k m).
Proof.
  intros Hm Hk p. unfold mbind, M_bind. specialize (Hm p).
  destruct (m p) as [a p1|p1]; simpl in *; [|exact Hm].
  eapply within_trans; [exact Hm | apply Hk].
Qed.

Lemma bounded_when b (m : M unit) :
  bounded sev inv keys m -> bounded sev inv keys (when b m).
Proof. intros Hm. unfold when. destruct b; [exact Hm | apply bounded_ret]. Qed.

Lemma bounded_forEach {A} (xs : list A) (f : A -> M unit) :
  (forall x, bounded sev inv keys (f x)) -> bounded sev inv keys (forEach xs f).
Proof.
  intros Hf. induction xs as [|x xs IH]; simpl; [apply bounded_ret|].
  apply bounded_bind; [apply Hf | intros _; exact IH].
Qed.

Lemma bounded_foldM {A B} (f : B -> A -> M B) (xs : list A) (b : B) :
  (forall b x, bounded sev inv keys (f b x)) ->
  bounded sev inv keys (foldM f xs b).
Proof.
  intros Hf. revert b. induction xs as [|x xs IH]; intros b; simpl;
    [apply bounded_ret|].
  apply bounded_bind; [apply Hf | intros b'; apply IH].
Qed.

End Bounds.

Ltac bounds :=
  repeat first
    [ apply bounded_ret
    | apply bounded_lift
    | apply bounded_this
    | apply bounded_manifest
    | apply bounded_ioFiles
    | apply bounded_collect; reflexivity
    | apply bounded_invalidate; reflexivity
    | apply bounded_assign; simpl; tauto
    | apply bounded_when
    | apply bounded_forEach; intros
    | apply bounded_foldM; intros
    | apply bounded_bind; [|intros]
    | match goal with
      | |- bounded _ _ _ (if ?b then _ else _) => destruct b
      | |- bounded _ _ _ (match ?x with _ => _ end) => destruct x
      end ].

Lemma bounded_weaken {A} (sev sev' : Severity -> bool) (inv inv' : bool)
    (keys keys' : list string) (m : M A) :
  (forall s, sev s = true -> sev' s = true) ->
  (inv = true -> inv' = true) -> incl keys keys' ->
  bounded sev inv keys m -> bounded sev' inv' keys' m.
Proof. intros Hsev Hinv Hkeys Hm p. eapply within_weaken; eauto. Qed.

(** A compatibility tree is well founded through the lists of its
    entries. *)
Lemma CompatInfo_induction (P : CompatInfo -> Prop) :
  (forall entries,
     List.Forall (fun e => match e with
                           | Statement _ => True
                           | Subkey _ subkeyInfo => P subkeyInfo
                           end) entries ->
     P (CompatTree entries)) ->
  forall compatInfo, P compatInfo.
Proof.
  intros Hstep. fix IH 1. intros [entries]. apply Hstep.
  induction entries as [|e rest IHrest]; constructor; [|exact IHrest].
  destruct e; [exact I | apply IH].
Qed.

Section RuleBounds.

Context `{Messages} `{Imports}.

Lemma validateCspPolicyString_bounded policy name :
  bounded onlyWarnings false [] (validateCspPolicyString policy name).
Proof. unfold validateCspPolicyString. bounds. Qed.

Lemma validateCspPolicy_bounded policy :
  bounded onlyWarnings false [] (validateCspPolicy policy).
Proof.
  unfold validateCspPolicy.
  destruct policy; bounds; apply validateCspPolicyString_bounded.
Qed.

Lemma checkKeySupport_bounded support minVersion key isPermission :
  bounded noErrors false []
    (checkKeySupport support minVersion key isPermission).
Proof. unfold checkKeySupport, strictMinVersion. bounds. Qed.

Lemma checkCompatInfo_bounded compatInfo :
  forall minVersion key manifestKeyValue,
    bounded noErrors false []
      (checkCompatInfo compatInfo minVersion key manifestKeyValue).
Proof.
  induction compatInfo as [entries IH] using CompatInfo_induction.
  intros minVersion key manifestKeyValue. simpl.
  induction entries as [|e rest IHrest]; [apply bounded_ret|].
  apply List.Forall_cons_iff in IH as [He Hrest].
  destruct e as [c|subkey [sub]].
  - bounds. now apply IHrest.
  - bounds; first [apply He | now apply IHrest].
Qed.

Lemma validateCompat_bounded : bounded noErrors false [] validateCompat.
Proof.
  unfold validateCompat. bounds. apply checkCompatInfo_bounded.
Qed.

End RuleBounds.

Lemma within_after sev p p' :
  within sev false [] p p' ->
  exists ds,
    p' = after p ds false /\ forallb (fun d => sev (fst d)) ds = true.
Proof.
  intros ([ds [Hl Hs]] & Hv & Hm & Hset). exists ds. split; [|exact Hs].
  destruct Hv as [Hv | [Hf _]]; [|discriminate].
  destruct Hm as [Hm _]. specialize (Hm eq_refl).
  destruct p, p'. unfold settings, after, set_isValid, set_log in *.
  simpl in *. congruence.
Qed.

Section ValidateBounds.

Context `{Messages} `{Imports}.

Lemma validateFileExistsInPackage_bounded filePath type f :
  bounded anySeverity true [] (validateFileExistsInPackage filePath type f).
Proof. unfold validateFileExistsInPackage. bounds. Qed.

Lemma reportSchemaError_bounded error :
  bounded anySeverity true [] (reportSchemaError error).
Proof. unfold reportSchemaError. bounds. Qed.

Lemma validateApplications_bounded :
  bounded anySeverity true [] validateApplications.
Proof. unfold validateApplications. bounds. Qed.

Lemma mergeBrowserSpecificSettings_bounded :
  bounded anySeverity true assignedKeys mergeBrowserSpecificSettings.
Proof. unfold mergeBrowserSpecificSettings. bounds. Qed.

Lemma validateContentSecurityPolicy_bounded :
  bounded anySeverity true [] validateContentSecurityPolicy.
Proof.
  unfold validateContentSecurityPolicy. apply bounded_bind; [bounds|].
  intros policy.
  assert (Hb : bounded anySeverity true [] (validateCspPolicy policy)).
  { eapply bounded_weaken; [| | | apply validateCspPolicy_bounded];
      [reflexivity | discriminate | apply incl_refl]. }
  destruct policy; first [exact Hb | apply bounded_ret].
Qed.

Lemma validateUpdateUrlKey_bounded :
  bounded anySeverity true [] validateUpdateUrlKey.
Proof. unfold validateUpdateUrlKey. bounds. Qed.

Lemma validateGrantedHostPermissions_bounded :
  bounded anySeverity true [] validateGrantedHostPermissions.
Proof. unfold validateGrantedHostPermissions. bounds. Qed.

Lemma validateBackground_bounded :
  bounded anySeverity true [] validateBackground.
Proof. unfold validateBackground. bounds. Qed.

Lemma validateContentScriptMatchPattern_bounded matchPattern :
  bounded anySeverity true []
    (validateContentScriptMatchPattern matchPattern).
Proof. unfold validateContentScriptMatchPattern. bounds. Qed.

Lemma validateContentScripts_bounded :
  bounded anySeverity true [] validateContentScripts.
Proof.
  unfold validateContentScripts, forEachValue. bounds;
    apply validateContentScriptMatchPattern_bounded.
Qed.

Lemma validateDictionaries_bounded :
  bounded anySeverity true [] validateDictionaries.
Proof. unfold validateDictionaries, validateDictionaryFiles. bounds. Qed.

Lemma validateUpdateUrl_bounded :
  bounded anySeverity true [] validateUpdateUrl.
Proof. unfold validateUpdateUrl. bounds. Qed.

Lemma validateStrictMaxVersion_bounded :
  bounded anySeverity true [] validateStrictMaxVersion.
Proof. unfold validateStrictMaxVersion. bounds. Qed.

Lemma validateVersionString_bounded :
  bounded anySeverity true [] validateVersionString.
Proof. unfold validateVersionString. bounds. Qed.

Lemma validateDefaultLocale_bounded :
  bounded anySeverity true [] validateDefaultLocale.
Proof. unfold validateDefaultLocale. bounds. Qed.

Lemma validateLocales_bounded :
  bounded anySeverity true [] validateLocales.
Proof. unfold validateLocales. bounds. Qed.

Lemma promoteDeveloper_bounded :
  bounded anySeverity true assignedKeys promoteDeveloper.
Proof. unfold promoteDeveloper. bounds. Qed.

Lemma checkRestrictedUrls_bounded url restricted :
  bounded anySeverity true [] (checkRestrictedUrls url restricted).
Proof.
  induction restricted as [|restrictedUrl rest IH]; simpl; bounds. exact IH.
Qed.

Lemma validateHomePage_bounded :
  bounded anySeverity true [] validateHomePage.
Proof.
  unfold validateHomePage, validateHomePageURL. bounds.
  apply checkRestrictedUrls_bounded.
Qed.

Lemma validateRestrictedPermissions_bounded :
  bounded anySeverity true [] validateRestrictedPermissions.
Proof. unfold validateRestrictedPermissions. bounds. Qed.

Lemma validateExtensionID_bounded :
  bounded anySeverity true [] validateExtensionID.
Proof. unfold validateExtensionID. bounds. Qed.

Lemma validateHiddenAddon_bounded :
  bounded anySeverity true [] validateHiddenAddon.
Proof. unfold validateHiddenAddon. bounds. Qed.

End ValidateBounds.

Section ValidateProperties.

Context `{Messages} `{Imports}.

Lemma validateSchema_within p :
  within anySeverity true []
    (set_isValid
       (Some (fst (runValidator (selectValidator p) (parsedJSON p)
                     (schemaValidatorOptions p)))) p)
    (final (validateSchema p)).
Proof.
  unfold validateSchema. step.
  destruct (runValidator (selectValidator p) (parsedJSON p)
              (schemaValidatorOptions p)) as [valid errors].
  cbn [fst]. step. destruct valid; cbn [negb]; [apply within_refl|].
  apply bounded_forEach. intros error. apply reportSchemaError_bounded.
Qed.

Lemma rules_bounded :
  bounded anySeverity true assignedKeys
    (validateApplications;; mergeBrowserSpecificSettings;;
     validateContentSecurityPolicy;; validateUpdateUrlKey;;
     validateGrantedHostPermissions;; validateBackground;;
     validateContentScripts;; validateDictionaries;; validateUpdateUrl;;
     validateStrictMaxVersion;; validateCompat;; validateVersionString;;
     validateDefaultLocale;; validateLocales;; promoteDeveloper;;
     validateHomePage;; validateRestrictedPermissions;;
     validateExtensionID;; validateHiddenAddon).
Proof.
  assert (Hweak : forall (sev : Severity -> bool) inv (m : M unit),
            bounded sev inv [] m -> bounded anySeverity true assignedKeys m).
  { intros sev inv m Hm. eapply bounded_weaken; [| | |exact Hm];
      [reflexivity | reflexivity | intros k []]. }
  apply bounded_bind;
    [apply (Hweak _ _ _ validateApplications_bounded) | intros ?].
  apply bounded_bind; [apply mergeBrowserSpecificSettings_bounded | intros ?].
  apply bounded_bind;
    [apply (Hweak _ _ _ validateContentSecurityPolicy_bounded) | intros ?].
  apply bounded_bind;
    [apply (Hweak _ _ _ validateUpdateUrlKey_bounded) | intros ?].
  apply bounded_bind;
    [apply (Hweak _ _ _ validateGrantedHostPermissions_bounded) | intros ?].
  apply bounded_bind;
    [apply (Hweak _ _ _ validateBackground_bounded) | intros ?].
  apply bounded_bind;
    [apply (Hweak _ _ _ validateContentScripts_bounded) | intros ?].
  apply bounded_bind;
    [apply (Hweak _ _ _ validateDictionaries_bounded) | intros ?].
  apply bounded_bind;
    [apply (Hweak _ _ _ validateUpdateUrl_bounded) | intros ?].
  apply bounded_bind;
    [apply (Hweak _ _ _ validateStrictMaxVersion_bounded) | intros ?].
  apply bounded_bind;
    [apply (Hweak _ _ _ validateCompat_bounded) | intros ?].
  apply bounded_bind;
    [apply (Hweak _ _ _ validateVersionString_bounded) | intros ?].
  apply bounded_bind;
    [apply (Hweak _ _ _ validateDefaultLocale_bounded) | intros ?].
  apply bounded_bind;
    [apply (Hweak _ _ _ validateLocales_bounded) | intros ?].
  apply bounded_bind; [apply promoteDeveloper_bounded | intros ?].
  apply bounded_bind;
    [apply (Hweak _ _ _ validateHomePage_bounded) | intros ?].
  apply bounded_bind;
    [apply (Hweak _ _ _ validateRestrictedPermissions_bounded) | intros ?].
  apply bounded_bind;
    [apply (Hweak _ _ _ validateExtensionID_bounded) | intros ?].
  apply (Hweak _ _ _ validateHiddenAddon_bounded).
Qed.

(** What [_validate] does to [this] as a whole: [isValid] ends as the
    answer of the schema validator or as [false], the collector keeps
    what it held, and the settings stay. *)
Lemma _validate_within p :
  within anySeverity true assignedKeys
    (set_isValid
       (Some (fst (runValidator (selectValidator p) (parsedJSON p)
                     (schemaValidatorOptions p)))) p)
    (final (_validate p)).
Proof.
  unfold _validate. unfold mbind at 1. unfold M_bind at 1.
  pose proof (validateSchema_within p) as Hschema.
  destruct (validateSchema p) as [[] p1|p1]; simpl in Hschema |- *.
  - eapply within_trans; [|apply rules_bounded].
    eapply within_weaken; [| | |exact Hschema]; auto. intros k [].
  - eapply within_weaken; [| | |exact Hschema]; auto. intros k [].
Qed.

End ValidateProperties.

(** ** The whole of [_validate] *)

Section ValidateTheorems.

Context `{Messages} `{Imports}.

(** X1.  A manifest that the schema validator rejects is invalid when
    [_validate] is over, whatever the messages of the validator are turned
    into (errors, warnings or nothing) and whatever the other rules find,
    also when a rule raises. *)
Theorem schema_rejection_is_final p errors :
  runValidator (selectValidator p) (parsedJSON p) (schemaValidatorOptions p)
  = (false, errors) ->
  isValid (final (_validate p)) = Some false.
Proof.
  intros Hrun. pose proof (_validate_within p) as (_ & Hv & _).
  rewrite Hrun in Hv. simpl in Hv. destruct Hv as [Hv | [_ Hv]]; exact Hv.
Qed.

(** X2.  The kind of the add-on, as the constructor finds it and as it
    is when the validation is over: a theme when the manifest has the key
    [theme]; else a language pack when it has [langpack_id]; else a
    dictionary when it has [dictionaries]; else a site permission add-on
    when it has [site_permissions].  So at most one of the four flags is
    set, and the validation changes none of them, nor the options that the
    constructor was given. *)
Theorem constructor_addon_kind jsonString options props valid reported :
  parse jsonString = (VObj props, valid, reported) ->
  valid <> Some false ->
  let p' := final (constructor jsonString options) in
  let theme := hasOwn "theme" props in
  let langpack_id := hasOwn "langpack_id" props in
  let dictionaries := hasOwn "dictionaries" props in
  let site_permissions := hasOwn "site_permissions" props in
  isStaticTheme p' = theme
  /\ isLanguagePack p' = negb theme && langpack_id
  /\ isDictionary p' = negb theme && negb langpack_id && dictionaries
  /\ isSitePermission p'
     = negb theme && negb langpack_id && negb dictionaries
       && site_permissions
  /\ (Nat.b2n (isStaticTheme p') + Nat.b2n (isLanguagePack p')
      + Nat.b2n (isDictionary p') + Nat.b2n (isSitePermission p') <= 1)%nat
  /\ selfHosted p' = opt_selfHosted options
  /\ schemaValidatorOptions p' = opt_schemaValidatorOptions options
  /\ io p' = opt_io options
  /\ isAlreadySigned p' = opt_isAlreadySigned options
  /\ isPrivilegedAddon p'
     = match opt_schemaValidatorOptions options with
       | Some o => privileged o
       | None => false
       end
  /\ restrictedPermissions p' = opt_restrictedPermissions options.
Proof.
  intros Hparse Hvalid p' theme langpack_id dictionaries site_permissions.
  assert (Hfailed : parsingFailed (VObj props) valid = false).
  { destruct valid as [[|]|]; [reflexivity | congruence | reflexivity]. }
  subst p'. unfold constructor. rewrite Hparse, Hfailed.
  unfold detectType, hasOwnProperty. cbn [bind ownProps].
  fold theme langpack_id dictionaries site_permissions.
  destruct theme, langpack_id, dictionaries, site_permissions;
    cbn [bind negb andb];
    match goal with
    | |- context [final (_validate ?q)] =>
        pose proof (_validate_within q) as (_ & _ & _ & Hset)
    end;
    unfold settings in Hset; cbn in Hset;
    injection Hset as E1 E2 E3 E4 E5 E6 E7 E8 E9 E10;
    rewrite E1, E2, E3, E4, E5, E6, E7, E8, E9, E10;
    cbn; repeat split; lia.
Qed.

(** X3.  What [_validate] leaves alone.  Of the manifest it only assigns
    the keys [applications], [author] and [homepage_url]: every other key
    reads afterwards as it did before.  The collector keeps the
    diagnostics that it held, in place, and [isValid] ends as a boolean.
    This holds also when a rule raises. *)
Theorem _validate_assigns_three_keys p :
  let p' := final (_validate p) in
  (forall k,
     k <> "applications" -> k <> "author" -> k <> "homepage_url" ->
     get (parsedJSON p') k = get (parsedJSON p) k)
  /\ (exists ds, log p' = log p ++ ds)
  /\ (exists b, isValid p' = Some b).
Proof.
  intros p'. destruct (_validate_within p) as ([ds [Hl _]] & Hv & [_ Hk] & _).
  fold p' in Hl, Hv, Hk. split; [|split].
  - intros k H1 H2 H3. rewrite Hk; [reflexivity|].
    simpl. intuition congruence.
  - exists ds. exact Hl.
  - destruct Hv as [Hv | [_ Hv]]; rewrite Hv; eauto.
Qed.

End ValidateTheorems.

Section ValidateExamples.

(** A manifest of version 2 whose only schema error is on
    [host_permissions]: the error is not reported, and the manifest is
    invalid all the same. *)
Lemma schema_rejection_is_final_witness :
  let error :=
    mkSchemaError "/host_permissions" "type" (Some "must be array") (VNum 1)
      None in
  let env :=
    Custom.imports (fun _ => (VUndefined, None, []))
      (fun _ _ _ => (false, [error])) "" [] [] (fun _ => Ok VNull)
      (fun _ _ => false) in
  let p :=
    exampleParser
      (VObj [("manifest_version", VNum 2); ("version", VStr "1.0")])
      (VObj []) in
  isValid (final (@_validate Sample.messages env p)) = Some false
  /\ log (final (@_validate Sample.messages env p)) = [].
Proof.
  intros error env p. split.
  - apply (@schema_rejection_is_final Sample.messages env p [error]).
    reflexivity.
  - reflexivity.
Defined.

(** A manifest with the keys [theme] and [dictionaries] is a theme. *)
Lemma constructor_addon_kind_witness :
  let manifest := [("theme", VObj []); ("dictionaries", VObj [])] in
  let env :=
    Custom.imports (fun _ => (VObj manifest, Some true, []))
      (fun _ _ _ => (true, [])) "" [] [] (fun _ => Ok VNull)
      (fun _ _ => false) in
  let options := mkOptions false None None false [] in
  let p' := final (@constructor Sample.messages env "{}" options) in
  isStaticTheme p' = true /\ isDictionary p' = false.
Proof.
  intros manifest env options p'.
  destruct (@constructor_addon_kind Sample.messages env "{}" options manifest
              (Some true) [] eq_refl)
    as (Htheme & _ & Hdictionary & _); [discriminate|].
  split; [exact Htheme | exact Hdictionary].
Defined.

End ValidateExamples.

(** ** Rules that only warn *)

Section WarningProperties.

Context `{Messages} `{Imports}.

(** X4.  The rule on [content_security_policy] only warns: whatever the
    policy is, a string or an object of policies, the collector receives
    warnings and nothing else, and [isValid] and the manifest are left as
    they were, also when the rule raises. *)
Theorem validateCspPolicy_only_warns policy p :
  exists ds,
    final (validateCspPolicy policy p) = after p ds false
    /\ List.Forall (fun d => fst d = SevWarning) ds.
Proof.
  destruct (within_after _ _ _ (validateCspPolicy_bounded policy p))
    as (ds & Hfinal & Hsev).
  exists ds. split; [exact Hfinal|].
  apply List.Forall_forall. intros [s m] Hin.
  rewrite forallb_forall in Hsev. specialize (Hsev _ Hin). simpl in *.
  now destruct s.
Qed.

(** X5.  The compatibility rule never reports an error and never
    invalidates the manifest: whatever the compatibility data and the
    manifest are, the collector receives warnings and notices only, and
    [isValid] and the manifest are left as they were. *)
Theorem validateCompat_never_errors p :
  exists ds,
    final (validateCompat p) = after p ds false
    /\ List.Forall (fun d => fst d <> SevError) ds.
Proof.
  destruct (within_after _ _ _ (validateCompat_bounded p))
    as (ds & Hfinal & Hsev).
  exists ds. split; [exact Hfinal|].
  apply List.Forall_forall. intros [s m] Hin.
  rewrite forallb_forall in Hsev. specialize (Hsev _ Hin). simpl in *.
  now destruct s.
Qed.

End WarningProperties.

(** ** Reading the size of an image from a stream *)

Section StreamProperties.

Context `{Imports}.

Lemma readImageSize_prefixes (stream : Stream) :
  forall read,
    (exists k size,
       (0 < k <= length stream)%nat
       /\ (forall j, (0 < j < k)%nat ->
             getImageSize (read ++ firstn j stream) = Throw)
       /\ getImageSize (read ++ firstn k stream) = Ok size
       /\ readImageSize read stream = Ok size)
    \/ ((forall k, (0 < k <= length stream)%nat ->
           getImageSize (read ++ firstn k stream) = Throw)
        /\ readImageSize read stream = getImageSize (read ++ stream)).
Proof.
  induction stream as [|c stream IH]; intros read.
  - right. split; [simpl; intros k Hk; lia|]. simpl. now rewrite app_nil_r.
  - cbn [readImageSize].
    destruct (getImageSize (read ++ [c])) as [size|] eqn:Hc.
    + left. exists 1%nat, size. cbn [firstn length].
      split; [lia|]. split; [intros j Hj; lia|]. now split.
    + destruct (IH (read ++ [c])) as [(k & size & Hk & Hfail & Hok & Hrun)
                                     | [Hfail Hrun]].
      * left. exists (S k), size. cbn [firstn length].
        split; [lia|]. rewrite <- app_assoc in Hok. split; [|now split].
        intros [|[|j]] Hj; [lia | exact Hc |].
        cbn [firstn]. specialize (Hfail (S j) ltac:(lia)).
        now rewrite <- app_assoc in Hfail.
      * right. split; [|now rewrite Hrun, <- app_assoc].
        intros [|[|k]] Hk; [lia | exact Hc |].
        cbn [firstn length] in *. specialize (Hfail (S k) ltac:(lia)).
        now rewrite <- app_assoc in Hfail.
Qed.

(** X6.  [getStreamImageSize] answers with the size that the shortest
    decodable prefix of the chunks gives, whatever comes after it in the
    stream; when no prefix decodes (and the stream is not empty, so the
    whole stream does not decode either) it raises, and on an empty
    stream the outcome is that of the decoder on no bytes. *)
Theorem getStreamImageSize_shortest_prefix (stream : Stream) :
  (exists k size,
     (0 < k <= length stream)%nat
     /\ (forall j, (0 < j < k)%nat -> getImageSize (firstn j stream) = Throw)
     /\ getImageSize (firstn k stream) = Ok size
     /\ getStreamImageSize stream = Ok size)
  \/ ((forall k, (0 < k <= length stream)%nat ->
         getImageSize (firstn k stream) = Throw)
      /\ getStreamImageSize stream = getImageSize stream).
Proof. exact (readImageSize_prefixes stream []). Qed.

End StreamProperties.

Section StreamExamples.

#[local] Existing Instance Sample.imports.

(** A header of three bytes that comes in three chunks, and a fourth
    chunk that is not read; a stream that ends before the header does. *)
Example getStreamImageSize_examples :
  getStreamImageSize [[Byte.x20]; [Byte.x10]; [Byte.x00]; [Byte.xff]]
  = Ok (mkImageSize 32 16 "png")
  /\ getStreamImageSize [[Byte.x20]; [Byte.x10]] = Throw
  /\ getStreamImageSize [] = Throw.
Proof. repeat split. Qed.

End StreamExamples.

(** ** The policies of [content_security_policy] *)

Section CspPolicyProperties.

Context `{Messages} `{Imports}.

Lemma validateCspPolicyString_run policy name p :
  parseCspPolicy policy <> Throw ->
  validateCspPolicyString policy name p =
  Done tt (after p (policyWarnings name policy) false).
Proof.
  intros Hparse. unfold validateCspPolicyString, policyWarnings, cspWarnings.
  step. destruct (parseCspPolicy policy) as [d|]; [|congruence].
  cbv beta iota zeta.
  destruct (warnInsecureEval (cspFlags d)), (warnInsecureCsp (cspFlags d));
    step; cbn [app]; rewrite ?after_nil; try reflexivity.
  unfold after, set_isValid, set_log. cbn. now rewrite <- app_assoc.
Qed.

Lemma forEach_validateCspPolicyString policy (l : list (string * value)) :
  forall p,
    (forall key v, In (key, v) l ->
       get policy key = Ok v /\ parseCspPolicy v <> Throw) ->
    forEach (map fst l) (fun key =>
      v ← lift (get policy key);
      validateCspPolicyString v ("content_security_policy." +:+ key)) p =
    Done tt
      (after p
         (flat_map (fun '(key, v) =>
            policyWarnings ("content_security_policy." +:+ key) v) l)
         false).
Proof.
  induction l as [|[key v] l IH]; intros p Hl.
  - simpl. now rewrite after_nil.
  - destruct (Hl key v ltac:(now left)) as [Hget Hparse].
    cbn [map fst forEach flat_map]. step. rewrite Hget. cbv beta iota.
    rewrite validateCspPolicyString_run by exact Hparse.
    rewrite IH by (intros k' v' Hin; apply Hl; now right).
    now rewrite after_after.
Qed.

(** X7.  A policy that is an object is validated entry by entry, in the
    order of its keys: the warnings are those of each entry, reported
    under the name [content_security_policy.<key>].  A policy that is a
    number or a boolean has no entry, and nothing is reported. *)
Theorem validateCspPolicy_object props p :
  List.NoDup (map fst props) ->
  (forall key v, In (key, v) props -> parseCspPolicy v <> Throw) ->
  validateCspPolicy (VObj props) p =
  Done tt
    (after p
       (flat_map (fun '(key, v) =>
          policyWarnings ("content_security_policy." +:+ key) v) props)
       false)
  /\ (forall n, validateCspPolicy (VNum n) p = Done tt p)
  /\ (forall b, validateCspPolicy (VBool b) p = Done tt p).
Proof.
  intros Hnd Hparse. split; [|split; reflexivity].
  unfold validateCspPolicy. step. cbn [keys ownProps]. cbv beta iota.
  apply forEach_validateCspPolicyString. intros key v Hin.
  split; [|now apply (Hparse key v)].
  unfold get. cbn [ownProps]. now rewrite (assoc_In key v props Hnd Hin).
Qed.

End CspPolicyProperties.

Section CspPolicyExamples.

#[local] Existing Instance Sample.messages.
#[local] Existing Instance Sample.imports.

(** The two policies of a manifest of version 3. *)
Lemma validateCspPolicy_object_witness :
  let policy :=
    [("extension_pages", VStr "script-src 'self' 'unsafe-eval'");
     ("isolated_world", VStr "default-src 'self'")] in
  let p := exampleParser (VObj []) (VObj []) in
  validateCspPolicy (VObj policy) p =
  Done tt
    (after p
       [addWarning
          (manifestCspUnsafeEval "content_security_policy.extension_pages");
        addWarning (manifestCsp "content_security_policy.extension_pages")]
       false).
Proof.
  intros policy p.
  destruct (@validateCspPolicy_object Sample.messages Sample.imports policy p)
    as [Hrun _].
  - repeat constructor; simpl; intuition discriminate.
  - intros key v [Heq|[Heq|[]]]; injection Heq as <- <-; discriminate.
  - exact Hrun.
Defined.

End CspPolicyExamples.

(** ** Rules that rewrite the manifest *)

Lemma get_getOpt v k : truthy v = true -> get v k = Ok (getOpt v k).
Proof.
  intros Ht. unfold getOpt. destruct (get_truthy v k Ht) as [x ->].
  reflexivity.
Qed.

Lemma getOpt_falsy v k : truthy v = false -> truthy (getOpt v k) = false.
Proof.
  intros Hf. unfold getOpt, get.
  destruct v as [| |b|n|s|l|props]; try discriminate; try reflexivity.
  - cbn. now destruct (String.eqb k "length").
  - cbn. now destruct (String.eqb k "length").
  - simpl in Hf. apply negb_false_iff, String.eqb_eq in Hf. subst s.
    cbn. now destruct (String.eqb k "length").
Qed.

Lemma getOpt_truthy v k : truthy (getOpt v k) = true -> truthy v = true.
Proof.
  intros Ht. destruct (truthy v) eqn:Hv; [reflexivity|].
  now rewrite (getOpt_falsy v k Hv) in Ht.
Qed.

Section RewriteProperties.

Context `{Messages} `{Imports}.

Lemma mergeBrowserSpecificSettings_run p props :
  parsedJSON p = VObj props ->
  let bss := property "browser_specific_settings" props in
  mergeBrowserSpecificSettings p =
  if truthy bss && truthy (getOpt bss "gecko")
  then Done tt (set_parsedJSON (VObj (setProp "applications" bss props)) p)
  else Done tt p.
Proof.
  intros Hp bss.
  unfold mergeBrowserSpecificSettings. step. rewrite Hp, get_property.
  fold bss. cbv beta iota. unfold js_and.
  destruct (truthy bss) eqn:Hbss; cbn [andb].
  - rewrite (get_getOpt bss "gecko" Hbss). cbv beta iota.
    destruct (truthy (getOpt bss "gecko")); cbn [when]; [|reflexivity].
    unfold assign. now rewrite Hp.
  - cbv beta iota. rewrite Hbss. reflexivity.
Qed.

(** X8.  When [browser_specific_settings] has a truthy [gecko], it takes
    the place of [applications]: afterwards [applications] reads as
    [browser_specific_settings], the other keys read as before, and the
    id of the add-on is the one under [browser_specific_settings], whatever
    [applications] held.  When it has not, the manifest is left alone.
    Nothing is reported either way. *)
Theorem browser_specific_settings_replace_applications p props :
  parsedJSON p = VObj props ->
  let bss := property "browser_specific_settings" props in
  let gecko := getOpt bss "gecko" in
  let p' := set_parsedJSON (VObj (setProp "applications" bss props)) p in
  (truthy bss && truthy gecko = true ->
   mergeBrowserSpecificSettings p = Done tt p'
   /\ get (parsedJSON p') "applications" = Ok bss
   /\ (forall k, k <> "applications" ->
         get (parsedJSON p') k = get (parsedJSON p) k)
   /\ getAddonId p'
      = match getOpt gecko "id" with
        | VUndefined => VNull
        | id => id
        end)
  /\ (truthy bss && truthy gecko = false ->
      mergeBrowserSpecificSettings p = Done tt p).
Proof.
  intros Hp bss gecko p'.
  pose proof (mergeBrowserSpecificSettings_run p props Hp) as Hrun.
  cbv zeta in Hrun. subst p' gecko bss.
  split; intros Hcond; rewrite Hcond in Hrun; [|exact Hrun].
  apply andb_true_iff in Hcond as [Hbss Hgecko].
  split; [exact Hrun|]. cbn [parsedJSON set_parsedJSON].
  split; [apply get_setProp|]. split.
  - intros k Hk. rewrite Hp. now apply get_setProp_other.
  - unfold getAddonId. cbn [parsedJSON set_parsedJSON].
    rewrite get_setProp. cbn [bind].
    rewrite (get_getOpt _ "gecko" Hbss). cbn [bind].
    rewrite (get_getOpt _ "id" Hgecko).
    now destruct (getOpt _ "id").
Qed.

(** X9.  From manifest version 3 on, and also when the manifest has no
    [manifest_version] at all, an id is required under
    [applications.gecko]: without one the rule reports
    [EXTENSION_ID_REQUIRED] and invalidates the manifest, and below
    version 3 it reports nothing.  As [browser_specific_settings] has
    replaced [applications] when the rule runs, an id given under
    [browser_specific_settings.gecko] satisfies it. *)
Theorem extension_id_required p props :
  parsedJSON p = VObj props ->
  let id := getOpt (getOpt (property "applications" props) "gecko") "id" in
  let bss := property "browser_specific_settings" props in
  validateExtensionID p =
  Done tt
    (if lessThan3 (property "manifest_version" props) || truthy id then p
     else after p [addError EXTENSION_ID_REQUIRED] true)
  /\ (assoc "manifest_version" props = None -> truthy id = false ->
      validateExtensionID p =
      Done tt (after p [addError EXTENSION_ID_REQUIRED] true))
  /\ (truthy (getOpt (getOpt bss "gecko") "id") = true ->
      (mergeBrowserSpecificSettings;; validateExtensionID) p =
      Done tt (set_parsedJSON (VObj (setProp "applications" bss props)) p)).
Proof.
  intros Hp id bss.
  assert (Hrun : forall q props',
            parsedJSON q = VObj props' ->
            validateExtensionID q =
            Done tt
              (if lessThan3 (property "manifest_version" props')
                  || truthy
                       (getOpt (getOpt (property "applications" props')
                                  "gecko") "id")
               then q
               else after q [addError EXTENSION_ID_REQUIRED] true)).
  { intros q props' Hq. unfold validateExtensionID. step.
    rewrite Hq, !get_property. cbv beta iota.
    destruct (lessThan3 (property "manifest_version" props'));
      cbn [orb]; [reflexivity|].
    step. rewrite Hq, get_property. cbv beta iota.
    destruct (truthy _); cbn [negb]; step; reflexivity. }
  split; [now apply Hrun|]. split.
  - intros Hmv Hid. rewrite (Hrun p props Hp). fold id. rewrite Hid.
    unfold property. rewrite Hmv. reflexivity.
  - intros Hid.
    pose proof (getOpt_truthy _ _ Hid) as Hgecko.
    pose proof (getOpt_truthy _ _ Hgecko) as Hbss.
    pose proof (mergeBrowserSpecificSettings_run p props Hp) as Hmerge.
    cbv zeta in Hmerge. subst bss.
    rewrite Hbss, Hgecko in Hmerge.
    unfold mbind, M_bind. rewrite Hmerge. cbn [andb].
    erewrite Hrun by reflexivity.
    rewrite property_setProp, Hid. now rewrite orb_true_r.
Qed.

Lemma checkRestrictedUrls_run s restricted p :
  checkRestrictedUrls (VStr s) restricted p =
  Done tt
    (if existsb (includes_str s) restricted
     then after p [addError RESTRICTED_HOMEPAGE_URL] true
     else p).
Proof.
  induction restricted as [|restrictedUrl rest IH]; [reflexivity|].
  cbn [checkRestrictedUrls existsb]. step. cbn [includesValue].
  cbv beta iota. destruct (includes_str s restrictedUrl); cbn [orb].
  - step. reflexivity.
  - exact IH.
Qed.

(** X10.  A home page that is a string gets the error
    [RESTRICTED_HOMEPAGE_URL] when one of the restricted URLs occurs in
    it, and gets it once however many of them occur; otherwise nothing is
    reported.  A home page that is a number raises as soon as there is a
    restricted URL to look for. *)
Theorem validateHomePageURL_reports_once s p :
  validateHomePageURL (VStr s) p =
  Done tt
    (if existsb (includes_str s) RESTRICTED_HOMEPAGE_URLS
     then after p [addError RESTRICTED_HOMEPAGE_URL] true
     else p)
  /\ (forall n,
        validateHomePageURL (VNum n) p =
        match RESTRICTED_HOMEPAGE_URLS with
        | [] => Done tt p
        | _ :: _ => Raised p
        end).
Proof.
  split; [apply checkRestrictedUrls_run|].
  intros n. unfold validateHomePageURL.
  now destruct RESTRICTED_HOMEPAGE_URLS.
Qed.

Lemma promoteDeveloper_run p props :
  parsedJSON p = VObj props ->
  let developer := property "developer" props in
  let name := getOpt developer "name" in
  let url := getOpt developer "url" in
  let named := if truthy name then setProp "author" name props else props in
  promoteDeveloper p =
  Done tt
    (if truthy developer
     then set_parsedJSON
            (VObj (if truthy url then setProp "homepage_url" url named
                   else named)) p
     else p).
Proof.
  intros Hp developer name url named.
  assert (Hself : set_parsedJSON (VObj props) p = p).
  { rewrite <- Hp. now destruct p. }
  unfold promoteDeveloper. step. rewrite Hp, get_property. fold developer.
  cbv beta iota. destruct (truthy developer) eqn:Hd; [|reflexivity].
  rewrite !(get_getOpt developer _ Hd). fold name url. cbv beta iota.
  subst named. unfold assign.
  destruct (truthy name), (truthy url); cbn [parsedJSON set_parsedJSON];
    rewrite ?Hp; cbn [parsedJSON set_parsedJSON]; try reflexivity.
  now rewrite Hself.
Qed.

(** X11.  The name and the URL of [developer], when they are truthy, take
    the place of [author] and of [homepage_url] in the manifest; the rule
    on the home page, which runs next, then looks at the URL of the
    developer and not at the [homepage_url] that the manifest gave. *)
Theorem developer_replaces_author_and_homepage p props name url :
  parsedJSON p = VObj props ->
  truthy (property "developer" props) = true ->
  getOpt (property "developer" props) "name" = name ->
  getOpt (property "developer" props) "url" = VStr url ->
  truthy name = true -> url <> "" ->
  let props' := setProp "homepage_url" (VStr url)
                  (setProp "author" name props) in
  let p' := set_parsedJSON (VObj props') p in
  promoteDeveloper p = Done tt p'
  /\ get (parsedJSON p') "author" = Ok name
  /\ get (parsedJSON p') "homepage_url" = Ok (VStr url)
  /\ (promoteDeveloper;; validateHomePage) p =
     Done tt
       (if existsb (includes_str url) RESTRICTED_HOMEPAGE_URLS
        then after p' [addError RESTRICTED_HOMEPAGE_URL] true
        else p').
Proof.
  intros Hp Hd Hname Hurl Htn Htu props' p'.
  assert (Hrun : promoteDeveloper p = Done tt p').
  { rewrite (promoteDeveloper_run p props Hp). cbv zeta.
    rewrite Hd, Hname, Hurl, Htn. cbn [truthy].
    apply String.eqb_neq in Htu. now rewrite Htu. }
  split; [exact Hrun|]. cbn [p' parsedJSON set_parsedJSON].
  split; [|split].
  - subst props'. rewrite get_setProp_other by discriminate.
    apply get_setProp.
  - apply get_setProp.
  - unfold mbind at 1. unfold M_bind at 1. rewrite Hrun.
    unfold validateHomePage. step. cbn [p' parsedJSON set_parsedJSON].
    subst props'. rewrite get_setProp. cbv beta iota. cbn [truthy].
    apply String.eqb_neq in Htu. rewrite Htu. cbn [negb when].
    apply checkRestrictedUrls_run.
Qed.

End RewriteProperties.

Section RewriteExamples.

#[local] Existing Instance Sample.messages.
#[local] Existing Instance Sample.imports.

(** A manifest with an id under both keys. *)
Lemma browser_specific_settings_replace_applications_witness :
  let props :=
    [("applications", VObj [("gecko", VObj [("id", VStr "old@id")])]);
     ("browser_specific_settings",
      VObj [("gecko", VObj [("id", VStr "new@id")])])] in
  let p := exampleParser (VObj props) (VObj []) in
  getAddonId p = VStr "old@id"
  /\ getAddonId (final (mergeBrowserSpecificSettings p)) = VStr "new@id".
Proof.
  intros props p. split; [reflexivity|].
  destruct (browser_specific_settings_replace_applications p props eq_refl)
    as [Hmerge _].
  destruct (Hmerge eq_refl) as (Hrun & _ & _ & Hid).
  rewrite Hrun. exact Hid.
Defined.

(** A manifest of version 3 whose id is under
    [browser_specific_settings]: the rule alone would report, the rule
    after the merge does not. *)
Lemma extension_id_required_witness :
  let props :=
    [("manifest_version", VNum 3);
     ("browser_specific_settings",
      VObj [("gecko", VObj [("id", VStr "new@id")])])] in
  let p := exampleParser (VObj props) (VObj []) in
  validateExtensionID p =
  Done tt (after p [addError EXTENSION_ID_REQUIRED] true)
  /\ log (final ((mergeBrowserSpecificSettings;; validateExtensionID) p))
     = [].
Proof.
  intros props p.
  destruct (extension_id_required p props eq_refl) as (Hrun & _ & Hmerged).
  split; [exact Hrun|]. now rewrite (Hmerged eq_refl).
Defined.

(** A developer whose URL is restricted, in a manifest whose own home
    page is not. *)
Lemma developer_replaces_author_and_homepage_witness :
  let env :=
    Custom.imports (fun _ => (VUndefined, None, []))
      (fun _ _ _ => (true, [])) "" ["restricted.example"] []
      (fun _ => Ok VNull) (fun _ _ => false) in
  let props :=
    [("homepage_url", VStr "https://fine.example/");
     ("developer",
      VObj [("name", VStr "Dev");
            ("url", VStr "https://restricted.example/me")])] in
  let p := exampleParser (VObj props) (VObj []) in
  let p' :=
    set_parsedJSON
      (VObj [("homepage_url", VStr "https://restricted.example/me");
             ("developer",
              VObj [("name", VStr "Dev");
                    ("url", VStr "https://restricted.example/me")]);
             ("author", VStr "Dev")]) p in
  (@promoteDeveloper;; @validateHomePage Sample.messages env) p =
  Done tt (after p' [addError RESTRICTED_HOMEPAGE_URL] true).
Proof.
  intros env props p p'.
  destruct (@developer_replaces_author_and_homepage Sample.messages env p
              props (VStr "Dev") "https://restricted.example/me" eq_refl
              eq_refl eq_refl eq_refl eq_refl)
    as (_ & _ & _ & Hrun); [discriminate|].
  exact Hrun.
Defined.

End RewriteExamples.

(** ** Content scripts *)

Section ContentScriptProperties.

Context `{Messages} `{Imports}.

Lemma forEach_blockedHosts s (lines : list string) :
  forall p,
    forEach lines (fun value =>
      when (negb (String.eqb value "")
            && negb (String.eqb (String.substring 0 1 value) "#")) (
        blocked ← lift (includesValue (VStr s) (trim value));
        when blocked (
          collect (addError MANIFEST_INVALID_CONTENT);;
          invalidate))) p =
    let hits :=
      List.filter (includes_str s)
        (map trim
           (List.filter
              (fun value =>
                 negb (String.eqb value "")
                 && negb (String.eqb (String.substring 0 1 value) "#"))
              lines)) in
    Done tt
      (after p (map (fun _ => addError MANIFEST_INVALID_CONTENT) hits)
         (nonEmpty hits)).
Proof.
  induction lines as [|value lines IH]; intros p.
  - simpl. now rewrite after_nil.
  - cbn [forEach List.filter]. step.
    destruct (negb (String.eqb value "")
              && negb (String.eqb (String.substring 0 1 value) "#")).
    + cbn [map List.filter includesValue]. step.
      destruct (includes_str s (trim value)).
      * step. rewrite IH. cbv zeta. cbn [map nonEmpty].
        rewrite invalid_after, after_after. reflexivity.
      * step. apply IH.
    + step. apply IH.
Qed.

(** X12.  A match pattern gets the error [MANIFEST_INVALID_CONTENT] once
    for each blocked host that occurs in it, so several times when
    several hosts occur, and nothing when none does; a line of the list of
    blocked hosts that is empty or starts with [#] is not a host. *)
Theorem validateContentScriptMatchPattern_counts s p :
  let hits := List.filter (includes_str s) blockedHosts in
  validateContentScriptMatchPattern (VStr s) p =
  Done tt
    (after p (map (fun _ => addError MANIFEST_INVALID_CONTENT) hits)
       (nonEmpty hits)).
Proof. apply forEach_blockedHosts. Qed.

End ContentScriptProperties.

Section ContentScriptExamples.

(** A list of two hosts with a comment and an empty line, and a pattern
    that has both hosts. *)
Example validateContentScriptMatchPattern_example :
  let hosts :=
    "# blocked" +:+ newline +:+ "bad.example" +:+ newline +:+ newline
    +:+ " worse.example " in
  let env :=
    Custom.imports (fun _ => (VUndefined, None, []))
      (fun _ _ _ => (true, [])) hosts [] [] (fun _ => Ok VNull)
      (fun _ _ => false) in
  let p := exampleParser (VObj []) (VObj []) in
  @blockedHosts env = ["bad.example"; "worse.example"]
  /\ @validateContentScriptMatchPattern Sample.messages env
       (VStr "*://bad.example/worse.example/*") p =
     Done tt
       (after p
          [addError (@MANIFEST_INVALID_CONTENT Sample.messages);
           addError (@MANIFEST_INVALID_CONTENT Sample.messages)] true)
  /\ @validateContentScriptMatchPattern Sample.messages env
       (VStr "*://fine.example/*") p = Done tt p.
Proof. repeat split. Qed.

End ContentScriptExamples.

(** ** The messages of the schema validator *)

Section SchemaProperties.

Context `{Messages} `{Imports}.

Lemma tidyMessage_instancePath error :
  err_instancePath (tidyMessage error) = err_instancePath error.
Proof.
  unfold tidyMessage. destruct (err_message error) as [m|]; [|reflexivity].
  now destruct (negb (String.eqb m "") && _).
Qed.

Lemma classify_instancePath privileged error base overrides :
  classify privileged error = Ok (base, overrides) ->
  o_instancePath overrides = err_instancePath error.
Proof.
  unfold classify. intros Hc.
  repeat match type of Hc with
         | (if ?b then _ else _) = _ => destruct b
         | match ?x with _ => _ end = _ => destruct x
         end;
    try discriminate; injection Hc as <- <-; reflexivity.
Qed.

Lemma refine_instancePath error c :
  o_instancePath (snd (refine error c)) = o_instancePath (snd c).
Proof.
  unfold refine. destruct c as [base overrides].
  destruct (arrayElementMatch (err_instancePath error)) as [[g1 g2]|];
    [|reflexivity].
  now destruct (codeNe _ _ && _ && _ && _).
Qed.

Lemma merge_instancePath base overrides :
  instancePath (merge base overrides) = Some (o_instancePath overrides).
Proof. now destruct base. Qed.

Lemma errorLookup_instancePath p error m :
  errorLookup p error = Ok (Some m) ->
  instancePath m = Some (err_instancePath error).
Proof.
  unfold errorLookup, classified. intros Hlook.
  destruct (classify (isPrivilegedAddon p) (tidyMessage error))
    as [[base overrides]|] eqn:Hc; [|discriminate].
  cbn [bind] in Hlook.
  pose proof (refine_instancePath (tidyMessage error) (base, overrides))
    as Hr.
  destruct (refine (tidyMessage error) (base, overrides))
    as [base' overrides'].
  cbn [snd] in Hr.
  apply classify_instancePath in Hc. rewrite tidyMessage_instancePath in Hc.
  destruct (get (parsedJSON p) "manifest_version") as [mv|];
    [|discriminate].
  cbn [bind] in Hlook.
  assert (Hm : m = merge base' overrides').
  { destruct (isTwo mv); [|congruence].
    destruct base' as [| |b]; try discriminate.
    destruct (bool_decide _); congruence. }
  subst m. rewrite merge_instancePath. congruence.
Qed.

(** X13.  What [errorLookup] returns when it returns: a message that
    carries the [instancePath] of the error, or [null], and [null] only on
    a manifest whose [manifest_version] is the number 2, for an error
    whose message has one of the two codes of host permissions. *)
Theorem errorLookup_result p error r :
  errorLookup p error = Ok r ->
  match r with
  | Some m => instancePath m = Some (err_instancePath error)
  | None =>
      get (parsedJSON p) "manifest_version" = Ok (VNum 2)
      /\ exists base overrides,
           classified p error = Ok (MVal base, overrides)
           /\ (code base = code MANIFEST_HOST_PERMISSIONS
               \/ code base = code MANIFEST_BAD_HOST_PERMISSION)
  end.
Proof.
  intros Hlook. destruct r as [m|];
    [exact (errorLookup_instancePath p error m Hlook)|].
  unfold errorLookup in Hlook.
  destruct (classified p error) as [[base overrides]|]; [|discriminate].
  cbn [bind] in Hlook.
  destruct (get (parsedJSON p) "manifest_version") as [mv|];
    [|discriminate].
  cbn [bind] in Hlook. destruct (isTwo mv) eqn:Hmv; [|discriminate].
  destruct mv as [| | |n| | |]; try discriminate.
  apply Z.eqb_eq in Hmv as ->. split; [reflexivity|].
  destruct base as [| |b]; try discriminate.
  exists b, overrides. split; [reflexivity|].
  destruct (bool_decide (code b ∈ ignoredOnMV2)) eqn:Hin; [|discriminate].
  apply bool_decide_eq_true in Hin. unfold ignoredOnMV2 in Hin.
  apply elem_of_cons in Hin as [Hin|Hin]; [now left|].
  apply elem_of_cons in Hin as [Hin|Hin]; [now right|].
  now apply elem_of_nil in Hin.
Qed.

Lemma reportSchemaError_final error q :
  isValid q = Some false ->
  exists ds,
    final (reportSchemaError error q) = after q ds false
    /\ (length ds <= 1)%nat
    /\ List.Forall
         (fun d => instancePath (snd d) = Some (err_instancePath error)) ds.
Proof.
  intros Hq.
  assert (Hinv : forall d, set_isValid (Some false)
                             (set_log (log q ++ [d]) q)
                           = after q [d] false).
  { intros d. unfold after. now rewrite Hq. }
  unfold reportSchemaError. step.
  destruct (errorLookup q error) as [[m|]|] eqn:Hlook; cbv beta iota.
  - apply errorLookup_instancePath in Hlook.
    destruct (bool_decide (code m ∈ warnings q)); step;
      destruct (bool_decide (code m = code MANIFEST_BAD_PERMISSION));
      cbn [when]; step; rewrite ?Hinv;
      eexists [_]; (split; [reflexivity|]); (split; [simpl; lia|]);
      repeat constructor; exact Hlook.
  - exists []. rewrite after_nil. repeat split; [simpl; lia | constructor].
  - exists []. rewrite after_nil. repeat split; [simpl; lia | constructor].
Qed.

Lemma forEach_reportSchemaError_final errors :
  forall q,
    isValid q = Some false ->
    exists ds,
      final (forEach errors reportSchemaError q) = after q ds false
      /\ (length ds <= length errors)%nat
      /\ List.Forall
           (fun d => exists error,
              In error errors
              /\ instancePath (snd d) = Some (err_instancePath error)) ds.
Proof.
  induction errors as [|error errors IH]; intros q Hq.
  - exists []. simpl. rewrite after_nil. repeat split; [lia | constructor].
  - destruct (reportSchemaError_final error q Hq) as (ds1 & H1 & Hn1 & Hp1).
    rewrite final_forEach_cons.
    destruct (reportSchemaError error q) as [[] q1|q1]; simpl in H1;
      subst q1.
    + destruct (IH (after q ds1 false)) as (ds2 & H2 & Hn2 & Hp2);
        [exact Hq|].
      exists (ds1 ++ ds2). rewrite H2, after_after.
      split; [reflexivity|]. split; [rewrite length_app; simpl; lia|].
      apply List.Forall_app. split.
      * eapply List.Forall_impl; [|exact Hp1].
        intros d Hd. exists error. split; [now left | exact Hd].
      * eapply List.Forall_impl; [|exact Hp2].
        intros d (e & He & Hd). exists e. split; [now right | exact Hd].
    + exists ds1. split; [reflexivity|]. split; [simpl; lia|].
      eapply List.Forall_impl; [|exact Hp1].
      intros d Hd. exists error. split; [now left | exact Hd].
Qed.

(** X14.  The first rule of [_validate].  When the schema validator accepts
    the manifest, [isValid] becomes [true] and nothing is reported, even
    if the validator holds errors.  When it rejects the manifest,
    [isValid] is [false], each error of the validator is reported at most
    once, and each message reported carries the [instancePath] of one of
    the errors; a message that cannot be built ends the rule with what was
    reported before. *)
Theorem validateSchema_reports p valid errors :
  runValidator (selectValidator p) (parsedJSON p) (schemaValidatorOptions p)
  = (valid, errors) ->
  if valid then validateSchema p = Done tt (set_isValid (Some true) p)
  else
    exists ds,
      final (validateSchema p) = after p ds true
      /\ (length ds <= length errors)%nat
      /\ List.Forall
           (fun d => exists error,
              In error errors
              /\ instancePath (snd d) = Some (err_instancePath error)) ds.
Proof.
  intros Hrun. unfold validateSchema. step. rewrite Hrun. step.
  destruct valid; cbn [negb when]; [reflexivity|].
  destruct (forEach_reportSchemaError_final errors
              (set_isValid (Some false) p) eq_refl)
    as (ds & Hfinal & Hlen & Hpaths).
  exists ds. rewrite Hfinal. split; [|now split].
  now destruct p.
Qed.

End SchemaProperties.

Section SchemaExamples.

(** The error of the validator on [host_permissions], on a manifest of
    version 2. *)
Lemma errorLookup_result_witness :
  let error :=
    mkSchemaError "/host_permissions" "type" (Some "must be array") (VNum 1)
      None in
  let p := exampleParser (VObj [("manifest_version", VNum 2)]) (VObj []) in
  @errorLookup Sample.messages Sample.imports p error = Ok None
  /\ exists base overrides,
       @classified Sample.messages Sample.imports p error
       = Ok (MVal base, overrides)
       /\ (code base = code (@MANIFEST_HOST_PERMISSIONS Sample.messages)
           \/ code base
              = code (@MANIFEST_BAD_HOST_PERMISSION Sample.messages)).
Proof.
  intros error p. split; [reflexivity|].
  destruct (@errorLookup_result Sample.messages Sample.imports p error None
              eq_refl) as [_ Hbase].
  exact Hbase.
Defined.

(** A validator that rejects a manifest of version 2 with two errors, of
    which the one on [host_permissions] is not reported. *)
Lemma validateSchema_reports_witness :
  let errors :=
    [mkSchemaError "/permissions/0" "type" (Some "must be string") (VNum 5)
       None;
     mkSchemaError "/host_permissions" "type" (Some "must be array") (VNum 1)
       None] in
  let env :=
    Custom.imports (fun _ => (VUndefined, None, []))
      (fun _ _ _ => (false, errors)) "" [] [] (fun _ => Ok VNull)
      (fun _ _ => false) in
  let p := exampleParser (VObj [("manifest_version", VNum 2)]) (VObj []) in
  exists ds,
    final (@validateSchema Sample.messages env p) = after p ds true
    /\ (length ds <= 2)%nat
    /\ List.Forall
         (fun d => exists error,
            In error errors
            /\ instancePath (snd d) = Some (err_instancePath error)) ds.
Proof.
  intros errors env p.
  exact (@validateSchema_reports Sample.messages env p false errors eq_refl).
Defined.

End SchemaExamples.

(** ** Schema errors on manifest versions 2 and 3 *)

Section HostPermissionProperties.

Context `{Messages} `{Imports}.

Lemma reportSchemaError_run error q :
  isValid q = Some false ->
  errorLookup q error <> Throw ->
  reportSchemaError error q
  = Done tt (after q (schemaDiagnostics q error) false).
Proof.
  intros Hq Hlook.
  assert (Hinv : forall d, set_isValid (Some false)
                             (set_log (log q ++ [d]) q)
                           = after q [d] false).
  { intros d. unfold after. now rewrite Hq. }
  unfold schemaDiagnostics, reportSchemaError. step.
  destruct (errorLookup q error) as [[m|]|]; cbv beta iota.
  - destruct (bool_decide (code m ∈ warnings q)); step;
      destruct (bool_decide (code m = code MANIFEST_BAD_PERMISSION));
      cbn [when]; step; rewrite ?Hinv; reflexivity.
  - now rewrite after_nil.
  - contradiction.
Qed.

Lemma forEach_reportSchemaError_run errors :
  forall q,
    isValid q = Some false ->
    List.Forall (fun e => errorLookup q e <> Throw) errors ->
    forEach errors reportSchemaError q
    = Done tt (after q (flat_map (schemaDiagnostics q) errors) false).
Proof.
  induction errors as [|error errors IH]; intros q Hq Hall.
  - simpl. now rewrite after_nil.
  - apply List.Forall_cons_iff in Hall as [Hfirst Hrest].
    cbn [forEach flat_map]. unfold mbind at 1. unfold M_bind at 1.
    rewrite (reportSchemaError_run error q Hq Hfirst).
    rewrite (IH (after q (schemaDiagnostics q error) false) Hq Hrest).
    rewrite after_after. reflexivity.
Qed.

Lemma final_bind_done {A B} (m : M A) (f : A -> M B) p a q :
  m p = Done a q -> final ((m ≫= f) p) = final (f a q).
Proof. intros Hm. unfold mbind, M_bind. now rewrite Hm. Qed.

(** C2 (as amended).  Take a schema error that [errorLookup] classifies
    with one of the two host permission codes,
    [MANIFEST_HOST_PERMISSIONS] and [MANIFEST_BAD_HOST_PERMISSION].
    - When [manifest_version] is 2, [errorLookup] returns [null] and the
      loop of [_validate] reports nothing for the error.
    - When [manifest_version] is 3 and the code is that of
      [MANIFEST_HOST_PERMISSIONS], the loop reports exactly one warning
      for the error, and its turn on the error does not assign
      [isValid].
    - The loop runs when the schema validator has rejected the manifest,
      which has set [isValid] to [false].  With [errors] the errors of
      the validator, the error among them and none that makes
      [errorLookup] raise: the first rule of [_validate] reports, error
      by error, the diagnostics [schemaDiagnostics], which open what
      [_validate] adds to the collector; the error has no report among
      them on version 2 and its one warning, at its place, on version 3;
      and [isValid] is [false] when [_validate] is over, also when the
      error is the only one of the validator. *)
Theorem host_permission_codes_by_manifest_version p error base overrides :
  classified p error = Ok (MVal base, overrides) ->
  code base ∈ ignoredOnMV2 ->
  let warning := addWarning (merge (MVal base) overrides) in
  (get (parsedJSON p) "manifest_version" = Ok (VNum 2) ->
   errorLookup p error = Ok None
   /\ schemaDiagnostics p error = []
   /\ reports (reportSchemaError error) p [] p)
  /\ (get (parsedJSON p) "manifest_version" = Ok (VNum 3) ->
      code base = code MANIFEST_HOST_PERMISSIONS ->
      schemaDiagnostics p error = [warning]
      /\ (code MANIFEST_HOST_PERMISSIONS <> code MANIFEST_BAD_PERMISSION ->
          exists p',
            reports (reportSchemaError error) p [warning] p'
            /\ isValid p' = isValid p))
  /\ (forall errors,
        runValidator (selectValidator p) (parsedJSON p)
          (schemaValidatorOptions p)
        = (false, errors) ->
        List.Forall (fun e => errorLookup p e <> Throw) errors ->
        In error errors ->
        let reported := flat_map (schemaDiagnostics p) errors in
        validateSchema p = Done tt (after p reported true)
        /\ (exists ds,
              log (final (_validate p)) = log p ++ reported ++ ds)
        /\ isValid (final (_validate p)) = Some false
        /\ (forall before rest,
              errors = before ++ error :: rest ->
              (get (parsedJSON p) "manifest_version" = Ok (VNum 2) ->
               reported
               = flat_map (schemaDiagnostics p) before
                 ++ flat_map (schemaDiagnostics p) rest)
              /\ (get (parsedJSON p) "manifest_version" = Ok (VNum 3) ->
                  code base = code MANIFEST_HOST_PERMISSIONS ->
                  reported
                  = flat_map (schemaDiagnostics p) before
                    ++ warning :: flat_map (schemaDiagnostics p) rest))
        /\ (get (parsedJSON p) "manifest_version" = Ok (VNum 3) ->
            code base = code MANIFEST_HOST_PERMISSIONS ->
            errors = [error] ->
            validateSchema p = Done tt (after p [warning] true))).
Proof.
  intros Hc Hcode warning.
  assert (Hmv2 : get (parsedJSON p) "manifest_version" = Ok (VNum 2) ->
                 errorLookup p error = Ok None).
  { intros Hv. unfold errorLookup. rewrite Hc. simpl. rewrite Hv. simpl.
    now rewrite bool_decide_eq_true_2. }
  assert (Hnone : get (parsedJSON p) "manifest_version" = Ok (VNum 2) ->
                  schemaDiagnostics p error = []).
  { intros Hv. unfold schemaDiagnostics. now rewrite (Hmv2 Hv). }
  assert (Hmv3 : get (parsedJSON p) "manifest_version" = Ok (VNum 3) ->
                 errorLookup p error
                 = Ok (Some (merge (MVal base) overrides))).
  { intros Hv. unfold errorLookup. rewrite Hc. simpl. rewrite Hv.
    reflexivity. }
  assert (Hwarn : code base = code MANIFEST_HOST_PERMISSIONS ->
                  code (merge (MVal base) overrides) ∈ warnings p).
  { intros Hhost. simpl. rewrite Hhost. unfold warnings. simpl.
    do 2 apply list_elem_of_further. apply list_elem_of_here. }
  assert (Hone : get (parsedJSON p) "manifest_version" = Ok (VNum 3) ->
                 code base = code MANIFEST_HOST_PERMISSIONS ->
                 schemaDiagnostics p error = [warning]).
  { intros Hv Hhost. unfold schemaDiagnostics. rewrite (Hmv3 Hv).
    now rewrite (bool_decide_eq_true_2 _ (Hwarn Hhost)). }
  split; [|split].
  - intros Hv. split; [exact (Hmv2 Hv)|]. split; [exact (Hnone Hv)|].
    unfold reports, reportSchemaError, mbind, M_bind, this, lift.
    cbv beta iota. rewrite (Hmv2 Hv).
    exists tt. split; [reflexivity | now rewrite app_nil_r].
  - intros Hv Hhost. split; [exact (Hone Hv Hhost)|]. intros Hne.
    unfold reports, reportSchemaError, mbind, M_bind, this, lift.
    cbv beta iota. rewrite (Hmv3 Hv). cbv beta iota.
    rewrite (bool_decide_eq_true_2 _ (Hwarn Hhost)).
    run.
    rewrite bool_decide_eq_false_2 by (rewrite Hhost; exact Hne).
    eexists. split; [exists tt; split; reflexivity | reflexivity].
  - intros errors Hrun Hall Hin reported.
    assert (Hschema : validateSchema p = Done tt (after p reported true)).
    { unfold validateSchema. step. rewrite Hrun. step. cbn [negb when].
      rewrite (forEach_reportSchemaError_run errors
                 (set_isValid (Some false) p) eq_refl Hall).
      destruct p; reflexivity. }
    assert (Hrules : exists ds,
              log (final (_validate p)) = log p ++ reported ++ ds
              /\ isValid (final (_validate p)) = Some false).
    { unfold _validate. rewrite (final_bind_done _ _ _ _ _ Hschema).
      destruct (rules_bounded (after p reported true))
        as ([ds [Hlog _]] & Hvalid & _).
      exists ds. split.
      - etransitivity; [exact Hlog|]. simpl. now rewrite app_assoc.
      - destruct Hvalid as [Hv | [_ Hv]];
          (etransitivity; [exact Hv | reflexivity]). }
    destruct Hrules as (ds & Hlog & Hvalid).
    split; [exact Hschema|]. split; [now exists ds|].
    split; [exact Hvalid|]. split.
    + intros before rest ->. subst reported.
      rewrite flat_map_app. cbn [flat_map]. split.
      * intros Hv. now rewrite (Hnone Hv).
      * intros Hv Hhost. now rewrite (Hone Hv Hhost).
    + intros Hv Hhost Honly. rewrite Hschema. subst reported.
      rewrite Honly. cbn [flat_map]. now rewrite (Hone Hv Hhost).
Qed.

End HostPermissionProperties.

Section HostPermissionExamples.

(** C2 as stated fails.  The schema validator rejects a manifest of
    version 3 with one error, on the first element of [host_permissions].
    [_validate] reports one warning for it, with the code of
    [MANIFEST_HOST_PERMISSIONS], and nothing else, and the manifest is
    invalid; the same manifest is valid when the validator accepts it. *)
Lemma host_permission_counterexample :
  let error :=
    mkSchemaError "/host_permissions/0" "type" (Some "must be string")
      (VStr "tabs") None in
  let env answer :=
    Custom.imports (fun _ => (VUndefined, None, [])) (fun _ _ _ => answer)
      "" [] [] (fun _ => Ok VNull) (fun _ _ => false) in
  let p :=
    exampleParser
      (VObj [("manifest_version", VNum 3);
             ("browser_specific_settings",
              VObj [("gecko", VObj [("id", VStr "example@mozilla.org")])])])
      (VObj []) in
  (exists m,
     log (final (@_validate Sample.messages (env (false, [error])) p))
     = [addWarning m]
     /\ code m = code (@MANIFEST_HOST_PERMISSIONS Sample.messages)
     /\ isValid (final (@_validate Sample.messages (env (false, [error])) p))
        = Some false)
  /\ log (final (@_validate Sample.messages (env (true, [])) p)) = []
  /\ isValid (final (@_validate Sample.messages (env (true, [])) p))
     = Some true.
Proof.
  intros error env p. split; [eexists|]; repeat split;
    vm_compute; reflexivity.
Qed.

(** A validator that rejects the manifest with two errors, of which the
    second is on the first element of [host_permissions]: on manifest
    version 2 only the first is reported, on manifest version 3 the
    second is reported as a warning, and the manifest is invalid. *)
Lemma host_permission_codes_by_manifest_version_witness :
  let error :=
    mkSchemaError "/host_permissions/0" "type" (Some "must be string")
      (VStr "tabs") None in
  let other :=
    mkSchemaError "/permissions/0" "type" (Some "must be string") (VNum 5)
      None in
  let env :=
    Custom.imports (fun _ => (VUndefined, None, []))
      (fun _ _ _ => (false, [other; error])) "" [] []
      (fun _ => Ok VNull) (fun _ _ => false) in
  let mv2 := exampleParser (VObj [("manifest_version", VNum 2)]) (VObj []) in
  let mv3 := exampleParser (VObj [("manifest_version", VNum 3)]) (VObj []) in
  (@errorLookup Sample.messages env mv2 error = Ok None
   /\ @validateSchema Sample.messages env mv2
      = Done tt
          (after mv2 (@schemaDiagnostics Sample.messages env mv2 other)
             true))
  /\ exists m,
       @validateSchema Sample.messages env mv3
       = Done tt
           (after mv3
              (@schemaDiagnostics Sample.messages env mv3 other
               ++ [addWarning m])
              true)
       /\ isValid (final (@_validate Sample.messages env mv3)) = Some false.
Proof.
  intros error other env mv2 mv3. split.
  - destruct (@host_permission_codes_by_manifest_version Sample.messages
                env mv2 error
                (Sample.plain "MANIFEST_HOST_PERMISSIONS")
                (withMessage
                   (oneLine
                      ("/host_permissions: Invalid host_permissions"
                       +:+ newline +:+ "          " +:+ dquote +:+ "tabs"
                       +:+ dquote +:+ " at 0."))
                   (mkOverrides
                      (dquote +:+ "/host_permissions/0" +:+ dquote
                       +:+ " must be string")
                      "/host_permissions/0" None)))
      as (Hmv2 & _ & Hloop).
    + vm_compute. reflexivity.
    + apply list_elem_of_here.
    + destruct (Hmv2 eq_refl) as (Hlook & _).
      split; [exact Hlook|].
      destruct (Hloop [other; error] eq_refl) as (Hrun & _ & _ & Hsplit & _).
      * repeat constructor; vm_compute; discriminate.
      * right. left. reflexivity.
      * rewrite Hrun.
        destruct (Hsplit [other] [] eq_refl) as [Hreported _].
        rewrite (Hreported eq_refl). reflexivity.
  - destruct (@host_permission_codes_by_manifest_version Sample.messages
                env mv3 error
                (Sample.plain "MANIFEST_HOST_PERMISSIONS")
                (withMessage
                   (oneLine
                      ("/host_permissions: Invalid host_permissions"
                       +:+ newline +:+ "          " +:+ dquote +:+ "tabs"
                       +:+ dquote +:+ " at 0."))
                   (mkOverrides
                      (dquote +:+ "/host_permissions/0" +:+ dquote
                       +:+ " must be string")
                      "/host_permissions/0" None)))
      as (_ & _ & Hloop).
    + vm_compute. reflexivity.
    + apply list_elem_of_here.
    + destruct (Hloop [other; error] eq_refl)
        as (Hrun & _ & Hvalid & Hsplit & _).
      * repeat constructor; vm_compute; discriminate.
      * right. left. reflexivity.
      * eexists. split; [|exact Hvalid]. rewrite Hrun.
        destruct (Hsplit [other] [] eq_refl) as [_ Hreported].
        rewrite (Hreported eq_refl eq_refl). reflexivity.
Defined.

End HostPermissionExamples.

(** ** Theme images *)

Section ThemeImageProperties.

Context `{Messages} `{Imports} `{ThemeImports}.

Lemma checkThemeImage_run imagePath manifestPropName p _path i present :
  normalizePath (VStr imagePath) = Ok _path ->
  normalizePath (VStr _path) = Ok _path ->
  io p = Some i ->
  hasOwnProperty (files i) _path = Ok present ->
  let ext := getNormalizedExtension imagePath in
  checkThemeImage (VStr imagePath) manifestPropName p =
  if negb present then
    Done None
      (after p
         [addError
            (manifestThemeImageMissing _path
               ("theme.images." +:+ manifestPropName))] true)
  else if negb (includes IMAGE_FILE_EXTENSIONS ext) || String.eqb ext "webp"
  then
    Done None
      (after p [addError (manifestThemeImageWrongExtension _path)] true)
  else Done (Some (_path, ext)) p.
Proof.
  intros Hn Hnn Hio Hown ext. unfold checkThemeImage. step.
  rewrite Hn. cbv beta iota. cbn [extensionOf]. fold ext.
  rewrite (validateFileExistsInPackage_run _ _ _ p _path i present Hnn Hio
             Hown).
  destruct present; cbn [negb]; [|reflexivity].
  destruct (negb (includes IMAGE_FILE_EXTENSIONS ext) || String.eqb ext "webp");
    reflexivity.
Qed.

(** X15.  A theme image is first looked up in the package, under its
    normalized path, and then judged by the extension of the path as the
    manifest gives it.  A file that is missing gets the error of the
    missing image, named after its property, and is not read; a file
    whose extension is not one of the image extensions, or is [webp] even
    if it is one of them, gets the error of the wrong extension and is not
    read either.  Both errors invalidate the manifest. *)
Theorem validateThemeImage_before_reading imagePath manifestPropName p _path
    i present :
  normalizePath (VStr imagePath) = Ok _path ->
  normalizePath (VStr _path) = Ok _path ->
  io p = Some i ->
  hasOwnProperty (files i) _path = Ok present ->
  let ext := getNormalizedExtension imagePath in
  (present = false ->
   validateThemeImage (VStr imagePath) manifestPropName p =
   Done tt
     (after p
        [addError
           (manifestThemeImageMissing _path
              ("theme.images." +:+ manifestPropName))] true))
  /\ (present = true ->
      includes IMAGE_FILE_EXTENSIONS ext = false \/ ext = "webp" ->
      validateThemeImage (VStr imagePath) manifestPropName p =
      Done tt
        (after p [addError (manifestThemeImageWrongExtension _path)] true)).
Proof.
  intros Hn Hnn Hio Hown ext.
  pose proof (checkThemeImage_run imagePath manifestPropName p _path i
                present Hn Hnn Hio Hown) as Hrun.
  cbv zeta in Hrun. fold ext in Hrun.
  unfold validateThemeImage, mbind, M_bind. rewrite Hrun.
  split.
  - intros ->. reflexivity.
  - intros -> [Hext | ->]; cbn [negb].
    + now rewrite Hext.
    + now rewrite String.eqb_refl, orb_true_r.
Qed.

(** X16.  A theme image that is read is judged by the type that its bytes
    decode to.  A type that is not one of the types of theme images, or
    is [image/webp] even if it is one of them, gets the error of the wrong
    type, which invalidates the manifest; an allowed type that is not the
    type of the extension of the file gets a warning only; an image that
    cannot be read or decoded gets the error of the corrupted image, which
    invalidates the manifest (where an icon gets a warning).  Otherwise
    nothing is reported. *)
Theorem validateThemeImage_after_reading imagePath manifestPropName p _path
    i :
  normalizePath (VStr imagePath) = Ok _path ->
  normalizePath (VStr _path) = Ok _path ->
  io p = Some i ->
  hasOwnProperty (files i) _path = Ok true ->
  let ext := getNormalizedExtension imagePath in
  includes IMAGE_FILE_EXTENSIONS ext = true ->
  ext <> "webp" ->
  validateThemeImage (VStr imagePath) manifestPropName p =
  Done tt
    match getImageMetadata (io p) _path with
    | Ok info =>
        if negb (includesMime STATIC_THEME_IMAGE_MIMES (mime info)
                 && negb (isWebp (mime info)))
        then
          after p
            [addError (manifestThemeImageWrongMime _path (mime info))] true
        else if mimeNe (assoc ext FILE_EXTENSIONS_TO_MIME) (mime info) then
          after p
            [addWarning (manifestThemeImageMimeMismatch _path (mime info))]
            false
        else p
    | Throw =>
        after p [addError (manifestThemeImageCorrupted _path)] true
    end.
Proof.
  intros Hn Hnn Hio Hown ext Hext Hwebp.
  pose proof (checkThemeImage_run imagePath manifestPropName p _path i
                true Hn Hnn Hio Hown) as Hrun.
  cbv zeta in Hrun. fold ext in Hrun.
  apply String.eqb_neq in Hwebp. rewrite Hext, Hwebp in Hrun.
  unfold validateThemeImage, mbind, M_bind. rewrite Hrun. cbn [negb orb].
  unfold checkThemeImageMime. step.
  destruct (getImageMetadata (io p) _path) as [info|]; [|reflexivity].
  rewrite negb_andb, negb_involutive.
  destruct (negb (includesMime STATIC_THEME_IMAGE_MIMES (mime info))
            || isWebp (mime info)); [reflexivity|].
  destruct (mimeNe _ _); reflexivity.
Qed.

Lemma validateStaticThemeImages_calls p props calls :
  parsedJSON p = VObj props ->
  truthy (property "theme" props) = true ->
  truthy (getOpt (property "theme" props) "images") = true ->
  themeImageCalls (getOpt (property "theme" props) "images") = Ok calls ->
  validateStaticThemeImages p =
  ('(pending, rejected) ← foldM startThemeImage calls ([], false);
   forEach pending (fun '(_path, ext) => checkThemeImageMime _path ext);;
   if (rejected : bool) then lift Throw else mret tt) p.
Proof.
  intros Hp Htheme Himages Hcalls. unfold validateStaticThemeImages.
  unfold mbind at 1 2 3. unfold M_bind at 1 2 3.
  unfold manifest at 1. rewrite Hp, get_property. cbn [lift].
  unfold js_and. rewrite Htheme, (get_getOpt _ "images" Htheme).
  cbn [lift]. rewrite Himages, Hcalls. reflexivity.
Qed.

Lemma validateStaticThemeImages_one p props image prop :
  parsedJSON p = VObj props ->
  truthy (property "theme" props) = true ->
  truthy (getOpt (property "theme" props) "images") = true ->
  themeImageCalls (getOpt (property "theme" props) "images")
  = Ok [(image, prop)] ->
  validateStaticThemeImages p = validateThemeImage image prop p.
Proof.
  intros Hp Htheme Himages Hcalls.
  rewrite (validateStaticThemeImages_calls p props _ Hp Htheme Himages
             Hcalls).
  unfold validateThemeImage. cbn [foldM]. step. unfold startThemeImage.
  cbn [fst snd].
  destruct (checkThemeImage image prop p) as [[[_path ext]|] p1|p1];
    cbn [forEach app]; step; try reflexivity.
  now destruct (checkThemeImageMime _path ext p1) as [[] p2|p2].
Qed.

(** X17.  [validateStaticThemeImages] does nothing on a manifest without
    [theme] or whose theme has no [images].  An image property is
    validated under its own name: when [images] has one property, the
    method does what [validateThemeImage] does on the path that the
    property holds, or on the element when it holds an array of one
    path; an empty array is no image. *)
Theorem validateStaticThemeImages_by_property p props :
  parsedJSON p = VObj props ->
  let theme := property "theme" props in
  let images := getOpt theme "images" in
  (truthy theme && truthy images = false ->
   validateStaticThemeImages p = Done tt p)
  /\ (forall prop imagePath,
        truthy theme = true ->
        images = VObj [(prop, VStr imagePath)]
        \/ images = VObj [(prop, VArr [VStr imagePath])] ->
        validateStaticThemeImages p
        = validateThemeImage (VStr imagePath) prop p)
  /\ (forall prop,
        truthy theme = true -> images = VObj [(prop, VArr [])] ->
        validateStaticThemeImages p = Done tt p).
Proof.
  intros Hp theme images. split; [|split].
  - intros Hnone. unfold validateStaticThemeImages. step.
    rewrite Hp, get_property. fold theme. cbv beta iota. unfold js_and.
    destruct (truthy theme) eqn:Htheme; cbn [andb] in Hnone.
    + rewrite (get_getOpt theme "images" Htheme). fold images.
      cbv beta iota. now rewrite Hnone.
    + cbv beta iota. now rewrite Htheme.
  - intros prop imagePath Htheme Himages.
    apply (validateStaticThemeImages_one p props _ _ Hp Htheme).
    + fold theme images. now destruct Himages as [-> | ->].
    + fold theme images. unfold themeImageCalls.
      destruct Himages as [-> | ->]; cbn; now rewrite String.eqb_refl.
  - intros prop Htheme Himages.
    rewrite (validateStaticThemeImages_calls p props [] Hp Htheme).
    + reflexivity.
    + fold theme images. now rewrite Himages.
    + fold theme images. rewrite Himages. unfold themeImageCalls. cbn.
      now rewrite String.eqb_refl.
Qed.

End ThemeImageProperties.

Section ThemeImageExamples.

#[local] Existing Instance Sample.messages.
#[local] Existing Instance Sample.imports.
#[local] Existing Instance Custom.theme.

(** An image that is not in the package. *)
Lemma validateThemeImage_before_reading_witness :
  let p := iconParser (VObj []) [] in
  validateThemeImage (VStr "frame.png") "theme_frame" p =
  Done tt
    (after p
       [addError (manifestThemeImageMissing "frame.png"
                    "theme.images.theme_frame")] true).
Proof.
  intros p.
  destruct (@validateThemeImage_before_reading Sample.messages Sample.imports
              Custom.theme "frame.png" "theme_frame" p "frame.png"
              (iconPackage []) false eq_refl eq_refl eq_refl eq_refl)
    as [Hmissing _].
  exact (Hmissing eq_refl).
Defined.

(** A file named [frame.png] whose bytes are those of an [svg]: the type
    is allowed and is not that of the extension. *)
Lemma validateThemeImage_after_reading_witness :
  let images := [("frame.png", [Byte.x20; Byte.x10; Byte.x01])] in
  let p := iconParser (VObj []) images in
  validateThemeImage (VStr "frame.png") "theme_frame" p =
  Done tt
    (after p
       [addWarning
          (manifestThemeImageMimeMismatch "frame.png"
             (MVal "image/svg+xml"))] false).
Proof.
  intros images p.
  refine (@validateThemeImage_after_reading Sample.messages Sample.imports
            Custom.theme "frame.png" "theme_frame" p "frame.png"
            (iconPackage images) eq_refl eq_refl eq_refl eq_refl eq_refl _).
  discriminate.
Defined.

(** A theme whose only image is not in the package. *)
Lemma validateStaticThemeImages_by_property_witness :
  let props :=
    [("theme",
      VObj [("images",
             VObj [("additional_backgrounds", VArr [VStr "sky.png"])])])] in
  let p := iconParser (VObj props) [] in
  validateStaticThemeImages p =
  Done tt
    (after p
       [addError (manifestThemeImageMissing "sky.png"
                    "theme.images.additional_backgrounds")] true).
Proof.
  intros props p.
  destruct (@validateStaticThemeImages_by_property Sample.messages
              Sample.imports Custom.theme p props eq_refl)
    as (_ & Hone & _).
  rewrite (Hone "additional_backgrounds" "sky.png" eq_refl
             (or_intror eq_refl)).
  reflexivity.
Defined.

End ThemeImageExamples.

(** ** The loop of [validateIcons] *)

Section IconLoopProperties.

Context `{Messages} `{Imports}.

Lemma includes_app xs ys x :
  includes (xs ++ ys) x = includes xs x || includes ys x.
Proof. unfold includes. apply existsb_app. Qed.




End IconLoopProperties.

Section IconLoopExamples.

#[local] Existing Instance Sample.messages.
#[local] Existing Instance Sample.imports.


End IconLoopExamples.

(** ** One pass of [validateIcons] *)

Section IconPassProperties.

Context `{Messages} `{Imports}.








End IconPassProperties.

Section IconPassExamples.

#[local] Existing Instance Sample.messages.
#[local] Existing Instance Sample.imports.


End IconPassExamples.

(** ** Files that the manifest refers to *)

Section FileProperties.

Context `{Messages} `{Imports}.

Lemma validateFileExistsInPackage_missing filePath type f q _path i fs :
  normalizePath filePath = Ok _path ->
  io q = Some i -> files i = VObj fs ->
  validateFileExistsInPackage filePath type f q =
  Done (hasOwn _path fs)
    (after q (missingFile fs f type _path)
       (nonEmpty (missingFile fs f type _path))).
Proof.
  intros Hn Hio Hfs.
  rewrite (validateFileExistsInPackage_run filePath type f q _path i
             (hasOwn _path fs) Hn Hio); [|now rewrite Hfs].
  unfold missingFile. destruct (hasOwn _path fs); [|reflexivity].
  simpl. now rewrite after_nil.
Qed.

Lemma forEach_validateFileExistsInPackage (norm : value -> string) type f i fs
    (paths : list value) :
  forall q,
    io q = Some i -> files i = VObj fs ->
    (forall v, In v paths -> normalizePath v = Ok (norm v)) ->
    let ds := flat_map (fun v => missingFile fs f type (norm v)) paths in
    forEach paths (fun v => validateFileExistsInPackage v type f;; mret tt) q
    = Done tt (after q ds (nonEmpty ds)).
Proof.
  induction paths as [|v paths IH]; intros q Hio Hfs Hnorm.
  - simpl. now rewrite after_nil.
  - cbn [forEach flat_map].
    unfold mbind at 1. unfold M_bind at 1.
    unfold mbind at 1. unfold M_bind at 1.
    rewrite (validateFileExistsInPackage_missing v type f q (norm v) i fs
               (Hnorm v (or_introl eq_refl)) Hio Hfs).
    unfold mret at 1. unfold M_ret at 1.
    rewrite (IH (after q _ _) Hio Hfs
               (fun v' Hin => Hnorm v' (or_intror Hin))).
    cbv zeta. now rewrite after_after, nonEmpty_app.
Qed.

(** X19.  The files of [background].  Each element of [scripts], when it
    is an array, and the [page] must be in the package: each one that is
    not gets the error of the missing background file, with the type
    [script] or [page].  A [service_worker] is an error as such when the
    option [enableBackgroundServiceWorker] is not set, whatever the
    version of the manifest, and its file is then not looked up; when the
    option is set, its file must be in the package from manifest version 3
    on, and is not looked up below.  Each error invalidates the
    manifest. *)
Theorem validateBackground_files p props i fs (norm : value -> string) :
  parsedJSON p = VObj props ->
  let background := property "background" props in
  let scripts :=
    match getOpt background "scripts" with
    | VArr l => l
    | _ => []
    end in
  let page := getOpt background "page" in
  let worker := getOpt background "service_worker" in
  truthy background = true ->
  io p = Some i ->
  files i = VObj fs ->
  (forall v, In v scripts -> normalizePath v = Ok (norm v)) ->
  (truthy page = true -> normalizePath page = Ok (norm page)) ->
  (truthy worker = true -> normalizePath worker = Ok (norm worker)) ->
  let ds :=
    flat_map
      (fun v => missingFile fs manifestBackgroundMissing "script" (norm v))
      scripts
    ++ (if truthy page
        then missingFile fs manifestBackgroundMissing "page" (norm page)
        else [])
    ++ (if truthy worker then
          if serviceWorkerDisabled p
          then [addError (manifestFieldUnsupported "/background" None)]
          else if atLeast3 (property "manifest_version" props)
          then missingFile fs manifestBackgroundMissing "script"
                 (norm worker)
          else []
        else []) in
  validateBackground p = Done tt (after p ds (nonEmpty ds)).
Proof.
  intros Hp background scripts page worker Hb Hio Hfs Hnorm Hnpage Hnworker
    ds.
  unfold validateBackground.
  unfold mbind at 1. unfold M_bind at 1. unfold manifest at 1.
  rewrite Hp, get_property. fold background. cbn [lift]. rewrite Hb.
  cbn [when].
  unfold mbind at 1. unfold M_bind at 1.
  rewrite (get_getOpt background "scripts" Hb). cbn [lift].
  set (q1 := after p
               (flat_map
                  (fun v =>
                     missingFile fs manifestBackgroundMissing "script"
                       (norm v)) scripts)
               (nonEmpty
                  (flat_map
                     (fun v =>
                        missingFile fs manifestBackgroundMissing "script"
                          (norm v)) scripts))).
  assert (Hscripts :
            match getOpt background "scripts" with
            | VArr l =>
                forEach l (fun script =>
                  validateFileExistsInPackage script "script"
                    manifestBackgroundMissing;;
                  mret tt)
            | _ => mret tt
            end p = Done tt q1).
  { subst q1 scripts. destruct (getOpt background "scripts");
      try (cbn; now rewrite after_nil).
    apply (forEach_validateFileExistsInPackage norm "script" _ i fs _ p Hio
             Hfs).
    exact Hnorm. }
  unfold mbind at 1. unfold M_bind at 1. rewrite Hscripts.
  unfold mbind at 1. unfold M_bind at 1.
  rewrite (get_getOpt background "page" Hb). fold page. cbn [lift].
  set (dpage := if truthy page
                then missingFile fs manifestBackgroundMissing "page"
                       (norm page)
                else []).
  assert (Hpage :
            when (truthy page)
              (validateFileExistsInPackage page "page"
                 manifestBackgroundMissing;;
               mret tt) q1
            = Done tt (after q1 dpage (nonEmpty dpage))).
  { subst dpage. destruct (truthy page); cbn [when].
    - step.
      rewrite (validateFileExistsInPackage_missing page "page" _ q1
                 (norm page) i fs); try assumption; [reflexivity|].
      now apply Hnpage.
    - cbn. now rewrite after_nil. }
  unfold mbind at 1. unfold M_bind at 1. rewrite Hpage.
  unfold mbind at 1. unfold M_bind at 1.
  rewrite (get_getOpt background "service_worker" Hb). fold worker.
  cbn [lift]. subst ds q1. fold dpage. rewrite after_after.
  set (q2 := after p _ _).
  assert (Hdis : serviceWorkerDisabled q2 = serviceWorkerDisabled p)
    by reflexivity.
  destruct (truthy worker); cbn [when].
  - specialize (Hnworker eq_refl).
    step. rewrite Hdis. destruct (serviceWorkerDisabled p).
    + step. subst q2. rewrite invalid_after, after_after.
      rewrite <- app_assoc, !nonEmpty_app. cbn [nonEmpty].
      now rewrite !orb_true_r.
    + step. subst q2. cbn [parsedJSON after set_isValid set_log].
      rewrite Hp, get_property. cbv beta iota.
      destruct (atLeast3 (property "manifest_version" props)); cbn [when].
      * step.
        rewrite (validateFileExistsInPackage_missing worker "script" _ _
                   (norm worker) i fs); try assumption.
        rewrite after_after, <- app_assoc, !nonEmpty_app, orb_assoc.
        reflexivity.
      * rewrite app_nil_r. now rewrite nonEmpty_app.
  - subst q2. rewrite app_nil_r. now rewrite nonEmpty_app.
Qed.

End FileProperties.

Section FileExamples.

#[local] Existing Instance Sample.messages.
#[local] Existing Instance Sample.imports.

(** A manifest of version 3 with two background scripts, of which one is
    in the package, and a service worker: the option is not set. *)
Lemma validateBackground_files_witness :
  let props :=
    [("manifest_version", VNum 3);
     ("background",
      VObj [("scripts", VArr [VStr "bg.js"; VStr "gone.js"]);
            ("service_worker", VStr "sw.js")])] in
  let p := exampleParser (VObj props) (VObj [("bg.js", VObj [])]) in
  validateBackground p =
  Done tt
    (after p
       [addError (manifestBackgroundMissing "gone.js" "script");
        addError (manifestFieldUnsupported "/background" None)] true).
Proof.
  intros props p.
  refine (@validateBackground_files Sample.messages Sample.imports p props
            (mkIO (VObj [("bg.js", VObj [])]) (fun _ _ => Throw))
            [("bg.js", VObj [])]
            (fun v => match v with VStr s => s | _ => "" end)
            eq_refl eq_refl eq_refl eq_refl _ _ _).
  - intros v [<-|[<-|[]]]; reflexivity.
  - discriminate.
  - reflexivity.
Defined.

End FileExamples.

(** ** A manifest without the keys of the rules *)

Section QuietProperties.

Context `{Messages} `{Imports}.

Lemma collectLocales_none fileList :
  (forall file, In file fileList -> localeDirRe file = None) ->
  collectLocales fileList = ([], []).
Proof.
  unfold collectLocales. induction fileList as [|file fileList IH];
    intros Hnone; [reflexivity|].
  cbn [fold_left]. unfold collectLocale at 2.
  rewrite (Hnone file (or_introl eq_refl)).
  apply IH. intros f Hf. apply Hnone. now right.
Qed.

Lemma rules_quiet q props minVersion :
  parsedJSON q = VObj props ->
  (forall k, In k ruleKeys -> assoc k props = None) ->
  lessThan3 (property "manifest_version" props) = true ->
  isValidVersionString (property "version" props) = true ->
  firefoxStrictMinVersion (VObj props) = Ok minVersion ->
  truthy minVersion = false ->
  (forall i, io q = Some i ->
     exists fs,
       files i = VObj fs
       /\ forall file, In file (map fst fs) -> localeDirRe file = None) ->
  (validateApplications;; mergeBrowserSpecificSettings;;
   validateContentSecurityPolicy;; validateUpdateUrlKey;;
   validateGrantedHostPermissions;; validateBackground;;
   validateContentScripts;; validateDictionaries;; validateUpdateUrl;;
   validateStrictMaxVersion;; validateCompat;; validateVersionString;;
   validateDefaultLocale;; validateLocales;; promoteDeveloper;;
   validateHomePage;; validateRestrictedPermissions;;
   validateExtensionID;; validateHiddenAddon) q = Done tt q.
Proof.
  intros Hq Hkeys Hmv Hversion Hmin Hfalsy Hfiles.
  assert (Hget : forall k, manifest k q = Done (property k props) q).
  { intros k. unfold manifest. now rewrite Hq, get_property. }
  assert (Habsent : forall k,
            In k ruleKeys -> manifest k q = Done VUndefined q).
  { intros k Hk. rewrite Hget. unfold property. now rewrite (Hkeys k Hk). }
  assert (Hgecko : forall k, geckoProperty (parsedJSON q) k = Ok VUndefined).
  { intros k. unfold geckoProperty. rewrite Hq, get_property.
    unfold property. rewrite (Hkeys "applications") by (simpl; tauto).
    reflexivity. }
  assert (Hlocales : validateLocales q = Done tt q).
  { unfold validateLocales. unfold mbind at 1. unfold M_bind at 1.
    unfold this at 1. unfold ioFilesOpt.
    destruct (io q) as [i|] eqn:Hio; [|reflexivity].
    destruct (Hfiles i eq_refl) as (fs & Hfs & Hnone).
    rewrite Hfs. cbn [truthy when].
    unfold mbind at 1. unfold M_bind at 1. unfold ioFiles at 1.
    rewrite Hio, Hfs.
    unfold mbind at 1. unfold M_bind at 1. cbn [keys ownProps lift].
    rewrite (collectLocales_none _ Hnone).
    unfold mbind at 1. unfold M_bind at 1.
    rewrite (Habsent "default_locale") by (simpl; tauto). reflexivity. }
  assert (Hquiet : forall (m k : M unit),
            m q = Done tt q -> (m;; k) q = k q).
  { intros m k Hm. unfold mbind, M_bind. now rewrite Hm. }
  assert (Hread : forall (k : string) (f : value -> M unit),
            In k ruleKeys -> (manifest k ≫= f) q = f VUndefined q).
  { intros k f Hk. unfold mbind, M_bind. now rewrite (Habsent k Hk). }
  rewrite Hquiet.
  2:{ unfold validateApplications. unfold mbind at 1. unfold M_bind at 1.
      rewrite Hget, Hmv. cbn [when]. rewrite Hread by (simpl; tauto).
      apply Hread. simpl. tauto. }
  rewrite Hquiet.
  2:{ unfold mergeBrowserSpecificSettings. apply Hread. simpl. tauto. }
  rewrite Hquiet.
  2:{ unfold validateContentSecurityPolicy. apply Hread. simpl. tauto. }
  rewrite Hquiet.
  2:{ unfold validateUpdateUrlKey. apply Hread. simpl. tauto. }
  rewrite Hquiet.
  2:{ unfold validateGrantedHostPermissions. apply Hread. simpl. tauto. }
  rewrite Hquiet.
  2:{ unfold validateBackground. apply Hread. simpl. tauto. }
  rewrite Hquiet.
  2:{ unfold validateContentScripts. apply Hread. simpl. tauto. }
  rewrite Hquiet.
  2:{ unfold validateDictionaries. apply Hread. simpl. tauto. }
  rewrite Hquiet.
  2:{ unfold validateUpdateUrl. step. rewrite Hgecko.
      now destruct (negb (selfHosted q)). }
  rewrite Hquiet.
  2:{ unfold validateStrictMaxVersion. step. rewrite Hgecko.
      now destruct (negb (isLanguagePack q)). }
  rewrite Hquiet.
  2:{ unfold validateCompat. step. rewrite Hq, Hmin. cbv beta iota.
      rewrite Hfalsy, !andb_false_r. reflexivity. }
  rewrite Hquiet.
  2:{ unfold validateVersionString. unfold mbind at 1. unfold M_bind at 1.
      now rewrite Hget, Hversion. }
  rewrite Hquiet.
  2:{ unfold validateDefaultLocale. apply Hread. simpl. tauto. }
  rewrite Hquiet by exact Hlocales.
  rewrite Hquiet.
  2:{ unfold promoteDeveloper. apply Hread. simpl. tauto. }
  rewrite Hquiet.
  2:{ unfold validateHomePage. apply Hread. simpl. tauto. }
  rewrite Hquiet.
  2:{ unfold validateRestrictedPermissions. apply Hread. simpl. tauto. }
  rewrite Hquiet.
  2:{ unfold validateExtensionID. unfold mbind at 1. unfold M_bind at 1.
      now rewrite Hget, Hmv. }
  unfold validateHiddenAddon. unfold mbind at 1. unfold M_bind at 1.
  unfold this at 1. destruct (negb (isPrivilegedAddon q)); [reflexivity|].
  apply Hread. simpl. tauto.
Qed.

(** X20.  No rule fires without its key.  On a manifest that the schema
    validator accepts, whose version string is valid, whose
    [manifest_version] is below 3, and that has none of the keys that the
    rules look for, in a package without locale directories,
    [_validate] reports nothing and leaves the manifest valid and as it
    was, whatever the other keys of the manifest and the options of the
    parser are. *)
Theorem _validate_quiet p props errors minVersion :
  parsedJSON p = VObj props ->
  (forall k, In k ruleKeys -> assoc k props = None) ->
  runValidator (selectValidator p) (parsedJSON p) (schemaValidatorOptions p)
  = (true, errors) ->
  lessThan3 (property "manifest_version" props) = true ->
  isValidVersionString (property "version" props) = true ->
  firefoxStrictMinVersion (VObj props) = Ok minVersion ->
  truthy minVersion = false ->
  (forall i, io p = Some i ->
     exists fs,
       files i = VObj fs
       /\ forall file, In file (map fst fs) -> localeDirRe file = None) ->
  _validate p = Done tt (set_isValid (Some true) p).
Proof.
  intros Hp Hkeys Hrun Hmv Hversion Hmin Hfalsy Hfiles.
  unfold _validate. unfold mbind at 1. unfold M_bind at 1.
  assert (Hschema : validateSchema p = Done tt (set_isValid (Some true) p)).
  { unfold validateSchema. step. now rewrite Hrun. }
  rewrite Hschema.
  apply (rules_quiet _ props minVersion); assumption.
Qed.

End QuietProperties.

Section QuietExamples.

#[local] Existing Instance Sample.messages.
#[local] Existing Instance Sample.imports.

(** A manifest of version 2 with a name, a version and icons only. *)
Lemma _validate_quiet_witness :
  let props :=
    [("manifest_version", VNum 2); ("name", VStr "Example");
     ("version", VStr "1.0"); ("icons", VObj [("48", VStr "icon.png")])] in
  let p := exampleParser (VObj props) (VObj [("icon.png", VObj [])]) in
  _validate p = Done tt p.
Proof.
  intros props p.
  refine (@_validate_quiet Sample.messages Sample.imports p props [] VNull
            eq_refl _ eq_refl eq_refl eq_refl eq_refl eq_refl _).
  - intros k Hk. simpl in Hk.
    repeat (destruct Hk as [<-|Hk]; [reflexivity|]). destruct Hk.
  - intros i [= <-]. exists [("icon.png", VObj [])].
    split; [reflexivity|]. intros file [<-|[]]. reflexivity.
Defined.

End QuietExamples.

(** ** The messages file of the default locale *)

Lemma substring_full s : String.substring 0 (String.length s) s = s.
Proof. induction s as [|c s IH]; simpl; [reflexivity | now rewrite IH]. Qed.

Lemma substring_append_shift (s1 s2 : string) (a m : nat) :
  String.substring (String.length s1 + a) m (s1 +:+ s2)
  = String.substring a m s2.
Proof. induction s1 as [|c s1 IH]; simpl; [reflexivity | exact IH]. Qed.

Lemma prefix_append (s1 s2 : string) : String.prefix s1 (s1 +:+ s2) = true.
Proof. apply prefix_correct. apply substring_append_l. Qed.

Lemma dropPrefix_append (s1 s2 : string) : dropPrefix s1 (s1 +:+ s2) = Some s2.
Proof.
  unfold dropPrefix. rewrite prefix_append, length_append.
  rewrite Nat.add_comm, Nat.add_sub.
  rewrite <- (Nat.add_0_r (String.length s1)) at 1.
  now rewrite substring_append_shift, substring_full.
Qed.

Lemma messagesFile_rest l :
  messagesFile l
  = (LOCALES_DIRECTORY +:+ "/") +:+ (l +:+ "/" +:+ MESSAGES_JSON).
Proof. reflexivity. Qed.

Lemma noLineTerminator_plainName l :
  plainName l = true -> noLineTerminator l = true.
Proof.
  induction l as [|c l IH]; simpl; [reflexivity|]. intros Hl.
  apply andb_true_iff in Hl as [Hc Hl].
  apply andb_true_iff in Hc as [_ Hc]. rewrite Hc. now apply IH.
Qed.

Lemma lazyUntilSlash_plainName l rest :
  plainName l = true -> lazyUntilSlash (l +:+ "/" +:+ rest) = Some l.
Proof.
  induction l as [|c l IH]; simpl; [reflexivity|]. intros Hl.
  apply andb_true_iff in Hl as [Hc Hl].
  apply andb_true_iff in Hc as [Hslash Hline].
  apply negb_true_iff in Hslash, Hline. rewrite Hslash, Hline.
  now rewrite (IH Hl).
Qed.

Lemma localeDirRe_messagesFile l :
  plainName l = true -> localeDirRe (messagesFile l) = Some l.
Proof.
  intros Hl. unfold localeDirRe.
  rewrite messagesFile_rest, dropPrefix_append.
  now apply lazyUntilSlash_plainName.
Qed.

Lemma localeFileRe_messagesFile l :
  plainName l = true -> localeFileRe (messagesFile l) = true.
Proof.
  intros Hl. unfold localeFileRe.
  rewrite messagesFile_rest, dropPrefix_append.
  cbv zeta. rewrite length_append.
  change (String.length ("/" +:+ MESSAGES_JSON)) with 14.
  change (String.length MESSAGES_JSON + 1) with 14.
  rewrite Nat.add_sub.
  replace (14 <=? String.length l + 14)%nat with true
    by (symmetry; apply Nat.leb_le; lia).
  rewrite substring_append_l, (noLineTerminator_plainName l Hl).
  rewrite !substring_append_shift.
  rewrite <- (Nat.add_0_r (String.length l)) at 1.
  rewrite substring_append_shift. reflexivity.
Qed.

Section DefaultLocaleProperties.

Context `{Messages} `{Imports}.

Lemma property_truthy_In k (fs : list (string * value)) :
  truthy (property k fs) = true -> In k (map fst fs).
Proof.
  unfold property. induction fs as [|[k' v] fs IH]; simpl; [discriminate|].
  destruct (String.eqb_spec k k') as [->|Hne]; [now left|].
  intros Hv. right. now apply IH.
Qed.

(** X21.  The rule on [default_locale] and the rule on the locales agree
    on the messages file of the default locale.  For a default locale [l]
    that is a plain directory name, the first rule looks for
    [_locales/l/messages.json] in the package and reports
    [NO_MESSAGES_FILE], invalidating the manifest, when the package has no
    entry for it; when it finds the file, the second rule counts [l]
    among the locales that have a messages file, and on a package that
    holds this file only the two rules report nothing. *)
Theorem default_locale_messages_file p props l i fs :
  parsedJSON p = VObj props ->
  property "default_locale" props = VStr l ->
  l <> "" ->
  plainName l = true ->
  upath_toUnix (path_join3 LOCALES_DIRECTORY l "messages.json")
  = messagesFile l ->
  io p = Some i ->
  files i = VObj fs ->
  let found := truthy (property (messagesFile l) fs) in
  validateDefaultLocale p =
  Done tt (if found then p else after p [addError NO_MESSAGES_FILE] true)
  /\ (found = true ->
      In l (fst (collectLocales (map fst fs)))
      /\ In l (snd (collectLocales (map fst fs))))
  /\ (found = true -> map fst fs = [messagesFile l] ->
      (validateDefaultLocale;; validateLocales) p = Done tt p).
Proof.
  intros Hp Hdefault Hl Hplain Hjoin Hio Hfs found.
  assert (Htruthy : truthy (VStr l) = true).
  { simpl. apply String.eqb_neq in Hl. now rewrite Hl. }
  assert (Hrun : validateDefaultLocale p =
                 Done tt (if found then p
                          else after p [addError NO_MESSAGES_FILE] true)).
  { unfold validateDefaultLocale. step. rewrite Hp, get_property, Hdefault.
    cbv beta iota. rewrite Htruthy. cbn [when]. step.
    unfold ioFiles. rewrite Hio. cbv beta iota. rewrite Hfs, Hjoin.
    rewrite get_property. cbv beta iota. fold found.
    now destruct found. }
  split; [exact Hrun|]. split.
  - intros Hfound. apply property_truthy_In in Hfound.
    pose proof (localeDirRe_messagesFile l Hplain) as Hdir.
    pose proof (localeFileRe_messagesFile l Hplain) as Hfile.
    split.
    + apply (collectLocales_locales (map fst fs) ([], []));
        [constructor|]. right. now exists (messagesFile l).
    + apply (collectLocales_withMessages (map fst fs) ([], [])).
      right. now exists (messagesFile l).
  - intros Hfound Honly. unfold mbind, M_bind. rewrite Hrun, Hfound.
    unfold validateLocales. step. unfold ioFilesOpt, ioFiles.
    rewrite Hio, Hfs. cbn [truthy when]. cbv beta iota. rewrite Hio, Hfs.
    cbn [keys ownProps]. cbv beta iota. rewrite Honly.
    unfold collectLocales. cbn [fold_left]. unfold collectLocale.
    rewrite (localeDirRe_messagesFile l Hplain),
      (localeFileRe_messagesFile l Hplain).
    cbn [includes existsb negb app]. cbv beta iota zeta.
    rewrite Hp, get_property, Hdefault. cbv beta iota. rewrite Htruthy.
    cbn [negb]. unfold localeErrors. cbn [List.filter includes existsb].
    rewrite String.eqb_refl. reflexivity.
Qed.

End DefaultLocaleProperties.

Section DefaultLocaleExamples.

#[local] Existing Instance Sample.messages.
#[local] Existing Instance Sample.imports.

(** The default locale [fr], with and without its messages file. *)
Lemma default_locale_messages_file_witness :
  let props := [("default_locale", VStr "fr")] in
  let present :=
    exampleParser (VObj props)
      (VObj [("_locales/fr/messages.json", VObj [])]) in
  let absent :=
    exampleParser (VObj props) (VObj [("manifest.json", VObj [])]) in
  (validateDefaultLocale;; validateLocales) present = Done tt present
  /\ validateDefaultLocale absent =
     Done tt (after absent [addError NO_MESSAGES_FILE] true).
Proof.
  intros props present absent.
  assert (Hfr : "fr" <> "") by discriminate.
  split.
  - destruct (@default_locale_messages_file Sample.messages Sample.imports
                present props "fr"
                (mkIO (VObj [("_locales/fr/messages.json", VObj [])])
                   (fun _ _ => Throw))
                [("_locales/fr/messages.json", VObj [])]
                eq_refl eq_refl Hfr eq_refl eq_refl eq_refl eq_refl)
      as (_ & _ & Hboth).
    exact (Hboth eq_refl eq_refl).
  - destruct (@default_locale_messages_file Sample.messages Sample.imports
                absent props "fr"
                (mkIO (VObj [("manifest.json", VObj [])])
                   (fun _ _ => Throw))
                [("manifest.json", VObj [])]
                eq_refl eq_refl Hfr eq_refl eq_refl eq_refl eq_refl)
      as (Hrun & _).
    exact Hrun.
Defined.

End DefaultLocaleExamples.

(** ** A parser without [io] *)

Section WithoutIoProperties.

Context `{Messages} `{Imports}.

(** X22.  A parser that was built without [io] (the default of the
    constructor is [null]) cannot look a file up: on such a parser
    [validateFileExistsInPackage] raises for every path, and so do the
    rule on the default locale, when the manifest declares one, and
    [validateIcons], when the manifest has an icon; none of them reports
    anything before.  The rule on the locales is skipped instead. *)
Theorem rules_without_io p :
  io p = None ->
  (forall filePath type f _path,
     normalizePath filePath = Ok _path ->
     validateFileExistsInPackage filePath type f p = Raised p)
  /\ (forall l,
        get (parsedJSON p) "default_locale" = Ok (VStr l) -> l <> "" ->
        validateDefaultLocale p = Raised p)
  /\ (forall icon icons _path,
        collectIcons (parsedJSON p) = Ok (icon :: icons) ->
        normalizePath (snd icon) = Ok _path ->
        validateIcons p = Raised p)
  /\ validateLocales p = Done tt p.
Proof.
  intros Hio. split; [|split; [|split]].
  - intros filePath type f _path Hn. unfold validateFileExistsInPackage.
    step. rewrite Hn. cbv beta iota. unfold ioFiles. now rewrite Hio.
  - intros l Hget Hl. unfold validateDefaultLocale. step. rewrite Hget.
    cbv beta iota. cbn [truthy]. apply String.eqb_neq in Hl. rewrite Hl.
    cbn [negb when]. step. unfold ioFiles. now rewrite Hio.
  - intros [size iconPath] icons _path Hicons Hn. cbn [snd] in Hn.
    unfold validateIcons. step. rewrite Hicons. cbv beta iota.
    cbn [foldM]. step. unfold checkIcon at 1. step. rewrite Hn.
    cbv beta iota. unfold ioFiles. now rewrite Hio.
  - unfold validateLocales. step. unfold ioFilesOpt. now rewrite Hio.
Qed.

End WithoutIoProperties.

Section WithoutIoExamples.

#[local] Existing Instance Sample.messages.
#[local] Existing Instance Sample.imports.

(** A manifest with a default locale and an icon, in a parser with the
    default options. *)
Lemma rules_without_io_witness :
  let props :=
    [("default_locale", VStr "fr");
     ("icons", VObj [("48", VStr "icon.png")])] in
  let p :=
    mkParser (VObj props) (Some true) [] false None false false false false
      None false false [] in
  validateDefaultLocale p = Raised p
  /\ validateIcons p = Raised p
  /\ validateLocales p = Done tt p.
Proof.
  intros props p.
  destruct (@rules_without_io Sample.messages Sample.imports p eq_refl)
    as (_ & Hlocale & Hicons & Hlocales).
  split; [|split].
  - apply (Hlocale "fr"); [reflexivity | discriminate].
  - apply (Hicons (VStr "48", VStr "icon.png") [] "icon.png");
      reflexivity.
  - exact Hlocales.
Defined.

End WithoutIoExamples.
